(** * Subtitle-Merger-GUI: the folder-scan-and-merge pipeline

    A shallow embedding of the core logic of [merger.py] and [mergerV3.py]
    ([analyze_folder], [merge_subtitles] and the batch loop of the worker),
    followed by the properties of that logic.

    Conventions of the embedding.
    - A Python [str] is a [string] holding its UTF-8 encoding, and a
      [bytes] object is a [string] holding its bytes.
    - A [pathlib.Path] is a record of an anchor and its parts, with the
      POSIX flavour of [pathlib]; [subprocess] is the one of POSIX too.
    - Code that logs, lists a directory, spawns the external tool or
      raises is written in a monad [M] that threads the state of the
      operating system, collects the emitted events in order and carries
      a raised exception.  The operating system is an interface [OS]:
      what a directory contains and what the external tool does is not
      decided by the program. *)

From Stdlib Require Import String Ascii List ZArith Arith Bool Lia DecimalString.
From Stdlib Require Import Permutation Orders Sorted Mergesort.
Import ListNotations.
Open Scope string_scope.

(* ================================================================= *)
(** * Python strings *)

Module Py.

(** The newline character of a Python literal. *)
Definition nl : string := String (ascii_of_nat 10) "".

(** The text with the bytes [l]. *)
Definition bytes (l : list nat) : string :=
  fold_right (fun n s => String (ascii_of_nat n) s) "" l.

(** [str.lower] on ASCII letters. *)
Definition lower_ascii (a : ascii) : ascii :=
  let n := nat_of_ascii a in
  if ((65 <=? n) && (n <=? 90))%nat then ascii_of_nat (n + 32) else a.

(** [str.lower], on the UTF-8 encoding of the text.  An ASCII letter is
    lowered.  Two code points outside ASCII have an ASCII character in
    their lower case: KELVIN SIGN (U+212A, the bytes 226 132 170) lowers
    to [k], and LATIN CAPITAL LETTER I WITH DOT ABOVE (U+0130, the bytes
    196 176) lowers to [i] followed by U+0307 (the bytes 204 135).  The
    lower case of any other code point lies outside ASCII; it is not
    computed, and the bytes of the code point are kept.  The programs
    compare the result with ASCII texts only (the configured extensions),
    and the outcome of such a comparison is exact. *)
Fixpoint lower (s : string) : string :=
  match s with
  | "" => ""
  | String a s1 =>
      match nat_of_ascii a, s1 with
      | 226, String b (String c s3) =>
          if ((nat_of_ascii b =? 132) && (nat_of_ascii c =? 170))%nat
          then String "k" (lower s3)
          else String a (lower s1)
      | 196, String b s2 =>
          if (nat_of_ascii b =? 176)%nat
          then String "i" (String (ascii_of_nat 204) (String (ascii_of_nat 135) (lower s2)))
          else String a (lower s1)
      | _, _ => String (lower_ascii a) (lower s1)
      end
  end.

(** [str(n)] for an [int]. *)
Definition str_int (z : Z) : string := NilZero.string_of_int (Z.to_int z).
Definition str_nat (n : nat) : string := NilZero.string_of_uint (Nat.to_uint n).

(** [sep.join(l)]. *)
Definition join (sep : string) (l : list string) : string := String.concat sep l.

(** [x in l] for a list of strings. *)
Definition in_list (x : string) (l : list string) : bool :=
  existsb (String.eqb x) l.

(** [c in s] for a character. *)
Fixpoint has_char (c : ascii) (s : string) : bool :=
  match s with
  | "" => false
  | String a s' => Ascii.eqb a c || has_char c s'
  end.

(** [s.rfind(c)]: the index of the last occurrence, if any. *)
Fixpoint rfind (c : ascii) (s : string) : option nat :=
  match s with
  | "" => None
  | String a s' =>
      match rfind c s' with
      | Some i => Some (S i)
      | None => if Ascii.eqb a c then Some 0 else None
      end
  end.

(** [s.split(c)]. *)
Fixpoint split (c : ascii) (s : string) : list string :=
  match s with
  | "" => [""]
  | String a s' =>
      if Ascii.eqb a c then "" :: split c s'
      else match split c s' with
           | h :: t => String a h :: t
           | [] => [String a ""]
           end
  end.

(** [needle in hay] for strings. *)
Fixpoint contains (needle hay : string) : bool :=
  String.prefix needle hay ||
  match hay with
  | "" => false
  | String _ hay' => contains needle hay'
  end.

(** Truthiness of a string. *)
Definition nonempty (s : string) : bool :=
  match s with "" => false | _ => true end.

(** The two hexadecimal digits of a byte, as ["%02x"] prints them. *)
Definition hex_digit (n : nat) : ascii :=
  if (n <? 10)%nat then ascii_of_nat (48 + n) else ascii_of_nat (87 + n).

Definition hex2 (a : ascii) : string :=
  let n := nat_of_ascii a in
  String (hex_digit (n / 16)) (String (hex_digit (n mod 16)) "").

(** A continuation byte of UTF-8. *)
Definition is_continuation (a : ascii) : bool :=
  let n := nat_of_ascii a in ((128 <=? n) && (n <? 192))%nat.

(** Where the strict UTF-8 decoder stops, if it does: the byte it stops
    at, the start and the end it reports, and the reason.  [pos] is the
    index of the first byte of [s] in the whole input.  Overlong forms,
    surrogates and code points above U+10FFFF are rejected at their
    second byte, and a sequence the input ends in the middle of is
    reported up to the end of the input. *)
Fixpoint utf8_error (s : string) (pos : nat) : option (ascii * nat * nat * string) :=
  match s with
  | "" => None
  | String a s1 =>
      let ch := nat_of_ascii a in
      if (ch <? 128)%nat then utf8_error s1 (pos + 1)
      else if (ch <? 194)%nat then Some (a, pos, pos + 1, "invalid start byte")
      else if (ch <? 224)%nat then
        match s1 with
        | "" => Some (a, pos, pos + 1, "unexpected end of data")
        | String b s2 =>
            if is_continuation b then utf8_error s2 (pos + 2)
            else Some (a, pos, pos + 1, "invalid continuation byte")
        end
      else if (ch <? 240)%nat then
        match s1 with
        | "" => Some (a, pos, pos + 1, "unexpected end of data")
        | String b s2 =>
            if negb (is_continuation b)
               || (if (nat_of_ascii b <? 160)%nat then (ch =? 224)%nat else (ch =? 237)%nat)
            then Some (a, pos, pos + 1, "invalid continuation byte")
            else
              match s2 with
              | "" => Some (a, pos, pos + 2, "unexpected end of data")
              | String c s3 =>
                  if is_continuation c then utf8_error s3 (pos + 3)
                  else Some (a, pos, pos + 2, "invalid continuation byte")
              end
        end
      else if (ch <? 245)%nat then
        match s1 with
        | "" => Some (a, pos, pos + 1, "unexpected end of data")
        | String b s2 =>
            if negb (is_continuation b)
               || (if (nat_of_ascii b <? 144)%nat then (ch =? 240)%nat else (ch =? 244)%nat)
            then Some (a, pos, pos + 1, "invalid continuation byte")
            else
              match s2 with
              | "" => Some (a, pos, pos + 2, "unexpected end of data")
              | String c s3 =>
                  if negb (is_continuation c)
                  then Some (a, pos, pos + 2, "invalid continuation byte")
                  else
                    match s3 with
                    | "" => Some (a, pos, pos + 3, "unexpected end of data")
                    | String d s4 =>
                        if is_continuation d then utf8_error s4 (pos + 4)
                        else Some (a, pos, pos + 3, "invalid continuation byte")
                    end
              end
        end
      else Some (a, pos, pos + 1, "invalid start byte")
  end.

(** [str(e)] for the [UnicodeDecodeError] of the decoder. *)
Definition decode_error_text (byte : ascii) (start stop : nat) (reason : string)
    : string :=
  if (stop =? start + 1)%nat
  then "'utf-8' codec can't decode byte 0x" ++ hex2 byte ++ " in position "
       ++ str_nat start ++ ": " ++ reason
  else "'utf-8' codec can't decode bytes in position " ++ str_nat start ++ "-"
       ++ str_nat (stop - 1) ++ ": " ++ reason.

(** [data.replace("\r\n", "\n").replace("\r", "\n")]. *)
Fixpoint translate_newlines (s : string) : string :=
  match s with
  | "" => ""
  | String a s1 =>
      if (nat_of_ascii a =? 13)%nat then
        match s1 with
        | String b s2 =>
            if (nat_of_ascii b =? 10)%nat then String b (translate_newlines s2)
            else String (ascii_of_nat 10) (translate_newlines s1)
        | "" => String (ascii_of_nat 10) ""
        end
      else String a (translate_newlines s1)
  end.

End Py.

(* ================================================================= *)
(** * Exceptions and results *)

(** The exceptions the pipeline meets; all derive from [Exception].
    Each carries the text [str(e)] yields; [CalledProcessError] also
    carries the exit status and the captured standard error. *)
Inductive exn : Type :=
| CalledProcessError (returncode : Z) (stderr : string) (msg : string)
| FileNotFoundError (msg : string)
| PermissionError (msg : string)
| NotADirectoryError (msg : string)
| ValueError (msg : string)
| UnicodeDecodeError (msg : string)
| OtherException (msg : string).

(** [str(e)]. *)
Definition exn_str (e : exn) : string :=
  match e with
  | CalledProcessError _ _ m => m
  | FileNotFoundError m => m
  | PermissionError m => m
  | NotADirectoryError m => m
  | ValueError m => m
  | UnicodeDecodeError m => m
  | OtherException m => m
  end.

(** [getattr(e, 'stderr', default)]. *)
Definition getattr_stderr (e : exn) (default : string) : string :=
  match e with
  | CalledProcessError _ stderr _ => stderr
  | _ => default
  end.

Inductive outcome (A : Type) : Type :=
| Ret (a : A)
| Raise (e : exn).
Arguments Ret {A} a.
Arguments Raise {A} e.

(** What [subprocess] makes of a captured stream in text mode with the
    encoding [utf-8]: the bytes are decoded, strictly, and the newlines
    are translated. *)
Definition decode (data : string) : outcome string :=
  match Py.utf8_error data 0 with
  | Some (byte, start, stop, reason) =>
      Raise (UnicodeDecodeError (Py.decode_error_text byte start stop reason))
  | None => Ret (Py.translate_newlines data)
  end.

(* ================================================================= *)
(** * pathlib *)

Module Pathlib.

Definition sep : string := "/".
Definition sep_char : ascii := "/"%char.

(** A pure path: the anchor ([""], ["/"] or ["//"]) and the parts after it. *)
Record Path : Type := mkPath { anchor : string; parts : list string }.

(** Leading slashes of the POSIX flavour: two are kept, any other
    positive number collapses to one. *)
Definition parse_anchor (s : string) : string :=
  match s with
  | String "/" (String "/" (String "/" _)) => "/"
  | String "/" (String "/" _) => "//"
  | String "/" _ => "/"
  | _ => ""
  end.

Definition keep_part (p : string) : bool :=
  negb (String.eqb p "") && negb (String.eqb p ".").

(** [Path(s)]. *)
Definition of_string (s : string) : Path :=
  mkPath (parse_anchor s) (filter keep_part (Py.split sep_char s)).

(** [str(p)]. *)
Definition str (p : Path) : string :=
  match anchor p, parts p with
  | "", [] => "."
  | a, ps => a ++ Py.join sep ps
  end.

(** [p.name]. *)
Definition name (p : Path) : string := last (parts p) "".

(** [p.parent] (for a path with a name). *)
Definition parent (p : Path) : Path := mkPath (anchor p) (removelast (parts p)).

(** The path [iterdir] yields for an entry. *)
Definition child (p : Path) (n : string) : Path :=
  mkPath (anchor p) (parts p ++ [n])%list.

(** The suffix of a file name: from the last dot, unless that dot is the
    first or the last character. *)
Definition name_suffix (n : string) : string :=
  match Py.rfind "." n with
  | Some i =>
      if ((0 <? i) && (i <? String.length n - 1))%nat
      then substring i (String.length n - i) n
      else ""
  | None => ""
  end.

Definition name_stem (n : string) : string :=
  match Py.rfind "." n with
  | Some i =>
      if ((0 <? i) && (i <? String.length n - 1))%nat
      then substring 0 i n
      else n
  | None => n
  end.

Definition suffix (p : Path) : string := name_suffix (name p).
Definition stem (p : Path) : string := name_stem (name p).

(** A name [with_name] accepts. *)
Definition valid_name (n : string) : bool :=
  Py.nonempty n && negb (Py.has_char sep_char n) && negb (String.eqb n ".").

Definition with_name (p : Path) (n : string) : outcome Path :=
  if negb (Py.nonempty (name p)) then Raise (ValueError "path has an empty name")
  else if negb (valid_name n) then Raise (ValueError "Invalid name")
  else Ret (mkPath (anchor p) (removelast (parts p) ++ [n])%list).

Definition with_stem (p : Path) (s : string) : outcome Path :=
  with_name p (s ++ suffix p).

Definition valid_suffix (s : string) : bool :=
  negb (Py.has_char sep_char s) &&
  negb ((Py.nonempty s && negb (String.prefix "." s)) || String.eqb s ".").

Definition with_suffix (p : Path) (s : string) : outcome Path :=
  if negb (valid_suffix s) then Raise (ValueError "Invalid suffix")
  else
    let n := name p in
    if negb (Py.nonempty n) then Raise (ValueError "path has an empty name")
    else
      let old_suffix := suffix p in
      let n' :=
        if negb (Py.nonempty old_suffix) then n ++ s
        else substring 0 (String.length n - String.length old_suffix) n ++ s in
      Ret (mkPath (anchor p) (removelast (parts p) ++ [n'])%list).

End Pathlib.

Import Pathlib.

(* ================================================================= *)
(** * The operating system and the observable events *)

(** What [iterdir] and [is_file] let the program see of a directory
    entry. *)
Record DirEntry : Type := mkEntry { entry_name : string; entry_is_file : bool }.

(** What happens when the external tool is spawned: it runs and exits
    with a status and the bytes captured from its two streams, or
    spawning fails. *)
Inductive spawn_result : Type :=
| Exited (returncode : Z) (stdout stderr : string)
| SpawnFails (e : exn).

(** The operating system.  [listdir] is [os.listdir] behind
    [Path.iterdir], together with the kind [is_file] finds for an entry
    when it answers: it yields the whole enumeration or raises, before
    the first entry is seen.  [is_file_error] is the exception
    [Path.is_file] raises for a path, if it raises: [is_file] answers
    [False] when [stat] finds no such file or no directory, and lets any
    other failure of [stat] through, a denied permission for one.
    [spawn] runs a command and may change the system (the tool writes its
    output file).  An enumeration never holds an empty name, ["."] or a
    name with a separator. *)
Class OS (World : Type) : Type := {
  listdir : World -> Path -> outcome (list DirEntry);
  is_file_error : World -> Path -> option exn;
  spawn : World -> list string -> spawn_result * World;
  listdir_valid : forall w p es,
    listdir w p = Ret es ->
    forallb (fun e => valid_name (entry_name e)) es = true;
  is_file_error_kind : forall w p e,
    is_file_error w p = Some e ->
    (forall m, e <> FileNotFoundError m) /\ (forall m, e <> NotADirectoryError m)
}.

Inductive level : Type := INFO | WARNING | ERROR.

Inductive color : Type := COLOR_SUCCESS | COLOR_ERROR | COLOR_WARNING.

(** Everything the pipeline does that an observer can see, in order. *)
Inductive event : Type :=
(* the [logging] module; [logging.exception] logs at level ERROR *)
| Logged (lvl : level) (msg : string)
(* [subprocess.run(cmd, ...)] was called *)
| Spawned (cmd : list string)
(* the signals of [ProcessingWorker] in merger.py *)
| Progress (index total : nat) (folder_name : string)
| LogMessage (msg : string)
| Summary (success_count total : nat)
| Finished
(* the widgets and the queue of mergerV3.py; the float handed to the
   progress bar is kept as the fraction it is computed from *)
| ProgressBarSet (num den : nat)
| ProgressLabel (text : string)
| Queued (msg : string) (c : option color)
| SetUiState (is_processing : bool).

(** The value [subprocess.run] returns. *)
Record CompletedProcess : Type :=
  mkCompleted { proc_stdout : string; proc_stderr : string }.

(* ================================================================= *)
(** * The effect monad *)

Section Effects.
Context {World : Type}.

Definition M (A : Type) : Type := World -> outcome A * World * list event.

Definition ret {A} (a : A) : M A := fun w => (Ret a, w, []).

Definition raise {A} (e : exn) : M A := fun w => (Raise e, w, []).

Definition bind {A B} (m : M A) (k : A -> M B) : M B := fun w =>
  match m w with
  | (Ret a, w1, ev1) =>
      match k a w1 with
      | (r, w2, ev2) => (r, w2, ev1 ++ ev2)%list
      end
  | (Raise e, w1, ev1) => (Raise e, w1, ev1)
  end.

(** [try: m  except Exception as e: h e]. *)
Definition try_except {A} (m : M A) (h : exn -> M A) : M A := fun w =>
  match m w with
  | (Ret a, w1, ev1) => (Ret a, w1, ev1)
  | (Raise e, w1, ev1) =>
      match h e w1 with
      | (r, w2, ev2) => (r, w2, ev1 ++ ev2)%list
      end
  end.

Definition emit (e : event) : M unit := fun w => (Ret tt, w, [e]).

Definition lift {A} (o : outcome A) : M A := fun w => (o, w, []).

Definition logging (lvl : level) (msg : string) : M unit := emit (Logged lvl msg).

Context `{OS World}.

(** [list(p.iterdir())] with the kind of each entry. *)
Definition iterdir (p : Path) : M (list DirEntry) := fun w => (listdir w p, w, []).

(** [file.is_file()] for the path [file] of the entry [entry] of an
    enumeration. *)
Definition is_file (file : Path) (entry : DirEntry) : M bool := fun w =>
  match is_file_error w file with
  | Some e => (Raise e, w, [])
  | None => (Ret (entry_is_file entry), w, [])
  end.

(** [subprocess.run(cmd, check=True, capture_output=True, text=True,
    encoding='utf-8')]: the two captured streams are decoded, the
    standard output first, and an undecodable stream raises before the
    exit status is looked at; then a nonzero exit status raises
    [CalledProcessError], whose own text neither program reads.  The
    [startupinfo] that hides the console window on Windows does not bear
    on the result and is left out. *)
Definition completed (r : spawn_result) : outcome CompletedProcess :=
  match r with
  | Exited rc out err =>
      match decode out with
      | Raise e => Raise e
      | Ret stdout =>
          match decode err with
          | Raise e => Raise e
          | Ret stderr =>
              if (rc =? 0)%Z then Ret (mkCompleted stdout stderr)
              else Raise (CalledProcessError rc stderr
                            ("Command returned non-zero exit status "
                             ++ Py.str_int rc ++ "."))
          end
      end
  | SpawnFails e => Raise e
  end.

Definition subprocess_run (cmd : list string) : M CompletedProcess := fun w =>
  match spawn w cmd with
  | (r, w') => (completed r, w', [Spawned cmd])
  end.

End Effects.

Declare Scope py_scope.
Delimit Scope py_scope with py.
Notation "x <- m ;; k" := (bind m (fun x => k))
  (at level 61, m at next level, right associativity) : py_scope.
Notation "m ;; k" := (bind m (fun _ => k))
  (at level 61, right associativity) : py_scope.
Open Scope py_scope.

(* ================================================================= *)
(** * merger.py *)

Module Merger.

(** [CONFIG]. *)
Definition VIDEO_EXTENSIONS : list string := [".mp4"; ".mkv"].
Definition SUBTITLE_EXTENSION : string := ".srt".
Definition MKVMERGE_PATH : string := "C:\Program Files\MKVToolNix\mkvmerge.exe".
Definition OUTPUT_SUFFIX : string := "_subbed".

Section WithOS.
Context {World : Type} `{OS World}.

(** The body of the [for] loop of [analyze_folder], with its two local
    variables. *)
Fixpoint analyze_loop (folder : Path) (entries : list DirEntry)
    (video_file : option Path) (subtitle_files : list Path)
    : M (World:=World) (option Path * list Path) :=
  match entries with
  | [] => ret (video_file, subtitle_files)
  | entry :: rest =>
      let file := child folder (entry_name entry) in
      is_regular <- is_file file entry ;;
      if is_regular then
        if Py.in_list (Py.lower (suffix file)) VIDEO_EXTENSIONS then
          match video_file with
          | Some v =>
              logging WARNING ("Multiple videos in " ++ name folder ++ ". Using '"
                               ++ name v ++ "'.") ;;
              analyze_loop folder rest video_file subtitle_files
          | None => analyze_loop folder rest (Some file) subtitle_files
          end
        else if String.eqb (Py.lower (suffix file)) SUBTITLE_EXTENSION then
          analyze_loop folder rest video_file (subtitle_files ++ [file])%list
        else analyze_loop folder rest video_file subtitle_files
      else analyze_loop folder rest video_file subtitle_files
  end.

(** [analyze_folder]: only [FileNotFoundError] is handled, so any other
    exception of the enumeration or of an [is_file] leaves the call, with
    the warnings logged so far. *)
Definition analyze_folder (folder_path : string) : M (option Path * list Path) :=
  let folder := of_string folder_path in
  try_except
    (entries <- iterdir folder ;;
     analyze_loop folder entries None [])
    (fun e =>
       match e with
       | FileNotFoundError _ =>
           logging ERROR ("Could not access folder: " ++ folder_path
                          ++ ". It may have been moved or deleted.") ;;
           ret (None, [])
       | _ => raise e
       end).

(** The command line [merge_subtitles] builds. *)
Definition build_cmd (video_file : Path) (subtitle_files : list Path)
    (output_path : Path) : list string :=
  fold_left
    (fun cmd sub_file => (cmd ++ ["--language"; "0:eng"; str sub_file])%list)
    subtitle_files
    [MKVMERGE_PATH; "-o"; str output_path; str video_file].

(** [merge_subtitles]: the success flag and the error message. *)
Definition merge_subtitles (video_file : Path) (subtitle_files : list Path)
    (output_path : Path) : M (World:=World) (bool * option string) :=
  let cmd := build_cmd video_file subtitle_files output_path in
  logging INFO ("Executing command: " ++ Py.join " " cmd) ;;
  try_except
    (process <- subprocess_run cmd ;;
     logging INFO ("SUCCESS: Merged to '" ++ name output_path ++ "'.") ;;
     (if Py.nonempty (proc_stdout process)
      then logging INFO ("mkvmerge output:" ++ Py.nl ++ proc_stdout process)
      else ret tt) ;;
     ret (true, None))
    (fun e =>
       match e with
       | CalledProcessError returncode stderr _ =>
           let error_msg :=
             "mkvmerge error (Code " ++ Py.str_int returncode ++ "): " ++ stderr in
           logging ERROR error_msg ;;
           ret (false, Some error_msg)
       | FileNotFoundError _ =>
           let error_msg :=
             "mkvmerge not found. Ensure MKVToolNix is installed and in your system's PATH." in
           logging ERROR error_msg ;;
           ret (false, Some error_msg)
       | _ =>
           let error_msg := "Unexpected error: " ++ exn_str e in
           logging ERROR error_msg ;;
           ret (false, Some error_msg)
       end).

(** [video_file.with_stem(video_file.stem + OUTPUT_SUFFIX).with_suffix('.mkv')]. *)
Definition output_path_of (video_file : Path) : outcome Path :=
  match with_stem video_file (stem video_file ++ OUTPUT_SUFFIX) with
  | Ret p => with_suffix p ".mkv"
  | Raise e => Raise e
  end.

(** [error or 'Unknown reason.']. *)
Definition error_or_unknown (error : option string) : string :=
  match error with
  | Some s => if Py.nonempty s then s else "Unknown reason."
  | None => "Unknown reason."
  end.

(** One iteration of the loop of [ProcessingWorker.run]; [i] is the index
    [enumerate] gives, the result is the new [success_count]. *)
Definition process_folder (total_folders i : nat) (folder_path : string)
    (success_count : nat) : M (World:=World) nat :=
  let current_folder_index := i + 1 in
  emit (Progress current_folder_index total_folders (name (of_string folder_path))) ;;
  emit (LogMessage (Py.nl ++ "--- [" ++ Py.str_nat current_folder_index ++ "/"
                    ++ Py.str_nat total_folders ++ "] Analyzing: " ++ folder_path
                    ++ " ---")) ;;
  r <- analyze_folder folder_path ;;
  match r with
  | (None, _) =>
      emit (LogMessage "⚠️ WARNING: No video file found.") ;;
      ret success_count
  | (Some video_file, []) =>
      emit (LogMessage "⚠️ WARNING: No subtitle files (.srt) found.") ;;
      ret success_count
  | (Some video_file, subtitle_files) =>
      emit (LogMessage ("Video: " ++ name video_file)) ;;
      emit (LogMessage ("Subtitles: " ++ Py.str_nat (length subtitle_files)
                        ++ " file(s) found.")) ;;
      output_file <- lift (output_path_of video_file) ;;
      r <- merge_subtitles video_file subtitle_files output_file ;;
      match r with
      | (true, _) =>
          emit (LogMessage ("✅ SUCCESS: Created '" ++ name output_file ++ "'")) ;;
          ret (success_count + 1)
      | (false, error) =>
          emit (LogMessage ("❌ ERROR: Failed to merge. " ++ error_or_unknown error)) ;;
          ret success_count
      end
  end.

Fixpoint run_loop (total_folders i : nat) (folders : list string)
    (success_count : nat) : M (World:=World) nat :=
  match folders with
  | [] => ret success_count
  | folder_path :: rest =>
      success_count' <- process_folder total_folders i folder_path success_count ;;
      run_loop total_folders (S i) rest success_count'
  end.

(** [ProcessingWorker.run]. *)
Definition run (folders : list string) : M (World:=World) unit :=
  let total_folders := length folders in
  success_count <- run_loop total_folders 0 folders 0 ;;
  emit (Summary success_count total_folders) ;;
  emit Finished.

End WithOS.

End Merger.

(* ================================================================= *)
(** * mergerV3.py *)

Module MergerV3.

(** [CONFIG]. *)
Definition VIDEO_EXTENSIONS : list string := [".mp4"; ".mkv"].
Definition SUBTITLE_EXTENSION : string := ".srt".
Definition MKVMERGE_PATH : string := "C:\Program Files\MKVToolNix\mkvmerge.exe".
Definition OUTPUT_SUFFIX : string := "_subbed".

Section WithOS.
Context {World : Type} `{OS World}.

(** The [for] loop of [analyze_folder], with its two local variables.
    The handler of [analyze_folder] goes on to the [return] of the two
    variables, so the loop hands them over as they are when it ends,
    together with the exception that ended it, if one did. *)
Fixpoint analyze_loop (folder_path : string) (entries : list DirEntry)
    (video_file : option Path) (subtitle_files : list Path)
    : M (World:=World) (option Path * list Path * option exn) :=
  match entries with
  | [] => ret (video_file, subtitle_files, None)
  | entry :: rest =>
      let file := child (of_string folder_path) (entry_name entry) in
      r <- try_except (is_regular <- is_file file entry ;; ret (inl is_regular))
                      (fun e => ret (inr e)) ;;
      match r with
      | inr e => ret (video_file, subtitle_files, Some e)
      | inl true =>
          if Py.in_list (Py.lower (suffix file)) VIDEO_EXTENSIONS then
            match video_file with
            | Some _ =>
                logging WARNING ("Multiple videos found in "
                                 ++ name (of_string folder_path)
                                 ++ ", using first found.") ;;
                analyze_loop folder_path rest video_file subtitle_files
            | None => analyze_loop folder_path rest (Some file) subtitle_files
            end
          else if String.eqb (Py.lower (suffix file)) SUBTITLE_EXTENSION then
            analyze_loop folder_path rest video_file (subtitle_files ++ [file])%list
          else analyze_loop folder_path rest video_file subtitle_files
      | inl false => analyze_loop folder_path rest video_file subtitle_files
      end
  end.

(** [analyze_folder]: every exception is handled, and the function then
    returns its two local variables: [None] and the empty list when the
    enumeration raised, and what the loop had gathered when an [is_file]
    raised. *)
Definition analyze_folder (folder_path : string) : M (option Path * list Path) :=
  r <- try_except
         (entries <- iterdir (of_string folder_path) ;;
          analyze_loop folder_path entries None [])
         (fun e => ret (None, [], Some e)) ;;
  match r with
  | (video_file, subtitle_files, Some e) =>
      logging ERROR ("Could not analyze folder " ++ folder_path ++ ": "
                     ++ exn_str e) ;;
      ret (video_file, subtitle_files)
  | (video_file, subtitle_files, None) => ret (video_file, subtitle_files)
  end.

Definition build_cmd (video_file : Path) (subtitle_files : list Path)
    (output_path : Path) : list string :=
  fold_left
    (fun cmd sub_file => (cmd ++ ["--language"; "0:eng"; str sub_file])%list)
    subtitle_files
    [MKVMERGE_PATH; "-o"; str output_path; str video_file].

(** [merge_subtitles]: the success flag and the error message. *)
Definition merge_subtitles (video_file : Path) (subtitle_files : list Path)
    (output_path : Path) : M (World:=World) (bool * option string) :=
  let cmd := build_cmd video_file subtitle_files output_path in
  logging INFO ("Executing command: " ++ Py.join " " cmd) ;;
  try_except
    (process <- subprocess_run cmd ;;
     ret (true, None))
    (fun e =>
       let error_msg := getattr_stderr e (exn_str e) in
       logging ERROR ("Merge failed: " ++ error_msg) ;;
       ret (false, Some error_msg)).

Definition output_path_of (video : Path) : outcome Path :=
  match with_stem video (stem video ++ OUTPUT_SUFFIX) with
  | Ret p => with_suffix p ".mkv"
  | Raise e => Raise e
  end.

(** [f"{error}"] for the second component of what [merge_subtitles]
    returns. *)
Definition format_error (error : option string) : string :=
  match error with
  | Some s => s
  | None => "None"
  end.

(** One iteration of the loop of [processing_thread]. *)
Definition process_folder (total i : nat) (folder_path : string)
    (success_count : nat) : M (World:=World) nat :=
  emit (ProgressBarSet i total) ;;
  emit (ProgressLabel ("Processing " ++ Py.str_nat (i + 1) ++ "/" ++ Py.str_nat total
                       ++ ": " ++ name (of_string folder_path))) ;;
  emit (Queued (Py.nl ++ "--- Analyzing: " ++ folder_path ++ " ---") None) ;;
  r <- analyze_folder folder_path ;;
  match r with
  | (Some video, (_ :: _) as subs) =>
      output <- lift (output_path_of video) ;;
      r <- merge_subtitles video subs output ;;
      match r with
      | (true, _) =>
          emit (Queued ("‚úÖ SUCCESS: Created '" ++ name output ++ "'")
                       (Some COLOR_SUCCESS)) ;;
          ret (success_count + 1)
      | (false, error) =>
          emit (Queued ("‚ùå ERROR: " ++ format_error error) (Some COLOR_ERROR)) ;;
          ret success_count
      end
  | _ =>
      let msg := "No video or subtitles found." in
      emit (Queued ("‚ö†Ô∏è WARNING: " ++ msg) (Some COLOR_WARNING)) ;;
      ret success_count
  end.

Fixpoint run_loop (total i : nat) (folders : list string)
    (success_count : nat) : M (World:=World) nat :=
  match folders with
  | [] => ret success_count
  | folder_path :: rest =>
      success_count' <- process_folder total i folder_path success_count ;;
      run_loop total (S i) rest success_count'
  end.

(** [processing_thread], from the snapshot [folders] of the submitted
    set. *)
Definition processing_thread (folders : list string) : M (World:=World) unit :=
  let total := length folders in
  success_count <- run_loop total 0 folders 0 ;;
  emit (ProgressBarSet 1 1) ;;
  let summary := "Complete! ‚úÖ Processed " ++ Py.str_nat success_count ++ "/"
                 ++ Py.str_nat total ++ " folders successfully." in
  emit (ProgressLabel summary) ;;
  emit (Queued (Py.nl ++ summary) (Some COLOR_SUCCESS)) ;;
  emit (SetUiState false).

End WithOS.

End MergerV3.

(* ================================================================= *)
(** * Reading a run *)

(** The result, the final system state and the events of a run. *)
Definition result_of {World A} (x : outcome A * World * list event) : outcome A :=
  fst (fst x).
Definition world_of {World A} (x : outcome A * World * list event) : World :=
  snd (fst x).
Definition events_of {World A} (x : outcome A * World * list event) : list event :=
  snd x.

(** The commands handed to [subprocess.run], in order. *)
Definition spawned (evs : list event) : list (list string) :=
  flat_map (fun e => match e with Spawned cmd => [cmd] | _ => [] end) evs.

(** The terminal outcome of a folder, as the observer reads it from the
    marker a message starts with. *)
Inductive verdict : Type := Skipped | Succeeded | Failed.

Definition verdict_of_text (warn ok err : string) (m : string) : option verdict :=
  if String.prefix warn m then Some Skipped
  else if String.prefix ok m then Some Succeeded
  else if String.prefix err m then Some Failed
  else None.

Definition verdict_of (e : event) : option verdict :=
  match e with
  | LogMessage m =>
      verdict_of_text "⚠️ WARNING:" "✅ SUCCESS:" "❌ ERROR:" m
  | Queued m _ =>
      verdict_of_text "‚ö†Ô∏è WARNING:" "‚úÖ SUCCESS:" "‚ùå ERROR:" m
  | _ => None
  end.

Definition verdicts (evs : list event) : list verdict :=
  flat_map (fun e => match verdict_of e with Some v => [v] | None => [] end) evs.

(** The progress reports: the signal of merger.py, the label of
    mergerV3.py while it is processing. *)
Definition is_progress (e : event) : bool :=
  match e with
  | Progress _ _ _ => true
  | ProgressLabel m => String.prefix "Processing " m
  | _ => false
  end.

Definition is_logged (e : event) : bool :=
  match e with Logged _ _ => true | _ => false end.

(** Whether an event closes a run. *)
Definition is_summary (e : event) : bool :=
  match e with
  | Summary _ _ => true
  | Finished => true
  | ProgressLabel m => String.prefix "Complete!" m
  | SetUiState _ => true
  | _ => false
  end.

(* ================================================================= *)
(** * The roles of the entries of a folder *)

(** The classification of 4.1 of the specification, written on entries:
    a regular file whose lower-cased suffix is a video extension, and a
    regular file whose lower-cased suffix is the subtitle extension. *)
Definition is_video_entry (e : DirEntry) : bool :=
  entry_is_file e &&
  Py.in_list (Py.lower (name_suffix (entry_name e))) Merger.VIDEO_EXTENSIONS.

Definition is_subtitle_entry (e : DirEntry) : bool :=
  entry_is_file e &&
  String.eqb (Py.lower (name_suffix (entry_name e))) Merger.SUBTITLE_EXTENSION.

Definition entry_path (folder : Path) (e : DirEntry) : Path :=
  child folder (entry_name e).


(** The entries of an enumeration that [analyze_folder] examines: those
    before the first one [is_file] raises for. *)
Fixpoint examined {World : Type} `{OS World} (w : World) (folder : Path)
    (es : list DirEntry) : list DirEntry :=
  match es with
  | [] => []
  | e :: rest =>
      match is_file_error w (child folder (entry_name e)) with
      | Some _ => []
      | None => e :: examined w folder rest
      end
  end.

(** The exception that ends the examination, if one does. *)
Fixpoint examination_error {World : Type} `{OS World} (w : World) (folder : Path)
    (es : list DirEntry) : option exn :=
  match es with
  | [] => None
  | e :: rest =>
      match is_file_error w (child folder (entry_name e)) with
      | Some x => Some x
      | None => examination_error w folder rest
      end
  end.

(** The result of a loop of merger.py: what it returns unless an
    [is_file] raised. *)
Definition loop_result {A} (err : option exn) (a : A) : outcome A :=
  match err with
  | Some x => Raise x
  | None => Ret a
  end.

(** The error text of the three handlers of [merge_subtitles] of
    merger.py. *)
Definition handler_text (e : exn) : string :=
  match e with
  | CalledProcessError returncode stderr _ =>
      "mkvmerge error (Code " ++ Py.str_int returncode ++ "): " ++ stderr
  | FileNotFoundError _ =>
      "mkvmerge not found. Ensure MKVToolNix is installed and in your system's PATH."
  | _ => "Unexpected error: " ++ exn_str e
  end.

(** The log of the handler of mergerV3.py. *)
Definition analysis_error_log (fp : string) (err : option exn) : list event :=
  match err with
  | Some x => [Logged ERROR ("Could not analyze folder " ++ fp ++ ": " ++ exn_str x)]
  | None => []
  end.

(** The video and the subtitles the examined entries lead to. *)
Definition selected_video (folder : Path) (es : list DirEntry) : option Path :=
  option_map (entry_path folder) (hd_error (filter is_video_entry es)).

Definition collected_subtitles (folder : Path) (es : list DirEntry) : list Path :=
  map (entry_path folder) (filter is_subtitle_entry es).

(** The text of the warning of merger.py and of mergerV3.py. *)
Definition multiple_videos_msg (folder v : Path) : string :=
  "Multiple videos in " ++ name folder ++ ". Using '" ++ name v ++ "'.".

Definition multiple_videos_msg_v3 (folder : Path) : string :=
  "Multiple videos found in " ++ name folder ++ ", using first found.".

(** One warning for every video match after the first. *)
Definition ambiguity_warnings (folder : Path) (es : list DirEntry) : list event :=
  match filter is_video_entry es with
  | [] => []
  | first :: more =>
      map (fun _ => Logged WARNING (multiple_videos_msg folder (entry_path folder first)))
          more
  end.

Definition ambiguity_warnings_v3 (folder : Path) (es : list DirEntry) : list event :=
  map (fun _ => Logged WARNING (multiple_videos_msg_v3 folder))
      (tl (filter is_video_entry es)).

(** The command line in the words of the specification: the tool, [-o]
    and the output path, the video, then a language flag, its tag and
    the path for each subtitle in turn. *)
Definition spec_command (tool : string) (video : Path) (subs : list Path)
    (out : Path) : list string :=
  tool :: "-o" :: str out :: str video
  :: flat_map (fun s => ["--language"; "0:eng"; str s]) subs.

(* ================================================================= *)
(** * The events of one folder and of a batch *)

(** What every iteration of merger.py starts with. *)
Definition header (total i : nat) (fp : string) : list event :=
  [Progress (i + 1) total (name (of_string fp));
   LogMessage (Py.nl ++ "--- [" ++ Py.str_nat (i + 1) ++ "/" ++ Py.str_nat total
               ++ "] Analyzing: " ++ fp ++ " ---")].

(** What every iteration of mergerV3.py starts with. *)
Definition header_v3 (total i : nat) (fp : string) : list event :=
  [ProgressBarSet i total;
   ProgressLabel ("Processing " ++ Py.str_nat (i + 1) ++ "/" ++ Py.str_nat total
                  ++ ": " ++ name (of_string fp));
   Queued (Py.nl ++ "--- Analyzing: " ++ fp ++ " ---") None].

Definition no_video_msg : string := "⚠️ WARNING: No video file found.".
Definition no_subtitles_msg : string := "⚠️ WARNING: No subtitle files (.srt) found.".
Definition nothing_found_msg_v3 : string := "‚ö†Ô∏è WARNING: No video or subtitles found.".

(** The events [evs], then the run [x]. *)
Definition after {World A} (evs : list event) (x : outcome A * World * list event)
    : outcome A * World * list event :=
  (result_of x, world_of x, (evs ++ events_of x)%list).

(** How many merges an outcome stands for, and how many successes. *)
Definition merges_of (v : verdict) : nat :=
  match v with Skipped => 0 | _ => 1 end.

Definition successes_of (v : verdict) : nat :=
  match v with Succeeded => 1 | _ => 0 end.

(** The verdict of a merge. *)
Definition verdict_of_merge (ok : bool) : verdict :=
  if ok then Succeeded else Failed.

(** The events of an analysis and of a merge: logs and the spawning of
    the tool. *)
Definition is_quiet (e : event) : bool :=
  match e with
  | Logged _ _ | Spawned _ => true
  | _ => false
  end.

(** The message that ends an iteration with a merge. *)
Definition merge_report (out : Path) (ok : bool) (err : option string) : event :=
  LogMessage
    (if ok then "✅ SUCCESS: Created '" ++ name out ++ "'"
     else "❌ ERROR: Failed to merge. " ++ Merger.error_or_unknown err).

Definition merge_report_v3 (out : Path) (ok : bool) (err : option string) : event :=
  if ok
  then Queued ("‚úÖ SUCCESS: Created '" ++ name out ++ "'") (Some COLOR_SUCCESS)
  else Queued ("‚ùå ERROR: " ++ MergerV3.format_error err) (Some COLOR_ERROR).

(** What [processing_thread] ends with, for [n] successes among [total]
    folders. *)
Definition closing_v3 (n total : nat) : list event :=
  [ProgressBarSet 1 1;
   ProgressLabel ("Complete! ‚úÖ Processed " ++ Py.str_nat n ++ "/"
                  ++ Py.str_nat total ++ " folders successfully.");
   Queued (Py.nl ++ "Complete! ‚úÖ Processed " ++ Py.str_nat n ++ "/"
           ++ Py.str_nat total ++ " folders successfully.")
          (Some COLOR_SUCCESS);
   SetUiState false].

Section Traces.
Context {World : Type} `{OS World}.

(** One iteration of the loop of merger.py that comes to its end, from
    the system state [w]: the state it leaves, its events and its
    terminal outcome.  The folder is skipped for want of a video or of a
    subtitle, or its video is merged and the outcome is what
    [merge_subtitles] returned. *)
Inductive folder_trace (total i : nat) (fp : string) (w : World)
    : World -> list event -> verdict -> Prop :=
| folder_no_video (subs : list Path) (aev : list event) :
    Merger.analyze_folder fp w = (Ret (None, subs), w, aev) ->
    folder_trace total i fp w w
      (header total i fp ++ aev ++ [LogMessage no_video_msg])%list Skipped
| folder_no_subtitles (v : Path) (aev : list event) :
    Merger.analyze_folder fp w = (Ret (Some v, []), w, aev) ->
    folder_trace total i fp w w
      (header total i fp ++ aev ++ [LogMessage no_subtitles_msg])%list Skipped
| folder_merged (v s : Path) (subs : list Path) (aev : list event) (out : Path)
    (ok : bool) (err : option string) (w' : World) (mev : list event) :
    Merger.analyze_folder fp w = (Ret (Some v, s :: subs), w, aev) ->
    Merger.output_path_of v = Ret out ->
    Merger.merge_subtitles v (s :: subs) out w = (Ret (ok, err), w', mev) ->
    folder_trace total i fp w w'
      (header total i fp ++ aev
       ++ [LogMessage ("Video: " ++ name v);
           LogMessage ("Subtitles: " ++ Py.str_nat (length (s :: subs))
                       ++ " file(s) found.")]
       ++ mev ++ [merge_report out ok err])%list
      (verdict_of_merge ok).

(** One iteration of the loop of mergerV3.py. *)
Inductive folder_trace_v3 (total i : nat) (fp : string) (w : World)
    : World -> list event -> verdict -> Prop :=
| folder_skipped_v3 (video : option Path) (subs : list Path) (aev : list event) :
    MergerV3.analyze_folder fp w = (Ret (video, subs), w, aev) ->
    video = None \/ subs = [] ->
    folder_trace_v3 total i fp w w
      (header_v3 total i fp ++ aev
       ++ [Queued nothing_found_msg_v3 (Some COLOR_WARNING)])%list Skipped
| folder_merged_v3 (v s : Path) (subs : list Path) (aev : list event) (out : Path)
    (ok : bool) (err : option string) (w' : World) (mev : list event) :
    MergerV3.analyze_folder fp w = (Ret (Some v, s :: subs), w, aev) ->
    MergerV3.output_path_of v = Ret out ->
    MergerV3.merge_subtitles v (s :: subs) out w = (Ret (ok, err), w', mev) ->
    folder_trace_v3 total i fp w w'
      (header_v3 total i fp ++ aev ++ mev ++ [merge_report_v3 out ok err])%list
      (verdict_of_merge ok).

(** A loop over [folders] from the index [i] and the system state [w]:
    the iterations follow each other in the order of the folders, each
    from the state the one before left; [n] counts the successes. *)
Inductive run_trace
    (folder : nat -> string -> World -> World -> list event -> verdict -> Prop)
    : nat -> list string -> World -> list event -> nat -> World -> Prop :=
| run_done (i : nat) (w : World) : run_trace folder i [] w [] 0 w
| run_folder (i : nat) (fp : string) (rest : list string) (w w1 w' : World)
    (fev : list event) (v : verdict) (evs : list event) (n : nat) :
    folder i fp w w1 fev v ->
    run_trace folder (S i) rest w1 evs n w' ->
    run_trace folder i (fp :: rest) w (fev ++ evs)%list (successes_of v + n) w'.

End Traces.

(** What the observer sees of the folder of index [i] in mergerV3.py:
    its header, then logs and at most one spawning of the tool (one
    unless the folder is skipped), then the one terminal outcome. *)
Definition folder_segment_v3 (total i : nat) (fp : string) (seg : list event)
    : Prop :=
  exists body report v,
    seg = (header_v3 total i fp ++ body ++ [report])%list
    /\ forallb is_quiet body = true
    /\ verdict_of report = Some v
    /\ length (spawned body) = merges_of v.

(* ================================================================= *)
(** * A concrete operating system

    Directories are given by a table from the text of a path to what its
    enumeration does; a path outside the table does not exist.  The tool
    is a function of its command line. *)

Module Demo.

Record world : Type := mkWorld {
  dirs : list (string * outcome (list DirEntry));
  tool : list string -> spawn_result;
  (* the paths [stat] is denied for *)
  denied : list string
}.

Fixpoint lookup (k : string) (t : list (string * outcome (list DirEntry)))
    : option (outcome (list DirEntry)) :=
  match t with
  | [] => None
  | (k', v) :: t' => if String.eqb k k' then Some v else lookup k t'
  end.

Definition demo_listdir (w : world) (p : Path) : outcome (list DirEntry) :=
  match lookup (str p) (dirs w) with
  | Some (Ret es) => Ret (filter (fun e => valid_name (entry_name e)) es)
  | Some (Raise e) => Raise e
  | None => Raise (FileNotFoundError
                     ("[Errno 2] No such file or directory: '" ++ str p ++ "'"))
  end.

Definition demo_is_file_error (w : world) (p : Path) : option exn :=
  if Py.in_list (str p) (denied w)
  then Some (PermissionError ("[Errno 13] Permission denied: '" ++ str p ++ "'"))
  else None.

Definition demo_spawn (w : world) (cmd : list string) : spawn_result * world :=
  (tool w cmd, w).

#[global] Instance demo_os : OS world.
Proof.
  refine {| listdir := demo_listdir; is_file_error := demo_is_file_error;
            spawn := demo_spawn |}.
  - intros w p es. unfold demo_listdir.
    destruct (lookup (str p) (dirs w)) as [[l|e]|]; try discriminate.
    intros [= <-]. apply forallb_forall. intros x Hx.
    now apply filter_In in Hx.
  - intros w p e. unfold demo_is_file_error.
    destruct (Py.in_list (str p) (denied w)); [|discriminate].
    intros [= <-]. split; discriminate.
Defined.

Definition file (n : string) : DirEntry := mkEntry n true.
Definition directory (n : string) : DirEntry := mkEntry n false.

(** A media library: a regular show, a folder with two videos, one
    without subtitles, an empty one, one that cannot be read, a folder
    whose video the tool rejects, and a folder with a private file. *)
Definition library : list (string * outcome (list DirEntry)) :=
  [ ("/media/show", Ret [file "notes.txt"; file "ep1.MP4"; file "ep1.en.srt";
                         directory "extras.srt"; file "ep1.fr.SRT"]);
    ("/media/two", Ret [file "a.mp4"; file "b.mkv"]);
    ("/media/nosubs", Ret [file "film.mkv"]);
    ("/media/empty", Ret []);
    ("/media/onlysubs", Ret [file "x.srt"]);
    ("/media/locked", Raise (PermissionError
                               "[Errno 13] Permission denied: '/media/locked'"));
    ("/media/broken", Ret [file "bad.mkv"; file "bad.srt"]);
    ("/media/guarded", Ret [file "film.mkv"; file "film.en.srt"; file "private";
                            file "film.fr.srt"]) ].

(** The tool fails with status 1 on the video of [/media/broken] and
    succeeds silently otherwise. *)
Definition mkvmerge (cmd : list string) : spawn_result :=
  if Py.in_list "/media/broken/bad.mkv" cmd
  then Exited 1 "" "bad track"
  else Exited 0 "" "".

Definition w0 : world := mkWorld library mkvmerge [].

(** The same library on a machine where the tool is not installed. *)
Definition w_missing : world :=
  mkWorld library
    (fun _ => SpawnFails (FileNotFoundError
                            "[Errno 2] No such file or directory: 'mkvmerge'"))
    [].

(** The same library for a user who may not look at the private file. *)
Definition w_guarded : world :=
  mkWorld library mkvmerge ["/media/guarded/private"].


End Demo.

(* ================================================================= *)
(** * A system whose folders are readable or absent

    Every folder of the table can be enumerated and [is_file] answers for
    each path; a path outside the table does not exist. *)

Module Plain.

Record world : Type := mkWorld {
  dirs : list (string * list DirEntry);
  tool : list string -> spawn_result
}.

Fixpoint lookup (k : string) (t : list (string * list DirEntry))
    : option (list DirEntry) :=
  match t with
  | [] => None
  | (k', v) :: t' => if String.eqb k k' then Some v else lookup k t'
  end.

Definition plain_listdir (w : world) (p : Path) : outcome (list DirEntry) :=
  match lookup (str p) (dirs w) with
  | Some es => Ret (filter (fun e => valid_name (entry_name e)) es)
  | None => Raise (FileNotFoundError
                     ("[Errno 2] No such file or directory: '" ++ str p ++ "'"))
  end.

Definition plain_spawn (w : world) (cmd : list string) : spawn_result * world :=
  (tool w cmd, w).

#[global] Instance plain_os : OS world.
Proof.
  refine {| listdir := plain_listdir; is_file_error := fun _ _ => None;
            spawn := plain_spawn |}.
  - intros w p es. unfold plain_listdir.
    destruct (lookup (str p) (dirs w)) as [l|]; try discriminate.
    intros [= <-]. apply forallb_forall. intros x Hx.
    now apply filter_In in Hx.
  - discriminate.
Defined.

Definition w0 : world :=
  mkWorld
    [ ("/media/show", [mkEntry "ep1.mkv" true; mkEntry "ep1.srt" true]);
      ("/media/nosubs", [mkEntry "film.mp4" true]) ]
    (fun _ => Exited 0 "Muxing took 1 second." "").

End Plain.

(* ================================================================= *)
(** * Counting outcomes *)

(** An entry that can get a role. *)
Definition relevant_entry (e : DirEntry) : bool :=
  is_video_entry e || is_subtitle_entry e.

Definition count_succeeded (vs : list verdict) : nat :=
  length (filter (fun v => match v with Succeeded => true | _ => false end) vs).

(* ================================================================= *)
(** * Python sets, sorting and loops *)

(** [sorted(l)] for a list of strings: ascending in the order of
    [str], which on the bytes of a text is the order of its code
    points. *)
Module StringOrder <: Orders.TotalLeBool.
Definition t : Type := string.
Definition leb : string -> string -> bool := String.leb.
Definition leb_total : forall x y, leb x y = true \/ leb y x = true :=
  String.leb_total.
End StringOrder.

Module StringSort := Mergesort.Sort StringOrder.

Module PySet.

(** A set of strings holds each element once.  The list is the elements
    in the order they were first added. *)
Definition t : Type := list string.

Definition empty : t := [].

(** [s.add(x)]. *)
Definition add (x : string) (s : t) : t :=
  if Py.in_list x s then s else (s ++ [x])%list.

(** Truthiness of a set. *)
Definition truthy (s : t) : bool :=
  match s with [] => false | _ => true end.

End PySet.

(** The order in which a set is iterated is the interpreter's choice (it
    follows the hashes of the elements and the history of the table):
    some arrangement of the elements, the same for the same history. *)
Class SetOrder : Type := {
  set_iter : PySet.t -> list string;
  set_iter_perm : forall s, Permutation (set_iter s) s
}.

(** [sorted(list(s))]. *)
Definition sorted_list `{SetOrder} (s : PySet.t) : list string :=
  StringSort.sort (set_iter s).

Section StateAccess.
Context {World : Type}.

Definition get : M (World:=World) World := fun w => (Ret w, w, []).

Definition modify (f : World -> World) : M (World:=World) unit :=
  fun w => (Ret tt, f w, []).

(** [for x in l: body x]. *)
Fixpoint for_each {A} (l : list A) (body : A -> M (World:=World) unit)
    : M (World:=World) unit :=
  match l with
  | [] => ret tt
  | x :: l' => body x ;; for_each l' body
  end.

End StateAccess.

(* ================================================================= *)
(** * The window of merger.py

    [SubtitleMergerGUI], as far as its handlers read and write it: the
    set of submitted folders, the flag of a running batch, the folders
    handed to the worker, the items of the list widget, the paragraphs of
    the log, the progress widgets and the state of the controls.  The
    handlers run one at a time on the thread of the window. *)

Module MergerGui.

Definition PLACEHOLDER_TEXT : string := "Drag and Drop Folders Here".

(** An item of the list widget: its text, its two flags and its colour. *)
Record Item : Type := mkItem {
  item_text : string;
  item_selectable : bool;
  item_enabled : bool;
  item_foreground : option string
}.

(** [QListWidget.addItem(text)]. *)
Definition new_item (text : string) : Item := mkItem text true true None.

Definition placeholder_item : Item :=
  mkItem PLACEHOLDER_TEXT false false (Some "gray").

Record Controls : Type := mkControls {
  btn_start_disabled : bool;
  btn_add_disabled : bool;
  btn_clear_disabled : bool;
  folder_list_disabled : bool;
  btn_start_text : string;
  btn_start_style : string
}.

Record Gui : Type := mkGui {
  folders_to_process : PySet.t;
  is_processing : bool;
  worker : option (list string);
  folder_list : list Item;
  log_area : list string;
  progress_label : string;
  progress_bar : Z;
  (* the value the running animation of the bar ends at; its course in
     time is not part of the state *)
  animation_end : option Z;
  controls : Controls
}.

Definition set_folders (v : PySet.t) (g : Gui) : Gui :=
  mkGui v (is_processing g) (worker g) (folder_list g) (log_area g)
        (progress_label g) (progress_bar g) (animation_end g) (controls g).
Definition set_is_processing (v : bool) (g : Gui) : Gui :=
  mkGui (folders_to_process g) v (worker g) (folder_list g) (log_area g)
        (progress_label g) (progress_bar g) (animation_end g) (controls g).
Definition set_worker (v : option (list string)) (g : Gui) : Gui :=
  mkGui (folders_to_process g) (is_processing g) v (folder_list g) (log_area g)
        (progress_label g) (progress_bar g) (animation_end g) (controls g).
Definition set_folder_list (v : list Item) (g : Gui) : Gui :=
  mkGui (folders_to_process g) (is_processing g) (worker g) v (log_area g)
        (progress_label g) (progress_bar g) (animation_end g) (controls g).
Definition set_log_area (v : list string) (g : Gui) : Gui :=
  mkGui (folders_to_process g) (is_processing g) (worker g) (folder_list g) v
        (progress_label g) (progress_bar g) (animation_end g) (controls g).
Definition set_progress_label (v : string) (g : Gui) : Gui :=
  mkGui (folders_to_process g) (is_processing g) (worker g) (folder_list g)
        (log_area g) v (progress_bar g) (animation_end g) (controls g).
Definition set_progress_bar (v : Z) (g : Gui) : Gui :=
  mkGui (folders_to_process g) (is_processing g) (worker g) (folder_list g)
        (log_area g) (progress_label g) v (animation_end g) (controls g).
Definition set_animation_end (v : option Z) (g : Gui) : Gui :=
  mkGui (folders_to_process g) (is_processing g) (worker g) (folder_list g)
        (log_area g) (progress_label g) (progress_bar g) v (controls g).
Definition set_controls (v : Controls) (g : Gui) : Gui :=
  mkGui (folders_to_process g) (is_processing g) (worker g) (folder_list g)
        (log_area g) (progress_label g) (progress_bar g) (animation_end g) v.

Definition START_STYLE : string :=
  "font-weight: bold; background-color: #4CAF50; color: white;".
Definition BUSY_STYLE : string :=
  "font-weight: bold; background-color: #FFA500; color: black;".

(** The window after [__init__]. *)
Definition init : Gui :=
  mkGui PySet.empty false None [placeholder_item] [] "Status: Ready" 0 None
        (mkControls false false false false "🚀 Start Merging" START_STYLE).

Section Handlers.
Context `{SetOrder}.

(** [int((current / total) * 100)], which the source computes in
    floating point, is not computed here: [percentage] stands for it. *)
Variable percentage : nat -> nat -> Z.

Definition log_message (message : string) : M (World:=Gui) unit :=
  modify (fun g => set_log_area (log_area g ++ [message]) g).

Definition show_placeholder : M (World:=Gui) unit :=
  modify (set_folder_list []) ;;
  modify (fun g => set_folder_list (folder_list g ++ [placeholder_item]) g).

Definition remove_placeholder_if_exists : M (World:=Gui) unit :=
  g <- get ;;
  match folder_list g with
  | [item] =>
      if String.eqb (item_text item) PLACEHOLDER_TEXT
      then modify (set_folder_list [])
      else ret tt
  | _ => ret tt
  end.

Definition add_folder (folder_path : string) : M (World:=Gui) unit :=
  modify (fun g => set_folders (PySet.add folder_path (folders_to_process g)) g) ;;
  logging INFO ("Added folder to queue: " ++ folder_path).

Definition update_list_view : M (World:=Gui) unit :=
  g <- get ;;
  if negb (PySet.truthy (folders_to_process g)) then show_placeholder
  else
    modify (set_folder_list []) ;;
    for_each (sorted_list (folders_to_process g))
      (fun folder =>
         modify (fun g => set_folder_list (folder_list g ++ [new_item folder]) g)).

(** [dropEvent]: [urls] are the local files of the dropped URLs and
    [is_dir] is what the file system answers at the time of the drop. *)
Definition dropEvent (is_dir : Path -> bool) (urls : list string)
    : M (World:=Gui) unit :=
  g <- get ;;
  if is_processing g then
    log_message "⚠️ Please wait for the current process to finish."
  else
    remove_placeholder_if_exists ;;
    for_each urls
      (fun url =>
         let path := of_string url in
         if is_dir path then add_folder (str path)
         else log_message ("Skipped (Not a folder): " ++ name path)) ;;
    update_list_view.

(** [browse_folders]: [folder] is what the directory dialog returns when
    it is shown, the empty text when it is cancelled. *)
Definition browse_folders (folder : string) : M (World:=Gui) unit :=
  g <- get ;;
  if is_processing g then
    log_message "⚠️ Cannot add folders while processing."
  else if Py.nonempty folder then
    remove_placeholder_if_exists ;;
    add_folder folder ;;
    update_list_view
  else ret tt.

Definition clear_list : M (World:=Gui) unit :=
  g <- get ;;
  if is_processing g then
    log_message "⚠️ Cannot clear list while processing."
  else
    modify (set_folders PySet.empty) ;;
    update_list_view ;;
    logging INFO "Cleared folder list.".

Definition set_ui_state (processing : bool) : M (World:=Gui) unit :=
  modify (set_is_processing processing) ;;
  modify (set_controls
            (if processing
             then mkControls processing processing processing processing
                             "🔄 Processing..." BUSY_STYLE
             else mkControls processing processing processing processing
                             "🚀 Start Merging" START_STYLE)).

(** [start_processing], up to the start of the thread: the worker is
    created with [list(self.folders_to_process)]. *)
Definition start_processing : M (World:=Gui) unit :=
  g <- get ;;
  if negb (PySet.truthy (folders_to_process g)) then
    log_message "⚠️ No folders added. Please add folders to process."
  else
    modify (set_log_area []) ;;
    set_ui_state true ;;
    modify (set_progress_bar 0) ;;
    modify (set_progress_label "Status: Initializing...") ;;
    modify (set_worker (Some (set_iter (folders_to_process g)))).

Definition update_progress (current total : nat) (folder_name : string)
    : M (World:=Gui) unit :=
  let percentage := percentage current total in
  modify (set_progress_label ("Processing " ++ Py.str_nat current ++ "/"
                              ++ Py.str_nat total ++ ": " ++ folder_name)) ;;
  modify (set_animation_end (Some percentage)).

Definition processing_finished (success_count total_count : nat)
    : M (World:=Gui) unit :=
  set_ui_state false ;;
  modify (set_progress_bar 100) ;;
  modify (set_progress_label
            ("Status: Complete! ✅ Processed " ++ Py.str_nat success_count ++ "/"
             ++ Py.str_nat total_count ++ " successfully.")) ;;
  log_message (Py.nl ++ "====================" ++ Py.nl ++ "🎉 Process Complete!"
               ++ Py.nl ++ "====================").

(** The slots the signals of the worker are connected to. *)
Definition slot (e : event) : M (World:=Gui) unit :=
  match e with
  | LogMessage m => log_message m
  | Progress current total folder_name => update_progress current total folder_name
  | Summary success_count total_count => processing_finished success_count total_count
  | _ => ret tt
  end.

(** What the window is asked to handle. *)
Inductive action : Type :=
| Drop (is_dir : Path -> bool) (urls : list string)
| Browse (folder : string)
| ClickClear
| ClickStart
| Signal (e : event).

Definition handle (a : action) : M (World:=Gui) unit :=
  match a with
  | Drop is_dir urls => dropEvent is_dir urls
  | Browse folder => browse_folders folder
  | ClickClear => clear_list
  | ClickStart => start_processing
  | Signal e => slot e
  end.

End Handlers.

(** The window after [g] has handled [actions] in turn. *)
Definition after_actions `{SetOrder} (percentage : nat -> nat -> Z)
    (actions : list action) (g : Gui) : Gui :=
  world_of (for_each actions (handle percentage) g).

(** What the list widget shows for a set of folders. *)
Definition list_view `{SetOrder} (s : PySet.t) : list Item :=
  match s with
  | [] => [placeholder_item]
  | _ => map new_item (sorted_list s)
  end.

(** What the list shows is what the set holds. *)
Definition view_ok `{SetOrder} (g : Gui) : Prop :=
  NoDup (folders_to_process g)
  /\ folder_list g = list_view (folders_to_process g).

(** The actions that edit the set of folders. *)
Definition is_edit (a : action) : bool :=
  match a with
  | Drop _ _ | Browse _ | ClickClear => true
  | _ => false
  end.

(** The line the log gets for an edit refused during a batch. *)
Definition refusal (a : action) : string :=
  match a with
  | Drop _ _ => "⚠️ Please wait for the current process to finish."
  | Browse _ => "⚠️ Cannot add folders while processing."
  | _ => "⚠️ Cannot clear list while processing."
  end.

(** The texts of the [log_message] signals among events. *)
Definition log_lines (evs : list event) : list string :=
  flat_map (fun e => match e with LogMessage m => [m] | _ => [] end) evs.

(** The set after the elements of [l] were added in turn. *)
Definition add_all (l : list string) (s : PySet.t) : PySet.t :=
  fold_left (fun s x => PySet.add x s) l s.

(** Of dropped files, the folders as they are added and the lines for
    the others. *)
Definition dropped_folders (is_dir : Path -> bool) (urls : list string)
    : list string :=
  map (fun url => str (of_string url))
      (filter (fun url => is_dir (of_string url)) urls).

Definition skipped_lines (is_dir : Path -> bool) (urls : list string)
    : list string :=
  map (fun url => "Skipped (Not a folder): " ++ name (of_string url))
      (filter (fun url => negb (is_dir (of_string url))) urls).

(** The controls when no batch runs. *)
Definition idle_controls : Controls :=
  mkControls false false false false "🚀 Start Merging" START_STYLE.

Definition busy_controls : Controls :=
  mkControls true true true true "🔄 Processing..." BUSY_STYLE.

Definition COMPLETE_BANNER : string :=
  Py.nl ++ "====================" ++ Py.nl ++ "🎉 Process Complete!"
  ++ Py.nl ++ "====================".

(** The events a worker emits before its summary. *)
Definition is_loop_event (e : event) : bool :=
  match e with
  | Logged _ _ | Spawned _ | Progress _ _ _ | LogMessage _ => true
  | _ => false
  end.

End MergerGui.

(* ================================================================= *)
(** * The window of mergerV3.py

    [SubtitleMergerApp], as far as its handlers and its worker thread read
    and write it.  The text box is kept as the messages [log_message]
    was called with, each with its colour; the indices and tags it
    computes in the box are not part of the state. *)

Module MergerV3Gui.

(** The code points [str.isspace] holds of, each as its UTF-8 bytes:
    U+0009 to U+000D, U+001C to U+0020, U+0085, U+00A0, U+1680, U+2000 to
    U+200A, U+2028, U+2029, U+202F, U+205F and U+3000. *)
Definition WHITESPACE : list string :=
  map Py.bytes
    [[9]; [10]; [11]; [12]; [13]; [28]; [29]; [30]; [31]; [32];
     [194; 133]; [194; 160]; [225; 154; 128];
     [226; 128; 128]; [226; 128; 129]; [226; 128; 130]; [226; 128; 131];
     [226; 128; 132]; [226; 128; 133]; [226; 128; 134]; [226; 128; 135];
     [226; 128; 136]; [226; 128; 137]; [226; 128; 138];
     [226; 128; 168]; [226; 128; 169]; [226; 128; 175]; [226; 129; 159];
     [227; 128; 128]].

(** [s] without its prefix [p], if it starts with [p]. *)
Fixpoint without_prefix (p s : string) : option string :=
  match p, s with
  | "", _ => Some s
  | String a p', String b s' => if Ascii.eqb a b then without_prefix p' s' else None
  | _, "" => None
  end.

(** [s] without the first of [spaces] it starts with. *)
Fixpoint without_space (spaces : list string) (s : string) : option string :=
  match spaces with
  | [] => None
  | sp :: rest =>
      match without_prefix sp s with
      | Some s' => Some s'
      | None => without_space rest s
      end
  end.

Fixpoint lstrip_loop (spaces : list string) (fuel : nat) (s : string) : string :=
  match fuel with
  | O => s
  | S fuel' =>
      match without_space spaces s with
      | Some s' => lstrip_loop spaces fuel' s'
      | None => s
      end
  end.

Fixpoint reverse (s : string) : string :=
  match s with
  | "" => ""
  | String a s' => reverse s' ++ String a ""
  end.

Definition lstrip (s : string) : string :=
  lstrip_loop WHITESPACE (String.length s) s.

Definition rstrip (s : string) : string :=
  reverse (lstrip_loop (map reverse WHITESPACE) (String.length s) (reverse s)).

(** [s.strip()]. *)
Definition strip (s : string) : string := rstrip (lstrip s).

Definition PLACEHOLDER_LABEL : string := "Drag folders here...".

Record Buttons : Type := mkButtons {
  btn_add_state : string;
  btn_clear_state : string;
  btn_start_state : string;
  btn_start_text : string
}.

Record Gui : Type := mkGui {
  folders_to_process : PySet.t;
  is_processing : bool;
  log_queue : list (string * option color);
  log_area : list (string * option color);
  folder_labels : list string;
  progress_label : string;
  (* the float the bar is set to, as the fraction it is computed from *)
  progress_bar : nat * nat;
  buttons : Buttons;
  threads_started : nat
}.

Definition set_folders (v : PySet.t) (g : Gui) : Gui :=
  mkGui v (is_processing g) (log_queue g) (log_area g) (folder_labels g)
        (progress_label g) (progress_bar g) (buttons g) (threads_started g).
Definition set_is_processing (v : bool) (g : Gui) : Gui :=
  mkGui (folders_to_process g) v (log_queue g) (log_area g) (folder_labels g)
        (progress_label g) (progress_bar g) (buttons g) (threads_started g).
Definition set_log_queue (v : list (string * option color)) (g : Gui) : Gui :=
  mkGui (folders_to_process g) (is_processing g) v (log_area g) (folder_labels g)
        (progress_label g) (progress_bar g) (buttons g) (threads_started g).
Definition set_log_area (v : list (string * option color)) (g : Gui) : Gui :=
  mkGui (folders_to_process g) (is_processing g) (log_queue g) v (folder_labels g)
        (progress_label g) (progress_bar g) (buttons g) (threads_started g).
Definition set_folder_labels (v : list string) (g : Gui) : Gui :=
  mkGui (folders_to_process g) (is_processing g) (log_queue g) (log_area g) v
        (progress_label g) (progress_bar g) (buttons g) (threads_started g).
Definition set_progress_label (v : string) (g : Gui) : Gui :=
  mkGui (folders_to_process g) (is_processing g) (log_queue g) (log_area g)
        (folder_labels g) v (progress_bar g) (buttons g) (threads_started g).
Definition set_progress_bar (v : nat * nat) (g : Gui) : Gui :=
  mkGui (folders_to_process g) (is_processing g) (log_queue g) (log_area g)
        (folder_labels g) (progress_label g) v (buttons g) (threads_started g).
Definition set_buttons (v : Buttons) (g : Gui) : Gui :=
  mkGui (folders_to_process g) (is_processing g) (log_queue g) (log_area g)
        (folder_labels g) (progress_label g) (progress_bar g) v (threads_started g).
Definition set_threads_started (v : nat) (g : Gui) : Gui :=
  mkGui (folders_to_process g) (is_processing g) (log_queue g) (log_area g)
        (folder_labels g) (progress_label g) (progress_bar g) (buttons g) v.

(** The window after [__init__]. *)
Definition init : Gui :=
  mkGui PySet.empty false [] [] [PLACEHOLDER_LABEL] "Status: Ready" (0, 1)
        (mkButtons "normal" "normal" "normal" "üöÄ Start Merging") 0.

Section Handlers.
Context `{SetOrder}.

(** [self.log_queue.put((message, color))]. *)
Definition queue_put (message : string) (c : option color) : M (World:=Gui) unit :=
  modify (fun g => set_log_queue (log_queue g ++ [(message, c)]) g).

Definition log_message (message : string) (c : option color) : M (World:=Gui) unit :=
  modify (fun g => set_log_area (log_area g ++ [(message, c)]) g).

Definition update_folder_list_view : M (World:=Gui) unit :=
  modify (set_folder_labels []) ;;
  g <- get ;;
  if negb (PySet.truthy (folders_to_process g)) then
    modify (fun g => set_folder_labels (folder_labels g ++ [PLACEHOLDER_LABEL]) g)
  else
    for_each (sorted_list (folders_to_process g))
      (fun folder =>
         modify (fun g =>
                   set_folder_labels
                     (folder_labels g ++ ["üìÅ " ++ name (of_string folder)]) g)).

(** [handle_drop]: [paths] is the dropped data split into its paths and
    [is_dir] is what the file system answers at the time of the drop. *)
Definition handle_drop (is_dir : Path -> bool) (paths : list string)
    : M (World:=Gui) unit :=
  for_each paths
    (fun path_str =>
       let path := of_string (strip path_str) in
       if is_dir path then
         modify (fun g => set_folders (PySet.add (str path) (folders_to_process g)) g)
       else queue_put ("Skipped non-folder: " ++ name path) (Some COLOR_WARNING)) ;;
  update_folder_list_view.

(** [browse_folder]: [folder] is what the directory dialog returns, the
    empty text when it is cancelled. *)
Definition browse_folder (folder : string) : M (World:=Gui) unit :=
  if Py.nonempty folder then
    modify (fun g => set_folders (PySet.add folder (folders_to_process g)) g) ;;
    update_folder_list_view
  else ret tt.

Definition clear_list : M (World:=Gui) unit :=
  g <- get ;;
  if is_processing g then ret tt
  else
    modify (set_folders PySet.empty) ;;
    update_folder_list_view.

(** The loop of [process_log_queue]; [fuel] bounds its iterations. *)
Fixpoint drain (fuel : nat) : M (World:=Gui) unit :=
  match fuel with
  | O => ret tt
  | S fuel' =>
      g <- get ;;
      match log_queue g with
      | [] => ret tt
      | (message, c) :: rest =>
          modify (set_log_queue rest) ;;
          log_message message c ;;
          drain fuel'
      end
  end.

(** [process_log_queue], which the window runs again every 100 ms: the
    queue is emptied into the text box. *)
Definition process_log_queue : M (World:=Gui) unit :=
  g <- get ;;
  drain (length (log_queue g)).

Definition set_ui_state (processing : bool) : M (World:=Gui) unit :=
  modify (set_is_processing processing) ;;
  let state := if processing then "disabled" else "normal" in
  modify (fun g => set_buttons (mkButtons state (btn_clear_state (buttons g))
                                          (btn_start_state (buttons g))
                                          (btn_start_text (buttons g))) g) ;;
  modify (fun g => set_buttons (mkButtons (btn_add_state (buttons g)) state
                                          (btn_start_state (buttons g))
                                          (btn_start_text (buttons g))) g) ;;
  modify (fun g => set_buttons (mkButtons (btn_add_state (buttons g))
                                          (btn_clear_state (buttons g)) state
                                          (btn_start_text (buttons g))) g) ;;
  modify (fun g => set_buttons (mkButtons (btn_add_state (buttons g))
                                          (btn_clear_state (buttons g))
                                          (btn_start_state (buttons g))
                                          (if processing then "üîÑ Processing..."
                                           else "üöÄ Start Merging")) g).

(** [start_processing], up to the start of the thread. *)
Definition start_processing : M (World:=Gui) unit :=
  g <- get ;;
  if negb (PySet.truthy (folders_to_process g)) then
    queue_put "Please add folders to process." (Some COLOR_WARNING)
  else
    set_ui_state true ;;
    modify (set_log_area []) ;;
    modify (fun g => set_threads_started (S (threads_started g)) g).

(** What [processing_thread] does to the window, event by event. *)
Definition effect (e : event) : M (World:=Gui) unit :=
  match e with
  | ProgressBarSet num den => modify (set_progress_bar (num, den))
  | ProgressLabel text => modify (set_progress_label text)
  | Queued msg c => queue_put msg c
  | SetUiState processing => set_ui_state processing
  | _ => ret tt
  end.

(** What happens to the window: the user acts, the timer fires, the
    worker thread writes. *)
Inductive action : Type :=
| Drop (is_dir : Path -> bool) (paths : list string)
| Browse (folder : string)
| ClickClear
| ClickStart
| Tick
| Effect (e : event).

Definition handle (a : action) : M (World:=Gui) unit :=
  match a with
  | Drop is_dir paths => handle_drop is_dir paths
  | Browse folder => browse_folder folder
  | ClickClear => clear_list
  | ClickStart => start_processing
  | Tick => process_log_queue
  | Effect e => effect e
  end.

End Handlers.

Definition after_actions `{SetOrder} (actions : list action) (g : Gui) : Gui :=
  world_of (for_each actions handle g).

(** The labels of the folder frame for a set of folders. *)
Definition labels_view `{SetOrder} (s : PySet.t) : list string :=
  match s with
  | [] => [PLACEHOLDER_LABEL]
  | _ => map (fun folder => "üìÅ " ++ name (of_string folder)) (sorted_list s)
  end.

Definition view_ok `{SetOrder} (g : Gui) : Prop :=
  NoDup (folders_to_process g)
  /\ folder_labels g = labels_view (folders_to_process g).

(** The actions of the timer and of the worker thread. *)
Definition is_background (a : action) : bool :=
  match a with
  | Tick | Effect _ => true
  | _ => false
  end.

(** The events the worker thread is behind, and the messages it queues. *)
Definition effects_of (actions : list action) : list event :=
  flat_map (fun a => match a with Effect e => [e] | _ => [] end) actions.

Definition queued_of (evs : list event) : list (string * option color) :=
  flat_map (fun e => match e with Queued m c => [(m, c)] | _ => [] end) evs.

Definition idle_buttons : Buttons :=
  mkButtons "normal" "normal" "normal" "üöÄ Start Merging".

(** Everything of the window but its queue and its text box. *)
Definition widgets (g : Gui)
    : bool * string * (nat * nat) * Buttons * PySet.t * list string * nat :=
  (is_processing g, progress_label g, progress_bar g, buttons g,
   folders_to_process g, folder_labels g, threads_started g).

(** The edits of the user. *)
Definition is_edit (a : action) : bool :=
  match a with
  | Drop _ _ | Browse _ | ClickClear => true
  | _ => false
  end.

(** Of dropped paths, the folders as they are added and the messages for
    the others. *)
Definition dropped_folders (is_dir : Path -> bool) (paths : list string)
    : list string :=
  map (fun p => str (of_string (strip p)))
      (filter (fun p => is_dir (of_string (strip p))) paths).



End MergerV3Gui.

(** The insertion order as the iteration order, for examples. *)
Definition insertion_order : SetOrder.
Proof.
  refine {| set_iter := fun s => s |}.
  intros s. apply Permutation_refl.
Defined.

(* ================================================================= *)
(** * Facts about strings and paths *)

Section StringFacts.

Lemma length_append (a b : string) :
  String.length (a ++ b) = String.length a + String.length b.
Proof. induction a as [|c a IH]; simpl; [reflexivity | now rewrite IH]. Qed.

Lemma append_nil_r (a : string) : a ++ "" = a.
Proof. induction a as [|c a IH]; simpl; [reflexivity | now rewrite IH]. Qed.

Lemma append_assoc (a b c : string) : (a ++ b) ++ c = a ++ (b ++ c).
Proof. induction a as [|x a IH]; simpl; [reflexivity | now rewrite IH]. Qed.

Lemma substring_full (s : string) : substring 0 (String.length s) s = s.
Proof. induction s as [|c s IH]; simpl; [reflexivity | now rewrite IH]. Qed.

Lemma substring_app_left (a b : string) :
  substring 0 (String.length a) (a ++ b) = a.
Proof.
  induction a as [|c a IH]; simpl.
  - destruct b; reflexivity.
  - now rewrite IH.
Qed.

Lemma substring_app_right (a b : string) :
  substring (String.length a) (String.length b) (a ++ b) = b.
Proof.
  induction a as [|c a IH]; simpl; [apply substring_full | exact IH].
Qed.

Lemma substring_split (s : string) (i : nat) :
  i <= String.length s ->
  substring 0 i s ++ substring i (String.length s - i) s = s.
Proof.
  revert i; induction s as [|c s IH]; intros [|i] Hi; simpl in *;
    try reflexivity; try lia.
  - now rewrite substring_full.
  - rewrite IH by lia. reflexivity.
Qed.

Lemma length_substring (s : string) (i n : nat) :
  i + n <= String.length s -> String.length (substring i n s) = n.
Proof.
  revert i n; induction s as [|c s IH]; intros [|i] [|n] Hi; simpl in *;
    try reflexivity; try lia.
  - rewrite IH by lia. reflexivity.
  - apply IH. lia.
  - apply IH. lia.
Qed.

Lemma rfind_lt (c : ascii) (s : string) (i : nat) :
  Py.rfind c s = Some i -> i < String.length s.
Proof.
  revert i; induction s as [|a s IH]; simpl; intros i Hi; [discriminate|].
  destruct (Py.rfind c s) as [j|].
  - injection Hi as <-. specialize (IH j eq_refl). lia.
  - destruct (Ascii.eqb a c); [injection Hi as <-; lia | discriminate].
Qed.

Lemma rfind_app (c : ascii) (a b : string) :
  Py.rfind c (a ++ b) =
  match Py.rfind c b with
  | Some i => Some (String.length a + i)
  | None => Py.rfind c a
  end.
Proof.
  induction a as [|x a IH]; simpl.
  - destruct (Py.rfind c b); reflexivity.
  - rewrite IH. destruct (Py.rfind c b); reflexivity.
Qed.

(** The text from the last occurrence of [c] on holds no later [c]. *)
Lemma rfind_tail (c : ascii) (s : string) (i : nat) :
  Py.rfind c s = Some i ->
  Py.rfind c (substring i (String.length s - i) s) = Some 0.
Proof.
  revert i; induction s as [|a s IH]; simpl; intros i Hi; [discriminate|].
  destruct (Py.rfind c s) as [j|] eqn:Hj.
  - injection Hi as <-. simpl. apply IH. reflexivity.
  - destruct (Ascii.eqb a c) eqn:Hac; [|discriminate].
    injection Hi as <-. simpl. rewrite substring_full, Hj, Hac. reflexivity.
Qed.

Lemma has_char_app (c : ascii) (a b : string) :
  Py.has_char c (a ++ b) = Py.has_char c a || Py.has_char c b.
Proof.
  induction a as [|x a IH]; simpl; [reflexivity|].
  rewrite IH. apply orb_assoc.
Qed.

Lemma nonempty_length (s : string) : Py.nonempty s = true <-> 0 < String.length s.
Proof. destruct s; simpl; split; intros; try lia; try discriminate; reflexivity. Qed.

Lemma prefix_app (a b : string) : String.prefix a (a ++ b) = true.
Proof.
  induction a as [|x a IH]; simpl.
  - destruct b; reflexivity.
  - destruct (ascii_dec x x) as [_|n]; [exact IH | contradiction].
Qed.

Lemma contains_prefix (s h : string) :
  String.prefix s h = true -> Py.contains s h = true.
Proof. intros Hp. destruct h; simpl in *; rewrite Hp; reflexivity. Qed.

Lemma contains_infix (a s b : string) : Py.contains s (a ++ s ++ b) = true.
Proof.
  induction a as [|x a IH].
  - change ("" ++ s ++ b) with (s ++ b). apply contains_prefix, prefix_app.
  - simpl. rewrite IH. apply orb_true_r.
Qed.

End StringFacts.

Section PathFacts.

Lemma name_child (p : Path) (n : string) : name (child p n) = n.
Proof. unfold name, child; simpl. apply last_last. Qed.

Lemma parent_child (p : Path) (n : string) : parent (child p n) = p.
Proof.
  unfold parent, child; simpl. rewrite removelast_last. now destruct p.
Qed.

Lemma suffix_child (p : Path) (n : string) : suffix (child p n) = name_suffix n.
Proof. unfold suffix. now rewrite name_child. Qed.

Lemma stem_child (p : Path) (n : string) : stem (child p n) = name_stem n.
Proof. unfold stem. now rewrite name_child. Qed.

(** A name is its stem followed by its suffix. *)
Lemma name_stem_suffix (n : string) : name_stem n ++ name_suffix n = n.
Proof.
  unfold name_stem, name_suffix.
  destruct (Py.rfind "." n) as [i|] eqn:Hi; [|apply append_nil_r].
  destruct ((0 <? i) && (i <? String.length n - 1))%nat; [|apply append_nil_r].
  apply substring_split. apply rfind_lt in Hi. lia.
Qed.

(** What a nonempty suffix looks like. *)
Lemma name_suffix_shape (n : string) :
  name_suffix n <> "" ->
  0 < String.length (name_stem n) /\
  2 <= String.length (name_suffix n) /\
  Py.rfind "." (name_suffix n) = Some 0.
Proof.
  unfold name_stem, name_suffix.
  destruct (Py.rfind "." n) as [i|] eqn:Hi; [|congruence].
  destruct ((0 <? i) && (i <? String.length n - 1))%nat eqn:Hc; [|congruence].
  intros _. apply andb_true_iff in Hc as [H0 H1].
  apply Nat.ltb_lt in H0, H1.
  rewrite !length_substring by lia.
  repeat split; try lia. now apply rfind_tail.
Qed.

(** Inserting dot-free text between stem and suffix keeps the suffix. *)
Lemma name_suffix_insert (st mid sfx : string) :
  0 < String.length st ->
  2 <= String.length sfx ->
  Py.rfind "." sfx = Some 0 ->
  name_suffix (st ++ mid ++ sfx) = sfx.
Proof.
  intros Hst Hsfx Hdot. unfold name_suffix.
  rewrite <- append_assoc, rfind_app, Hdot, !length_append.
  rewrite Nat.add_0_r.
  replace ((0 <? String.length st + String.length mid) &&
           (String.length st + String.length mid <?
            String.length st + String.length mid + String.length sfx - 1))%nat
    with true.
  2:{ symmetry. apply andb_true_iff; split; apply Nat.ltb_lt; lia. }
  replace (String.length st + String.length mid + String.length sfx
           - (String.length st + String.length mid)) with (String.length sfx) by lia.
  rewrite <- length_append. apply substring_app_right.
Qed.

End PathFacts.

(* ================================================================= *)
(** * Facts about the effect monad *)

Section MonadFacts.
Context {World : Type}.

Lemma bind_ret {A B} (a : A) (k : A -> M (World:=World) B) (w : World)
    (r : outcome B) (w' : World) (ev : list event) :
  k a w = (r, w', ev) -> bind (ret a) k w = (r, w', ev).
Proof. unfold bind, ret. now intros ->. Qed.

Lemma bind_emit {B} (e : event) (k : unit -> M (World:=World) B) (w : World)
    (r : outcome B) (w' : World) (ev : list event) :
  k tt w = (r, w', ev) -> bind (emit e) k w = (r, w', e :: ev).
Proof. unfold bind, emit. now intros ->. Qed.

Lemma bind_logging {B} (l : level) (s : string) (k : unit -> M (World:=World) B)
    (w : World) (r : outcome B) (w' : World) (ev : list event) :
  k tt w = (r, w', ev) -> bind (logging l s) k w = (r, w', Logged l s :: ev).
Proof. apply bind_emit. Qed.

Lemma bind_returns {A B} (m : M (World:=World) A) (k : A -> M B) (w : World)
    (a : A) (w1 : World) (ev1 : list event)
    (r : outcome B) (w2 : World) (ev2 : list event) :
  m w = (Ret a, w1, ev1) -> k a w1 = (r, w2, ev2) ->
  bind m k w = (r, w2, (ev1 ++ ev2)%list).
Proof. unfold bind. now intros -> ->. Qed.

Lemma bind_raises {A B} (m : M (World:=World) A) (k : A -> M B) (w : World)
    (e : exn) (w1 : World) (ev1 : list event) :
  m w = (Raise e, w1, ev1) -> bind m k w = (Raise e, w1, ev1).
Proof. unfold bind. now intros ->. Qed.

Lemma bind_silent {A B} (m : M (World:=World) A) (k : A -> M B) (w : World)
    (a : A) (w1 : World) :
  m w = (Ret a, w1, []) -> bind m k w = k a w1.
Proof. unfold bind. intros ->. now destruct (k a w1) as [[r w2] ev]. Qed.

End MonadFacts.

(* ================================================================= *)
(** * The output path *)

Section OutputPath.

Lemma valid_name_parts (n : string) :
  valid_name n = true ->
  0 < String.length n /\ Py.has_char sep_char n = false.
Proof.
  unfold valid_name. intros Hv.
  apply andb_true_iff in Hv as [Hv _].
  apply andb_true_iff in Hv as [Hne Hsep].
  split; [now apply nonempty_length | now apply negb_true_iff].
Qed.

Lemma valid_name_intro (n : string) :
  2 <= String.length n -> Py.has_char sep_char n = false -> valid_name n = true.
Proof.
  intros Hlen Hsep. unfold valid_name. rewrite Hsep.
  destruct n as [|a [|b n]]; simpl in *; try lia.
  destruct (Ascii.eqb a "."); reflexivity.
Qed.

(** The path computed for a file [n] of [folder] that has a suffix:
    the stem, the marker, and [.mkv], in the same folder. *)
Lemma output_path_of_child (folder : Path) (n : string) :
  valid_name n = true ->
  name_suffix n <> "" ->
  Merger.output_path_of (child folder n)
  = Ret (child folder (name_stem n ++ Merger.OUTPUT_SUFFIX ++ ".mkv")).
Proof.
  intros Hvalid Hsfx.
  destruct (valid_name_parts n Hvalid) as [Hlen Hsep].
  destruct (name_suffix_shape n Hsfx) as (Hst & Hlsfx & Hdot).
  pose proof (name_stem_suffix n) as Hsplit.
  assert (Hsep' : Py.has_char sep_char (name_stem n) = false
                  /\ Py.has_char sep_char (name_suffix n) = false).
  { rewrite <- Hsplit, has_char_app in Hsep. now apply orb_false_iff in Hsep. }
  destruct Hsep' as [Hsep1 Hsep2].
  set (st := name_stem n) in *. set (sfx := name_suffix n) in *.
  unfold Merger.output_path_of, with_stem, with_name.
  rewrite stem_child, suffix_child, name_child. fold st sfx.
  assert (Hn1 : valid_name ((st ++ Merger.OUTPUT_SUFFIX) ++ sfx) = true).
  { apply valid_name_intro.
    - rewrite !length_append. lia.
    - rewrite !has_char_app, Hsep1, Hsep2. reflexivity. }
  assert (Hne : Py.nonempty n = true) by now apply nonempty_length.
  rewrite Hne, Hn1. cbn [negb].
  unfold with_suffix. cbn [valid_suffix negb].
  change (negb (valid_suffix ".mkv")) with false. cbv iota.
  cbn [anchor parts child]. rewrite removelast_last.
  unfold suffix, name. cbn [parts]. rewrite last_last.
  assert (Hne1 : Py.nonempty ((st ++ Merger.OUTPUT_SUFFIX) ++ sfx) = true).
  { apply nonempty_length. rewrite !length_append. lia. }
  rewrite Hne1. cbn [negb].
  rewrite append_assoc, (name_suffix_insert st Merger.OUTPUT_SUFFIX sfx Hst Hlsfx Hdot).
  assert (Hne2 : Py.nonempty sfx = true) by (apply nonempty_length; lia).
  rewrite Hne2. cbn [negb].
  rewrite <- append_assoc.
  replace (String.length ((st ++ Merger.OUTPUT_SUFFIX) ++ sfx) - String.length sfx)
    with (String.length (st ++ Merger.OUTPUT_SUFFIX))
    by (rewrite (length_append (st ++ _) sfx); lia).
  rewrite substring_app_left, removelast_last, append_assoc. reflexivity.
Qed.

Lemma output_path_of_v3 (p : Path) :
  MergerV3.output_path_of p = Merger.output_path_of p.
Proof. reflexivity. Qed.

End OutputPath.

Section AnalyzeFacts.
Context {World : Type} `{OS World}.

Lemma video_is_not_subtitle (x : string) :
  Py.in_list x Merger.VIDEO_EXTENSIONS = true ->
  String.eqb x Merger.SUBTITLE_EXTENSION = false.
Proof.
  intros Hv. destruct (String.eqb x Merger.SUBTITLE_EXTENSION) eqn:E; [|reflexivity].
  apply String.eqb_eq in E. subst x. discriminate Hv.
Qed.

Lemma video_entry_not_subtitle (e : DirEntry) :
  is_video_entry e = true -> is_subtitle_entry e = false.
Proof.
  unfold is_video_entry, is_subtitle_entry. intros Hv.
  apply andb_true_iff in Hv as [-> Hv].
  now rewrite (video_is_not_subtitle _ Hv).
Qed.

Lemma is_file_answers (file : Path) (e : DirEntry) (w : World) :
  is_file_error w file = None -> is_file file e w = (Ret (entry_is_file e), w, []).
Proof. unfold is_file. now intros ->. Qed.

Lemma is_file_raises (file : Path) (e : DirEntry) (w : World) (x : exn) :
  is_file_error w file = Some x -> is_file file e w = (Raise x, w, []).
Proof. unfold is_file. now intros ->. Qed.

(** When [is_file] answers for every entry, every entry is examined. *)
Lemma examined_all (w : World) (folder : Path) (es : list DirEntry) :
  examination_error w folder es = None -> examined w folder es = es.
Proof.
  induction es as [|e es IH]; [reflexivity|]. cbn [examination_error examined].
  destruct (is_file_error w (child folder (entry_name e))); [discriminate|].
  intros Hn. now rewrite IH.
Qed.

Lemma examination_error_all (w : World) (folder : Path) (es : list DirEntry) :
  (forall e, In e es -> is_file_error w (child folder (entry_name e)) = None) ->
  examination_error w folder es = None.
Proof.
  induction es as [|e es IH]; [reflexivity|]. intros Hall.
  cbn [examination_error]. rewrite (Hall e (or_introl eq_refl)).
  apply IH. intros x Hx. apply Hall. now right.
Qed.

(** The examined entries are the first entries of the enumeration. *)
Lemma examined_prefix (w : World) (folder : Path) (es : list DirEntry) :
  exists rest, es = (examined w folder es ++ rest)%list.
Proof.
  induction es as [|e es [rest IH]]; [now exists []|]. cbn [examined].
  destruct (is_file_error w (child folder (entry_name e))).
  - now exists (e :: es).
  - exists rest. cbn [app]. now rewrite <- IH.
Qed.

Lemma examined_incl (w : World) (folder : Path) (es : list DirEntry) (e : DirEntry) :
  In e (examined w folder es) -> In e es.
Proof.
  destruct (examined_prefix w folder es) as [rest Heq]. intros Hin.
  rewrite Heq. apply in_or_app. now left.
Qed.

(** The loop once a video is held: the video stays, every further video
    match is a warning, every subtitle is appended. *)
Lemma analyze_loop_held (folder : Path) (es : list DirEntry) (v : Path)
    (subs : list Path) (w : World) :
  Merger.analyze_loop folder es (Some v) subs w
  = (loop_result (examination_error w folder es)
       (Some v, (subs ++ collected_subtitles folder (examined w folder es))%list), w,
     map (fun _ => Logged WARNING (multiple_videos_msg folder v))
         (filter is_video_entry (examined w folder es))).
Proof.
  revert subs; induction es as [|e es IH]; intros subs.
  - unfold collected_subtitles. simpl. now rewrite app_nil_r.
  - cbn [Merger.analyze_loop examined examination_error].
    destruct (is_file_error w (child folder (entry_name e))) as [x|] eqn:Hf.
    + apply bind_raises. now apply is_file_raises.
    + rewrite (bind_silent _ _ _ _ _ (is_file_answers _ e _ Hf)).
      unfold collected_subtitles, is_video_entry, is_subtitle_entry in *.
      cbn [filter app]. rewrite suffix_child.
      destruct (entry_is_file e); cbn [andb]; [|apply IH].
      destruct (Py.in_list _ Merger.VIDEO_EXTENSIONS) eqn:Hv.
      * rewrite (video_is_not_subtitle _ Hv).
        unfold multiple_videos_msg at 1. cbn [map].
        apply bind_logging. apply IH.
      * destruct (String.eqb _ Merger.SUBTITLE_EXTENSION).
        -- rewrite IH. cbn [map]. now rewrite <- app_assoc.
        -- apply IH.
Qed.

(** The loop from its start. *)
Lemma analyze_loop_start (folder : Path) (es : list DirEntry)
    (subs : list Path) (w : World) :
  Merger.analyze_loop folder es None subs w
  = (loop_result (examination_error w folder es)
       (selected_video folder (examined w folder es),
        (subs ++ collected_subtitles folder (examined w folder es))%list), w,
     ambiguity_warnings folder (examined w folder es)).
Proof.
  revert subs; induction es as [|e es IH]; intros subs.
  - unfold collected_subtitles. simpl. now rewrite app_nil_r.
  - cbn [Merger.analyze_loop examined examination_error].
    destruct (is_file_error w (child folder (entry_name e))) as [x|] eqn:Hf.
    + apply bind_raises. now apply is_file_raises.
    + rewrite (bind_silent _ _ _ _ _ (is_file_answers _ e _ Hf)).
      unfold selected_video, collected_subtitles, ambiguity_warnings,
        is_video_entry, is_subtitle_entry in *.
      cbn [filter app]. rewrite suffix_child.
      destruct (entry_is_file e); cbn [andb]; [|apply IH].
      destruct (Py.in_list _ Merger.VIDEO_EXTENSIONS) eqn:Hv.
      * rewrite (video_is_not_subtitle _ Hv).
        rewrite analyze_loop_held. reflexivity.
      * destruct (String.eqb _ Merger.SUBTITLE_EXTENSION).
        -- rewrite IH. cbn [map]. now rewrite <- app_assoc.
        -- apply IH.
Qed.

(** The locals a loop of mergerV3.py hands over. *)
Lemma analyze_loop_held_v3 (fp : string) (es : list DirEntry) (v : Path)
    (subs : list Path) (w : World) :
  MergerV3.analyze_loop fp es (Some v) subs w
  = (Ret (Some v,
          (subs ++ collected_subtitles (of_string fp)
                     (examined w (of_string fp) es))%list,
          examination_error w (of_string fp) es), w,
     map (fun _ => Logged WARNING (multiple_videos_msg_v3 (of_string fp)))
         (filter is_video_entry (examined w (of_string fp) es))).
Proof.
  revert subs; induction es as [|e es IH]; intros subs.
  - unfold collected_subtitles. simpl. now rewrite app_nil_r.
  - cbn [MergerV3.analyze_loop examined examination_error].
    destruct (is_file_error w (child (of_string fp) (entry_name e))) as [x|] eqn:Hf.
    + unfold bind at 1, try_except, bind at 1.
      rewrite (is_file_raises _ _ _ _ Hf). unfold collected_subtitles.
      cbn. now rewrite app_nil_r.
    + unfold bind at 1, try_except, bind at 1.
      rewrite (is_file_answers _ _ _ Hf).
      unfold collected_subtitles, is_video_entry, is_subtitle_entry in *.
      cbn [ret filter app]. rewrite suffix_child.
      change MergerV3.VIDEO_EXTENSIONS with Merger.VIDEO_EXTENSIONS.
      change MergerV3.SUBTITLE_EXTENSION with Merger.SUBTITLE_EXTENSION.
      destruct (entry_is_file e); cbn [andb].
      2:{ rewrite IH. reflexivity. }
      destruct (Py.in_list _ Merger.VIDEO_EXTENSIONS) eqn:Hv.
      * rewrite (video_is_not_subtitle _ Hv).
        erewrite bind_logging; [|apply IH]. reflexivity.
      * destruct (String.eqb _ Merger.SUBTITLE_EXTENSION).
        -- rewrite IH. cbn [map]. now rewrite <- app_assoc.
        -- rewrite IH. reflexivity.
Qed.

Lemma analyze_loop_start_v3 (fp : string) (es : list DirEntry)
    (subs : list Path) (w : World) :
  MergerV3.analyze_loop fp es None subs w
  = (Ret (selected_video (of_string fp) (examined w (of_string fp) es),
          (subs ++ collected_subtitles (of_string fp)
                     (examined w (of_string fp) es))%list,
          examination_error w (of_string fp) es), w,
     ambiguity_warnings_v3 (of_string fp) (examined w (of_string fp) es)).
Proof.
  revert subs; induction es as [|e es IH]; intros subs.
  - unfold collected_subtitles. simpl. now rewrite app_nil_r.
  - cbn [MergerV3.analyze_loop examined examination_error].
    destruct (is_file_error w (child (of_string fp) (entry_name e))) as [x|] eqn:Hf.
    + unfold bind at 1, try_except, bind at 1.
      rewrite (is_file_raises _ _ _ _ Hf). unfold collected_subtitles.
      cbn. now rewrite app_nil_r.
    + unfold bind at 1, try_except, bind at 1.
      rewrite (is_file_answers _ _ _ Hf).
      unfold selected_video, collected_subtitles, ambiguity_warnings_v3,
        is_video_entry, is_subtitle_entry in *.
      cbn [ret filter app]. rewrite suffix_child.
      change MergerV3.VIDEO_EXTENSIONS with Merger.VIDEO_EXTENSIONS.
      change MergerV3.SUBTITLE_EXTENSION with Merger.SUBTITLE_EXTENSION.
      destruct (entry_is_file e); cbn [andb].
      2:{ rewrite IH. reflexivity. }
      destruct (Py.in_list _ Merger.VIDEO_EXTENSIONS) eqn:Hv.
      * rewrite (video_is_not_subtitle _ Hv).
        rewrite analyze_loop_held_v3. reflexivity.
      * destruct (String.eqb _ Merger.SUBTITLE_EXTENSION).
        -- rewrite IH. cbn [map]. now rewrite <- app_assoc.
        -- rewrite IH. reflexivity.
Qed.

(** [analyze_folder] of merger.py, by what the enumeration and [is_file]
    do. *)
Lemma analyze_folder_examined (fp : string) (es : list DirEntry) (w : World) :
  listdir w (of_string fp) = Ret es ->
  Merger.analyze_folder fp w
  = (loop_result (examination_error w (of_string fp) es)
       (selected_video (of_string fp) (examined w (of_string fp) es),
        collected_subtitles (of_string fp) (examined w (of_string fp) es)),
     w, ambiguity_warnings (of_string fp) (examined w (of_string fp) es)).
Proof.
  intros Hl. unfold Merger.analyze_folder, try_except, bind, iterdir.
  rewrite Hl, analyze_loop_start.
  destruct (examination_error w (of_string fp) es) as [x|] eqn:Hx;
    cbn [loop_result app]; [|reflexivity].
  assert (Hk : exists p, is_file_error w p = Some x).
  { clear Hl. induction es as [|e es IH]; [discriminate|].
    cbn [examination_error] in Hx.
    destruct (is_file_error w (child (of_string fp) (entry_name e))) eqn:Hf.
    - injection Hx as ->. eauto.
    - auto. }
  destruct Hk as [p Hp]. destruct (is_file_error_kind _ _ _ Hp) as [Hnf _].
  destruct x; try (unfold raise; now rewrite app_nil_r). now elim (Hnf msg).
Qed.

Lemma analyze_folder_listed (fp : string) (es : list DirEntry) (w : World) :
  listdir w (of_string fp) = Ret es ->
  examination_error w (of_string fp) es = None ->
  Merger.analyze_folder fp w
  = (Ret (selected_video (of_string fp) es, collected_subtitles (of_string fp) es),
     w, ambiguity_warnings (of_string fp) es).
Proof.
  intros Hl Hx. rewrite (analyze_folder_examined _ _ _ Hl), Hx.
  now rewrite (examined_all _ _ _ Hx).
Qed.

Lemma analyze_folder_not_found (fp : string) (m : string) (w : World) :
  listdir w (of_string fp) = Raise (FileNotFoundError m) ->
  Merger.analyze_folder fp w
  = (Ret (None, []), w,
     [Logged ERROR ("Could not access folder: " ++ fp
                    ++ ". It may have been moved or deleted.")]).
Proof.
  intros Hl. unfold Merger.analyze_folder, try_except, bind, iterdir.
  rewrite Hl. reflexivity.
Qed.

(** Any other exception of the enumeration leaves [analyze_folder]. *)
Lemma analyze_folder_escapes (fp : string) (e : exn) (w : World) :
  listdir w (of_string fp) = Raise e ->
  (forall m, e <> FileNotFoundError m) ->
  Merger.analyze_folder fp w = (Raise e, w, []).
Proof.
  intros Hl Hne. unfold Merger.analyze_folder, try_except, bind, iterdir.
  rewrite Hl. destruct e; try reflexivity. now elim (Hne msg).
Qed.

(** [analyze_folder] of mergerV3.py. *)
Lemma analyze_folder_examined_v3 (fp : string) (es : list DirEntry) (w : World) :
  listdir w (of_string fp) = Ret es ->
  MergerV3.analyze_folder fp w
  = (Ret (selected_video (of_string fp) (examined w (of_string fp) es),
          collected_subtitles (of_string fp) (examined w (of_string fp) es)),
     w,
     (ambiguity_warnings_v3 (of_string fp) (examined w (of_string fp) es)
      ++ analysis_error_log fp (examination_error w (of_string fp) es))%list).
Proof.
  intros Hl. unfold MergerV3.analyze_folder, try_except, iterdir.
  unfold bind at 1. unfold bind at 1. rewrite Hl, analyze_loop_start_v3.
  cbn [app]. destruct (examination_error w (of_string fp) es); reflexivity.
Qed.

Lemma analyze_folder_listed_v3 (fp : string) (es : list DirEntry) (w : World) :
  listdir w (of_string fp) = Ret es ->
  examination_error w (of_string fp) es = None ->
  MergerV3.analyze_folder fp w
  = (Ret (selected_video (of_string fp) es, collected_subtitles (of_string fp) es),
     w, ambiguity_warnings_v3 (of_string fp) es).
Proof.
  intros Hl Hx. rewrite (analyze_folder_examined_v3 _ _ _ Hl), Hx.
  rewrite (examined_all _ _ _ Hx). cbn [analysis_error_log]. now rewrite app_nil_r.
Qed.

Lemma analyze_folder_failed_v3 (fp : string) (e : exn) (w : World) :
  listdir w (of_string fp) = Raise e ->
  MergerV3.analyze_folder fp w
  = (Ret (None, []), w,
     [Logged ERROR ("Could not analyze folder " ++ fp ++ ": " ++ exn_str e)]).
Proof.
  intros Hl. unfold MergerV3.analyze_folder, try_except, bind, iterdir.
  rewrite Hl. reflexivity.
Qed.

End AnalyzeFacts.

(* ================================================================= *)
(** * Facts about reading a run *)

Section ReadingFacts.

Lemma logged_invisible (evs : list event) :
  forallb is_logged evs = true ->
  verdicts evs = [] /\ spawned evs = [] /\ filter is_progress evs = [].
Proof.
  induction evs as [|e evs IH]; [now repeat split|].
  simpl. intros Hl. apply andb_true_iff in Hl as [He Hl].
  destruct (IH Hl) as (IH1 & IH2 & IH3).
  destruct e; try discriminate He. now repeat split.
Qed.

Lemma verdicts_app (a b : list event) :
  verdicts (a ++ b) = (verdicts a ++ verdicts b)%list.
Proof. apply flat_map_app. Qed.

Lemma spawned_app (a b : list event) :
  spawned (a ++ b) = (spawned a ++ spawned b)%list.
Proof. apply flat_map_app. Qed.

Lemma progress_app (a b : list event) :
  filter is_progress (a ++ b) = (filter is_progress a ++ filter is_progress b)%list.
Proof. apply filter_app. Qed.

End ReadingFacts.

(* ================================================================= *)
(** * Facts about [merge_subtitles] *)

Section MergeFacts.
Context {World : Type} `{OS World}.

Lemma extend_loop (subs : list Path) (cmd : list string) :
  fold_left (fun cmd sub_file => (cmd ++ ["--language"; "0:eng"; str sub_file])%list)
            subs cmd
  = (cmd ++ flat_map (fun s => ["--language"; "0:eng"; str s]) subs)%list.
Proof.
  revert cmd; induction subs as [|s subs IH]; intros cmd; simpl.
  - now rewrite app_nil_r.
  - rewrite IH, <- app_assoc. reflexivity.
Qed.

Lemma build_cmd_spec (video : Path) (subs : list Path) (out : Path) :
  Merger.build_cmd video subs out = spec_command Merger.MKVMERGE_PATH video subs out.
Proof. unfold Merger.build_cmd. rewrite extend_loop. reflexivity. Qed.


Lemma subtitle_positions (subs : list Path) (i : nat) :
  let args := flat_map (fun s => ["--language"; "0:eng"; str s]) subs in
  nth_error args (3 * i) = option_map (fun _ => "--language") (nth_error subs i)
  /\ nth_error args (1 + 3 * i) = option_map (fun _ => "0:eng") (nth_error subs i)
  /\ nth_error args (2 + 3 * i) = option_map str (nth_error subs i).
Proof.
  cbv zeta. revert i; induction subs as [|s subs IH]; intros i.
  - simpl flat_map. rewrite !nth_error_nil. now destruct i.
  - destruct i as [|i]; [now repeat split|].
    replace (3 * S i) with (3 + 3 * i) by lia.
    replace (1 + (3 + 3 * i)) with (3 + (1 + 3 * i)) by lia.
    replace (2 + (3 + 3 * i)) with (3 + (2 + 3 * i)) by lia.
    exact (IH i).
Qed.

Lemma subprocess_run_spec (cmd : list string) (w w' : World) (r : spawn_result) :
  spawn w cmd = (r, w') ->
  subprocess_run cmd w = (completed r, w', [Spawned cmd]).
Proof. unfold subprocess_run. now intros ->. Qed.

(** The decoder raises nothing but [UnicodeDecodeError]. *)
Lemma decode_raises (data : string) (e : exn) :
  decode data = Raise e -> exists m, e = UnicodeDecodeError m.
Proof.
  unfold decode. destruct (Py.utf8_error data 0) as [[[[b st] en] rs]|]; [|discriminate].
  intros [= <-]. eauto.
Qed.

(** What [subprocess.run] raises. *)
Lemma completed_raises (r : spawn_result) (e : exn) :
  completed r = Raise e ->
  match r with
  | SpawnFails x => x = e
  | Exited rc so se =>
      (exists m, e = UnicodeDecodeError m
                 /\ (decode so = Raise e
                     \/ exists stdout, decode so = Ret stdout /\ decode se = Raise e))
      \/ (exists stdout stderr m,
             decode so = Ret stdout /\ decode se = Ret stderr /\ rc <> 0%Z
             /\ e = CalledProcessError rc stderr m)
  end.
Proof.
  destruct r as [rc so se|x]; cbn [completed]; [|now intros [= ->]].
  destruct (decode so) as [stdout|x] eqn:Hso.
  - destruct (decode se) as [stderr|x] eqn:Hse.
    + destruct (rc =? 0)%Z eqn:Hrc; [discriminate|]. intros [= <-].
      right. exists stdout, stderr. eexists. apply Z.eqb_neq in Hrc. now repeat split.
    + intros [= ->]. destruct (decode_raises _ _ Hse) as [m ->].
      left. exists m. split; [reflexivity|]. right. now exists stdout.
  - intros [= ->]. destruct (decode_raises _ _ Hso) as [m ->].
    left. exists m. split; [reflexivity|]. now left.
Qed.

(** What [merge_subtitles] of merger.py does, by what [subprocess.run]
    makes of what the tool does. *)
Lemma merge_returned (video : Path) (subs : list Path) (out : Path) (w w' : World)
    (r : spawn_result) (process : CompletedProcess) :
  spawn w (Merger.build_cmd video subs out) = (r, w') ->
  completed r = Ret process ->
  exists logs,
    Merger.merge_subtitles video subs out w
    = (Ret (true, None), w',
       Logged INFO ("Executing command: "
                    ++ Py.join " " (Merger.build_cmd video subs out))
       :: Spawned (Merger.build_cmd video subs out)
       :: Logged INFO ("SUCCESS: Merged to '" ++ name out ++ "'.") :: logs)
    /\ forallb is_logged logs = true.
Proof.
  intros Hs Hc. unfold Merger.merge_subtitles.
  exists (if Py.nonempty (proc_stdout process)
          then [Logged INFO ("mkvmerge output:" ++ Py.nl ++ proc_stdout process)]
          else []).
  split; [|now destruct (Py.nonempty (proc_stdout process))].
  apply bind_logging. unfold try_except, bind at 1.
  rewrite (subprocess_run_spec _ _ _ _ Hs), Hc.
  unfold bind, logging, emit, ret.
  destruct (Py.nonempty (proc_stdout process)); reflexivity.
Qed.

Lemma merge_raised (video : Path) (subs : list Path) (out : Path) (w w' : World)
    (r : spawn_result) (e : exn) :
  spawn w (Merger.build_cmd video subs out) = (r, w') ->
  completed r = Raise e ->
  Merger.merge_subtitles video subs out w
  = (Ret (false, Some (handler_text e)), w',
     [Logged INFO ("Executing command: "
                   ++ Py.join " " (Merger.build_cmd video subs out));
      Spawned (Merger.build_cmd video subs out);
      Logged ERROR (handler_text e)]).
Proof.
  intros Hs Hc. unfold Merger.merge_subtitles.
  apply bind_logging. unfold try_except, bind at 1.
  rewrite (subprocess_run_spec _ _ _ _ Hs), Hc.
  destruct e; reflexivity.
Qed.

Lemma merge_exit_zero (video : Path) (subs : list Path) (out : Path) (w w' : World)
    (so se stdout stderr : string) :
  spawn w (Merger.build_cmd video subs out) = (Exited 0 so se, w') ->
  decode so = Ret stdout -> decode se = Ret stderr ->
  exists logs,
    Merger.merge_subtitles video subs out w
    = (Ret (true, None), w',
       Logged INFO ("Executing command: "
                    ++ Py.join " " (Merger.build_cmd video subs out))
       :: Spawned (Merger.build_cmd video subs out)
       :: Logged INFO ("SUCCESS: Merged to '" ++ name out ++ "'.") :: logs)
    /\ forallb is_logged logs = true.
Proof.
  intros Hs Hso Hse. apply (merge_returned _ _ _ _ _ _ (mkCompleted stdout stderr) Hs).
  cbn [completed]. now rewrite Hso, Hse.
Qed.





(** What [merge_subtitles] of mergerV3.py does. *)
Lemma merge_returned_v3 (video : Path) (subs : list Path) (out : Path) (w w' : World)
    (r : spawn_result) (process : CompletedProcess) :
  spawn w (MergerV3.build_cmd video subs out) = (r, w') ->
  completed r = Ret process ->
  MergerV3.merge_subtitles video subs out w
  = (Ret (true, None), w',
     [Logged INFO ("Executing command: "
                   ++ Py.join " " (MergerV3.build_cmd video subs out));
      Spawned (MergerV3.build_cmd video subs out)]).
Proof.
  intros Hs Hc. unfold MergerV3.merge_subtitles.
  apply bind_logging. unfold try_except, bind at 1.
  rewrite (subprocess_run_spec _ _ _ _ Hs), Hc. reflexivity.
Qed.

Lemma merge_raised_v3 (video : Path) (subs : list Path) (out : Path) (w w' : World)
    (r : spawn_result) (e : exn) :
  spawn w (MergerV3.build_cmd video subs out) = (r, w') ->
  completed r = Raise e ->
  MergerV3.merge_subtitles video subs out w
  = (Ret (false, Some (getattr_stderr e (exn_str e))), w',
     [Logged INFO ("Executing command: "
                   ++ Py.join " " (MergerV3.build_cmd video subs out));
      Spawned (MergerV3.build_cmd video subs out);
      Logged ERROR ("Merge failed: " ++ getattr_stderr e (exn_str e))]).
Proof.
  intros Hs Hc. unfold MergerV3.merge_subtitles.
  apply bind_logging. unfold try_except, bind at 1.
  rewrite (subprocess_run_spec _ _ _ _ Hs), Hc. reflexivity.
Qed.

Lemma merge_spawn_fails_v3 (video : Path) (subs : list Path) (out : Path)
    (w w' : World) (e : exn) :
  spawn w (MergerV3.build_cmd video subs out) = (SpawnFails e, w') ->
  MergerV3.merge_subtitles video subs out w
  = (Ret (false, Some (getattr_stderr e (exn_str e))), w',
     [Logged INFO ("Executing command: "
                   ++ Py.join " " (MergerV3.build_cmd video subs out));
      Spawned (MergerV3.build_cmd video subs out);
      Logged ERROR ("Merge failed: " ++ getattr_stderr e (exn_str e))]).
Proof. intros Hs. exact (merge_raised_v3 _ _ _ _ _ _ _ Hs eq_refl). Qed.

(** Every call returns; the flag is set exactly when there is no error
    text and exactly when [subprocess.run] returned; the tool is spawned
    once, and no other event of the call is visible to the observer. *)
Lemma merge_total (video : Path) (subs : list Path) (out : Path) (w : World) :
  exists ok err w' evs,
    Merger.merge_subtitles video subs out w = (Ret (ok, err), w', evs)
    /\ (ok = true <-> err = None)
    /\ spawned evs = [Merger.build_cmd video subs out].
Proof.
  destruct (spawn w (Merger.build_cmd video subs out)) as [r w'] eqn:Hs.
  destruct (completed r) as [process|e] eqn:Hc.
  - destruct (merge_returned _ _ _ _ _ _ _ Hs Hc) as (logs & -> & Hl).
    destruct (logged_invisible _ Hl) as (_ & Hsp & _).
    exists true, None, w'. eexists. split; [reflexivity|].
    split; [tauto|]. simpl. now rewrite Hsp.
  - rewrite (merge_raised _ _ _ _ _ _ _ Hs Hc).
    do 4 eexists. split; [reflexivity|]. split; [|reflexivity].
    split; discriminate.
Qed.

Lemma merge_total_v3 (video : Path) (subs : list Path) (out : Path) (w : World) :
  exists ok err w' evs,
    MergerV3.merge_subtitles video subs out w = (Ret (ok, err), w', evs)
    /\ (ok = true <-> err = None)
    /\ spawned evs = [MergerV3.build_cmd video subs out].
Proof.
  destruct (spawn w (MergerV3.build_cmd video subs out)) as [r w'] eqn:Hs.
  destruct (completed r) as [process|e] eqn:Hc.
  - rewrite (merge_returned_v3 _ _ _ _ _ _ _ Hs Hc).
    do 4 eexists. split; [reflexivity|]. split; [tauto | reflexivity].
  - rewrite (merge_raised_v3 _ _ _ _ _ _ _ Hs Hc).
    do 4 eexists. split; [reflexivity|]. split; [|reflexivity].
    split; discriminate.
Qed.


End MergeFacts.

Section AnalyzeQuiet.
Context {World : Type} `{OS World}.

Lemma ambiguity_warnings_logged (folder : Path) (es : list DirEntry) :
  forallb is_logged (ambiguity_warnings folder es) = true.
Proof.
  unfold ambiguity_warnings. destruct (filter is_video_entry es) as [|e l]; [reflexivity|].
  induction l; simpl; auto.
Qed.

Lemma ambiguity_warnings_logged_v3 (folder : Path) (es : list DirEntry) :
  forallb is_logged (ambiguity_warnings_v3 folder es) = true.
Proof.
  unfold ambiguity_warnings_v3. induction (tl (filter is_video_entry es)); simpl; auto.
Qed.

(** The analysis changes nothing in the system and only logs. *)
Lemma analyze_folder_quiet (fp : string) (w : World) r w' aev :
  Merger.analyze_folder fp w = (r, w', aev) ->
  w' = w /\ forallb is_logged aev = true.
Proof.
  destruct (listdir w (of_string fp)) as [es|e] eqn:Hl.
  - rewrite (analyze_folder_examined _ _ _ Hl). intros [= <- <- <-].
    split; [reflexivity | apply ambiguity_warnings_logged].
  - destruct e;
      try (rewrite (analyze_folder_escapes _ _ _ Hl) by (intros; discriminate);
           intros [= <- <- <-]; now split).
    rewrite (analyze_folder_not_found _ _ _ Hl). intros [= <- <- <-]. now split.
Qed.

(** The analysis of mergerV3.py always returns. *)
Lemma analyze_folder_total_v3 (fp : string) (w : World) :
  exists video subs aev,
    MergerV3.analyze_folder fp w = (Ret (video, subs), w, aev)
    /\ forallb is_logged aev = true.
Proof.
  destruct (listdir w (of_string fp)) as [es|e] eqn:Hl.
  - rewrite (analyze_folder_examined_v3 _ _ _ Hl). do 3 eexists.
    split; [reflexivity|]. rewrite forallb_app, ambiguity_warnings_logged_v3.
    now destruct (examination_error w (of_string fp) es).
  - rewrite (analyze_folder_failed_v3 _ _ _ Hl). do 3 eexists.
    split; reflexivity.
Qed.

Lemma analyze_folder_quiet_v3 (fp : string) (w : World) r w' aev :
  MergerV3.analyze_folder fp w = (r, w', aev) ->
  w' = w /\ forallb is_logged aev = true.
Proof.
  destruct (analyze_folder_total_v3 fp w) as (v & s & a & -> & Ha).
  intros [= <- <- <-]. now split.
Qed.

End AnalyzeQuiet.

Section FolderFacts.
Context {World : Type} `{OS World}.

Lemma process_folder_no_video (total i : nat) (fp : string) (c : nat) (w w1 : World)
    (subs : list Path) (aev : list event) :
  Merger.analyze_folder fp w = (Ret (None, subs), w1, aev) ->
  Merger.process_folder total i fp c w
  = (Ret c, w1, (header total i fp ++ aev ++ [LogMessage no_video_msg])%list).
Proof.
  intros Ha. unfold Merger.process_folder, header.
  apply bind_emit, bind_emit. eapply bind_returns; [exact Ha|].
  reflexivity.
Qed.

Lemma process_folder_no_subtitles (total i : nat) (fp : string) (c : nat)
    (w w1 : World) (v : Path) (aev : list event) :
  Merger.analyze_folder fp w = (Ret (Some v, []), w1, aev) ->
  Merger.process_folder total i fp c w
  = (Ret c, w1, (header total i fp ++ aev ++ [LogMessage no_subtitles_msg])%list).
Proof.
  intros Ha. unfold Merger.process_folder, header.
  apply bind_emit, bind_emit. eapply bind_returns; [exact Ha|].
  reflexivity.
Qed.

Lemma process_folder_escapes (total i : nat) (fp : string) (c : nat)
    (w w1 : World) (e : exn) (aev : list event) :
  Merger.analyze_folder fp w = (Raise e, w1, aev) ->
  Merger.process_folder total i fp c w
  = (Raise e, w1, (header total i fp ++ aev)%list).
Proof.
  intros Ha. unfold Merger.process_folder, header.
  apply bind_emit, bind_emit. now apply bind_raises.
Qed.

Lemma process_folder_merged (total i : nat) (fp : string) (c : nat)
    (w w1 w2 : World) (v s : Path) (subs : list Path) (out : Path)
    (ok : bool) (err : option string) (aev mev : list event) :
  Merger.analyze_folder fp w = (Ret (Some v, s :: subs), w1, aev) ->
  Merger.output_path_of v = Ret out ->
  Merger.merge_subtitles v (s :: subs) out w1 = (Ret (ok, err), w2, mev) ->
  Merger.process_folder total i fp c w
  = (Ret (if ok then c + 1 else c), w2,
     (header total i fp ++ aev
      ++ [LogMessage ("Video: " ++ name v);
          LogMessage ("Subtitles: " ++ Py.str_nat (length (s :: subs))
                      ++ " file(s) found.")]
      ++ mev
      ++ [LogMessage
            (if ok then "✅ SUCCESS: Created '" ++ name out ++ "'"
             else "❌ ERROR: Failed to merge. " ++ Merger.error_or_unknown err)])%list).
Proof.
  intros Ha Ho Hm. unfold Merger.process_folder, header.
  apply bind_emit, bind_emit. eapply bind_returns; [exact Ha|].
  cbv iota beta. apply bind_emit, bind_emit.
  eapply (bind_returns (lift (Merger.output_path_of v)) _ _ out w1 []).
  { unfold lift. now rewrite Ho. }
  eapply bind_returns; [exact Hm|].
  destruct ok; reflexivity.
Qed.

Lemma process_folder_skipped_v3 (total i : nat) (fp : string) (c : nat)
    (w w1 : World) (video : option Path) (subs : list Path) (aev : list event) :
  MergerV3.analyze_folder fp w = (Ret (video, subs), w1, aev) ->
  video = None \/ subs = [] ->
  MergerV3.process_folder total i fp c w
  = (Ret c, w1,
     (header_v3 total i fp ++ aev
      ++ [Queued nothing_found_msg_v3 (Some COLOR_WARNING)])%list).
Proof.
  intros Ha Hempty. unfold MergerV3.process_folder, header_v3.
  apply bind_emit, bind_emit, bind_emit. eapply bind_returns; [exact Ha|].
  destruct Hempty as [-> | ->]; [reflexivity|].
  destruct video; reflexivity.
Qed.

Lemma process_folder_merged_v3 (total i : nat) (fp : string) (c : nat)
    (w w1 w2 : World) (v s : Path) (subs : list Path) (out : Path)
    (ok : bool) (err : option string) (aev mev : list event) :
  MergerV3.analyze_folder fp w = (Ret (Some v, s :: subs), w1, aev) ->
  MergerV3.output_path_of v = Ret out ->
  MergerV3.merge_subtitles v (s :: subs) out w1 = (Ret (ok, err), w2, mev) ->
  MergerV3.process_folder total i fp c w
  = (Ret (if ok then c + 1 else c), w2,
     (header_v3 total i fp ++ aev ++ mev
      ++ [if ok
          then Queued ("‚úÖ SUCCESS: Created '" ++ name out ++ "'") (Some COLOR_SUCCESS)
          else Queued ("‚ùå ERROR: " ++ MergerV3.format_error err)
                      (Some COLOR_ERROR)])%list).
Proof.
  intros Ha Ho Hm. unfold MergerV3.process_folder, header_v3.
  apply bind_emit, bind_emit, bind_emit. eapply bind_returns; [exact Ha|].
  cbv iota beta.
  eapply (bind_returns (lift (MergerV3.output_path_of v)) _ _ out w1 []).
  { unfold lift. now rewrite Ho. }
  eapply bind_returns; [exact Hm|].
  destruct ok; reflexivity.
Qed.

End FolderFacts.

Section LoopFacts.
Context {World : Type} `{OS World}.

Lemma run_loop_step (total i : nat) (fp : string) (rest : list string) (c c' : nat)
    (w w1 : World) (evs : list event) :
  Merger.process_folder total i fp c w = (Ret c', w1, evs) ->
  Merger.run_loop total i (fp :: rest) c w
  = after evs (Merger.run_loop total (S i) rest c' w1).
Proof.
  intros Hp. cbn [Merger.run_loop]. unfold bind, after, result_of, world_of, events_of.
  rewrite Hp. now destruct (Merger.run_loop total (S i) rest c' w1) as [[r w2] ev2].
Qed.

Lemma run_loop_step_v3 (total i : nat) (fp : string) (rest : list string) (c c' : nat)
    (w w1 : World) (evs : list event) :
  MergerV3.process_folder total i fp c w = (Ret c', w1, evs) ->
  MergerV3.run_loop total i (fp :: rest) c w
  = after evs (MergerV3.run_loop total (S i) rest c' w1).
Proof.
  intros Hp. cbn [MergerV3.run_loop]. unfold bind, after, result_of, world_of, events_of.
  rewrite Hp. now destruct (MergerV3.run_loop total (S i) rest c' w1) as [[r w2] ev2].
Qed.

Lemma run_loop_abort (total i : nat) (fp : string) (rest : list string) (c : nat)
    (w w1 : World) (e : exn) (evs : list event) :
  Merger.process_folder total i fp c w = (Raise e, w1, evs) ->
  Merger.run_loop total i (fp :: rest) c w = (Raise e, w1, evs).
Proof. intros Hp. cbn [Merger.run_loop]. now apply bind_raises. Qed.

End LoopFacts.

(* ================================================================= *)
(** * Facts about the analysis of a returned folder *)

Section ClaimSupport.
Context {World : Type} `{OS World}.

Lemma verdicts_header (total i : nat) (fp : string) :
  verdicts (header total i fp) = [] /\ spawned (header total i fp) = [].
Proof. split; reflexivity. Qed.

Lemma verdicts_header_v3 (total i : nat) (fp : string) :
  verdicts (header_v3 total i fp) = [] /\ spawned (header_v3 total i fp) = [].
Proof. split; reflexivity. Qed.

(** What an analysis of merger.py that returns has seen. *)
Lemma analyze_folder_returned (fp : string) (w w1 : World)
    (video : option Path) (subs : list Path) (aev : list event) :
  Merger.analyze_folder fp w = (Ret (video, subs), w1, aev) ->
  (exists es, listdir w (of_string fp) = Ret es
              /\ examination_error w (of_string fp) es = None
              /\ video = selected_video (of_string fp) es
              /\ subs = collected_subtitles (of_string fp) es)
  \/ (exists m, listdir w (of_string fp) = Raise (FileNotFoundError m)
                /\ video = None /\ subs = []).
Proof.
  destruct (listdir w (of_string fp)) as [es|e] eqn:Hl.
  - rewrite (analyze_folder_examined _ _ _ Hl).
    destruct (examination_error w (of_string fp) es) eqn:Hx; [discriminate|].
    rewrite (examined_all _ _ _ Hx). intros [= <- <- <- <-].
    left. now exists es.
  - destruct e;
      try (rewrite (analyze_folder_escapes _ _ _ Hl) by (intros; discriminate);
           discriminate).
    rewrite (analyze_folder_not_found _ _ _ Hl). intros [= <- <- <- <-].
    right. now exists msg.
Qed.

Lemma analyze_folder_returned_v3 (fp : string) (w w1 : World)
    (video : option Path) (subs : list Path) (aev : list event) :
  MergerV3.analyze_folder fp w = (Ret (video, subs), w1, aev) ->
  (exists es, listdir w (of_string fp) = Ret es
              /\ video = selected_video (of_string fp) (examined w (of_string fp) es)
              /\ subs = collected_subtitles (of_string fp)
                          (examined w (of_string fp) es))
  \/ (exists e, listdir w (of_string fp) = Raise e /\ video = None /\ subs = []).
Proof.
  destruct (listdir w (of_string fp)) as [es|e] eqn:Hl.
  - rewrite (analyze_folder_examined_v3 _ _ _ Hl). intros [= <- <- <- <-].
    left. now exists es.
  - rewrite (analyze_folder_failed_v3 _ _ _ Hl). intros [= <- <- <- <-].
    right. now exists e.
Qed.

(** The selected video is an entry of the folder with a name the system
    allows and a nonempty suffix. *)
Lemma selected_video_entry (folder : Path) (es : list DirEntry) (v : Path) :
  forallb (fun e => valid_name (entry_name e)) es = true ->
  selected_video folder es = Some v ->
  exists n, v = child folder n /\ valid_name n = true /\ name_suffix n <> ""
            /\ Py.in_list (Py.lower (name_suffix n)) Merger.VIDEO_EXTENSIONS = true.
Proof.
  intros Hvalid. unfold selected_video.
  destruct (filter is_video_entry es) as [|e l] eqn:Hf; [discriminate|].
  intros [= <-]. exists (entry_name e).
  assert (Hin : In e (filter is_video_entry es)) by (rewrite Hf; now left).
  apply filter_In in Hin as [Hin Hv].
  rewrite forallb_forall in Hvalid. specialize (Hvalid e Hin).
  unfold is_video_entry in Hv. apply andb_true_iff in Hv as [_ Hv].
  repeat split; try assumption.
  intros Hempty. rewrite Hempty in Hv. discriminate Hv.
Qed.

(** The examined entries of an enumeration have the names the system
    allows. *)
Lemma examined_valid (w : World) (folder : Path) (es : list DirEntry) :
  forallb (fun e => valid_name (entry_name e)) es = true ->
  forallb (fun e => valid_name (entry_name e)) (examined w folder es) = true.
Proof.
  rewrite !forallb_forall. intros Hv e He. apply Hv.
  now apply (examined_incl w folder).
Qed.

Lemma selected_video_output (folder : Path) (es : list DirEntry) (v : Path) :
  forallb (fun e => valid_name (entry_name e)) es = true ->
  selected_video folder es = Some v ->
  Merger.output_path_of v
  = Ret (child (parent v) (stem v ++ Merger.OUTPUT_SUFFIX ++ ".mkv")).
Proof.
  intros Hvalid Hsel.
  destruct (selected_video_entry folder es v Hvalid Hsel) as (n & -> & Hn & Hsfx & _).
  rewrite parent_child, stem_child. now apply output_path_of_child.
Qed.

Lemma map_const_repeat {A B} (x : B) (l : list A) :
  map (fun _ => x) l = repeat x (length l).
Proof. induction l; simpl; congruence. Qed.

End ClaimSupport.

(* ================================================================= *)
(** * The shape of a completed run *)

Section RunShape.
Context {World : Type} `{OS World}.

Lemma logged_quiet (evs : list event) :
  forallb is_logged evs = true -> forallb is_quiet evs = true.
Proof.
  induction evs as [|e evs IH]; [reflexivity|]. cbn [forallb].
  intros Hl. apply andb_true_iff in Hl as [He Hl].
  rewrite (IH Hl). now destruct e.
Qed.

Lemma quiet_invisible (evs : list event) :
  forallb is_quiet evs = true ->
  verdicts evs = [] /\ filter is_progress evs = [] /\ filter is_summary evs = [].
Proof.
  induction evs as [|e evs IH]; [now repeat split|].
  cbn [forallb]. intros Hq. apply andb_true_iff in Hq as [He Hq].
  destruct (IH Hq) as (IH1 & IH2 & IH3).
  destruct e; try discriminate He; now repeat split.
Qed.

(** [merge_subtitles] logs and spawns, and nothing else. *)
Lemma merge_events_quiet (video : Path) (subs : list Path) (out : Path) (w : World)
    r w' mev :
  Merger.merge_subtitles video subs out w = (r, w', mev) ->
  forallb is_quiet mev = true.
Proof.
  destruct (spawn w (Merger.build_cmd video subs out)) as [sr w1] eqn:Hs.
  destruct (completed sr) as [process|e] eqn:Hc.
  - destruct (merge_returned _ _ _ _ _ _ _ Hs Hc) as (logs & -> & Hl).
    intros [= <- <- <-]. cbn [forallb is_quiet andb]. now apply logged_quiet.
  - rewrite (merge_raised _ _ _ _ _ _ _ Hs Hc). now intros [= <- <- <-].
Qed.

Lemma merge_events_quiet_v3 (video : Path) (subs : list Path) (out : Path) (w : World)
    r w' mev :
  MergerV3.merge_subtitles video subs out w = (r, w', mev) ->
  forallb is_quiet mev = true.
Proof.
  destruct (spawn w (MergerV3.build_cmd video subs out)) as [sr w1] eqn:Hs.
  destruct (completed sr) as [process|e] eqn:Hc.
  - rewrite (merge_returned_v3 _ _ _ _ _ _ _ Hs Hc). now intros [= <- <- <-].
  - rewrite (merge_raised_v3 _ _ _ _ _ _ _ Hs Hc). now intros [= <- <- <-].
Qed.

(** [merge_subtitles] reports nothing to the observer itself. *)
Lemma merge_quiet (video : Path) (subs : list Path) (out : Path) (w : World)
    r w' mev :
  Merger.merge_subtitles video subs out w = (r, w', mev) ->
  verdicts mev = [] /\ filter is_progress mev = [].
Proof.
  intros Hm. destruct (quiet_invisible _ (merge_events_quiet _ _ _ _ _ _ _ Hm))
    as (Hv & Hp & _). now split.
Qed.

Lemma merge_quiet_v3 (video : Path) (subs : list Path) (out : Path) (w : World)
    r w' mev :
  MergerV3.merge_subtitles video subs out w = (r, w', mev) ->
  verdicts mev = [] /\ filter is_progress mev = [].
Proof.
  intros Hm. destruct (quiet_invisible _ (merge_events_quiet_v3 _ _ _ _ _ _ _ Hm))
    as (Hv & Hp & _). now split.
Qed.

(** The video mergerV3.py selects has an output path. *)
Lemma analyzed_output_v3 (fp : string) (w w1 : World) (v : Path) (subs : list Path)
    (aev : list event) :
  MergerV3.analyze_folder fp w = (Ret (Some v, subs), w1, aev) ->
  Merger.output_path_of v
  = Ret (child (parent v) (stem v ++ Merger.OUTPUT_SUFFIX ++ ".mkv")).
Proof.
  intros Ha.
  destruct (analyze_folder_returned_v3 _ _ _ _ _ _ Ha)
    as [(es & Hl & Hsel & _) | (e & _ & Hsel & _)]; [|discriminate].
  exact (selected_video_output _ _ _
           (examined_valid _ _ _ (listdir_valid _ _ _ Hl)) (eq_sym Hsel)).
Qed.

Lemma analyzed_output (fp : string) (w w1 : World) (v : Path) (subs : list Path)
    (aev : list event) :
  Merger.analyze_folder fp w = (Ret (Some v, subs), w1, aev) ->
  Merger.output_path_of v
  = Ret (child (parent v) (stem v ++ Merger.OUTPUT_SUFFIX ++ ".mkv")).
Proof.
  intros Ha.
  destruct (analyze_folder_returned _ _ _ _ _ _ Ha)
    as [(es & Hl & _ & Hsel & _) | (m & _ & Hsel & _)]; [|discriminate].
  exact (selected_video_output _ _ _ (listdir_valid _ _ _ Hl) (eq_sym Hsel)).
Qed.

(** One iteration of mergerV3.py always comes to its end. *)
Lemma process_folder_trace_v3 (total i : nat) (fp : string) (c : nat) (w : World) :
  exists v w1 fev,
    MergerV3.process_folder total i fp c w = (Ret (c + successes_of v), w1, fev)
    /\ folder_trace_v3 total i fp w w1 fev v.
Proof.
  destruct (analyze_folder_total_v3 fp w) as (video & subs & aev & Ha & _).
  assert (Hskip : video = None \/ subs = [] ->
            exists v w1 fev,
              MergerV3.process_folder total i fp c w
              = (Ret (c + successes_of v), w1, fev)
              /\ folder_trace_v3 total i fp w w1 fev v).
  { intros Hempty. exists Skipped, w. eexists. split.
    - rewrite (process_folder_skipped_v3 total i fp c w w video subs aev Ha Hempty).
      cbn [successes_of]. now rewrite Nat.add_0_r.
    - now apply folder_skipped_v3 with (video := video) (subs := subs). }
  destruct video as [v|]; [|apply Hskip; now left].
  destruct subs as [|s subs]; [apply Hskip; now right|]. clear Hskip.
  pose proof (analyzed_output_v3 _ _ _ _ _ _ Ha) as Hout.
  set (out := child (parent v) (stem v ++ Merger.OUTPUT_SUFFIX ++ ".mkv")) in *.
  destruct (merge_total_v3 v (s :: subs) out w) as (ok & err & w2 & mev & Hm & _ & _).
  exists (verdict_of_merge ok), w2,
    (header_v3 total i fp ++ aev ++ mev ++ [merge_report_v3 out ok err])%list.
  split.
  - rewrite (process_folder_merged_v3 total i fp c w w w2 v s subs out ok err aev mev
               Ha Hout Hm).
    destruct ok; cbn [verdict_of_merge successes_of]; rewrite ?Nat.add_0_r; reflexivity.
  - now apply folder_merged_v3 with (v := v) (s := s) (subs := subs).
Qed.

(** The loop of mergerV3.py over any list of folders. *)
Lemma run_loop_trace_v3 (total : nat) (folders : list string) (i c : nat) (w : World) :
  exists n w' evs,
    MergerV3.run_loop total i folders c w = (Ret (c + n), w', evs)
    /\ run_trace (folder_trace_v3 total) i folders w evs n w'.
Proof.
  revert i c w; induction folders as [|fp rest IH]; intros i c w.
  - exists 0, w, []. cbn. rewrite Nat.add_0_r. split; [reflexivity | constructor].
  - destruct (process_folder_trace_v3 total i fp c w) as (v & w1 & fev & Hp & Hf).
    destruct (IH (S i) (c + successes_of v) w1) as (n & w' & evs & Hl & Ht).
    exists (successes_of v + n), w', (fev ++ evs)%list.
    split.
    + rewrite (run_loop_step_v3 _ _ _ _ _ _ _ _ _ Hp), Hl.
      unfold after, result_of, world_of, events_of. cbn [fst snd].
      now rewrite Nat.add_assoc.
    + econstructor; eassumption.
Qed.

(** No more successes than folders. *)
Lemma run_trace_count
    (folder : nat -> string -> World -> World -> list event -> verdict -> Prop)
    (i : nat) (folders : list string) (w w' : World) (evs : list event) (n : nat) :
  run_trace folder i folders w evs n w' -> n <= length folders.
Proof.
  induction 1 as [|i fp rest w w1 w' fev v evs n _ _ IH]; [constructor|].
  cbn [length]. destruct v; cbn [successes_of]; lia.
Qed.

(** What closes a run is not among the events of its folders. *)
Lemma folder_trace_open_v3 (total i : nat) (fp : string) (w w1 : World)
    (fev : list event) (v : verdict) :
  folder_trace_v3 total i fp w w1 fev v -> filter is_summary fev = [].
Proof.
  intros [video subs aev Ha _ | v0 s subs aev out ok err w' mev Ha _ Hm].
  - destruct (analyze_folder_quiet_v3 _ _ _ _ _ Ha) as [_ Hq].
    destruct (quiet_invisible _ (logged_quiet _ Hq)) as (_ & _ & Hs).
    rewrite !filter_app, Hs. reflexivity.
  - destruct (analyze_folder_quiet_v3 _ _ _ _ _ Ha) as [_ Hq].
    destruct (quiet_invisible _ (logged_quiet _ Hq)) as (_ & _ & Hs).
    destruct (quiet_invisible _ (merge_events_quiet_v3 _ _ _ _ _ _ _ Hm))
      as (_ & _ & Hs').
    rewrite !filter_app, Hs, Hs'. now destruct ok.
Qed.

Lemma folder_trace_open (total i : nat) (fp : string) (w w1 : World)
    (fev : list event) (v : verdict) :
  folder_trace total i fp w w1 fev v -> filter is_summary fev = [].
Proof.
  intros [subs aev Ha | v0 aev Ha | v0 s subs aev out ok err w' mev Ha _ Hm];
    destruct (analyze_folder_quiet _ _ _ _ _ Ha) as [_ Hq];
    destruct (quiet_invisible _ (logged_quiet _ Hq)) as (_ & _ & Hs).
  - rewrite !filter_app, Hs. reflexivity.
  - rewrite !filter_app, Hs. reflexivity.
  - destruct (quiet_invisible _ (merge_events_quiet _ _ _ _ _ _ _ Hm))
      as (_ & _ & Hs').
    rewrite !filter_app, Hs, Hs'. reflexivity.
Qed.

Lemma run_trace_open
    (folder : nat -> string -> World -> World -> list event -> verdict -> Prop)
    (i : nat) (folders : list string) (w w' : World) (evs : list event) (n : nat) :
  (forall j fp w w1 fev v, folder j fp w w1 fev v -> filter is_summary fev = []) ->
  run_trace folder i folders w evs n w' -> filter is_summary evs = [].
Proof.
  intros Hopen. induction 1 as [|i fp rest w w1 w' fev v evs n Hf _ IH]; [reflexivity|].
  now rewrite filter_app, (Hopen _ _ _ _ _ _ Hf), IH.
Qed.

(** X1. [processing_thread] of mergerV3.py returns for every list of
    folders, whatever the system does.  Its events are those of the
    folders, one after the other in the given order, followed by what
    closes the run: the full bar, the label and the queued message with
    the count of successes and the number of folders, and the enabling
    of the window.  For each folder the events are its header (the bar,
    the label, the queued line), what the analysis logs, and then either
    the one warning of a skipped folder or the events of
    [merge_subtitles] and the one message of its result; a folder counts
    as a success exactly when [merge_subtitles] returned [True] for it.
    Nothing that closes a run occurs before the end, and there are no
    more successes than folders. *)
Theorem processing_thread_completes (folders : list string) (w : World) :
  exists n w' evs,
    MergerV3.processing_thread folders w
    = (Ret tt, w', (evs ++ closing_v3 n (length folders))%list)
    /\ run_trace (folder_trace_v3 (length folders)) 0 folders w evs n w'
    /\ filter is_summary evs = []
    /\ n <= length folders.
Proof.
  destruct (run_loop_trace_v3 (length folders) folders 0 0 w)
    as (n & w' & evs & Hl & Ht).
  exists n, w', evs. split; [|split; [exact Ht|split]].
  - unfold MergerV3.processing_thread.
    eapply bind_returns; [exact Hl|]. reflexivity.
  - exact (run_trace_open _ _ _ _ _ _ _ (folder_trace_open_v3 _) Ht).
  - exact (run_trace_count _ _ _ _ _ _ _ Ht).
Qed.

(** One iteration of merger.py, when the enumeration raises nothing but
    [FileNotFoundError] and [is_file] answers. *)
Lemma process_folder_trace (total i : nat) (fp : string) (c : nat) (w : World) :
  (forall e, listdir w (of_string fp) = Raise e -> exists m, e = FileNotFoundError m) ->
  (forall p, is_file_error w p = None) ->
  exists v w1 fev,
    Merger.process_folder total i fp c w = (Ret (c + successes_of v), w1, fev)
    /\ folder_trace total i fp w w1 fev v.
Proof.
  intros Hfnf Hfile.
  assert (Ha : exists video subs aev,
             Merger.analyze_folder fp w = (Ret (video, subs), w, aev)).
  { destruct (listdir w (of_string fp)) as [es|e] eqn:Hl.
    - rewrite (analyze_folder_listed _ _ _ Hl); [now do 3 eexists|].
      apply examination_error_all. intros e _. apply Hfile.
    - destruct (Hfnf e eq_refl) as [m ->].
      rewrite (analyze_folder_not_found _ _ _ Hl). now do 3 eexists. }
  destruct Ha as (video & subs & aev & Ha).
  destruct video as [v|].
  2:{ exists Skipped, w. eexists. split.
      - rewrite (process_folder_no_video total i fp c w w subs aev Ha).
        cbn [successes_of]. now rewrite Nat.add_0_r.
      - now apply folder_no_video with (subs := subs). }
  destruct subs as [|s subs].
  { exists Skipped, w. eexists. split.
    - rewrite (process_folder_no_subtitles total i fp c w w v aev Ha).
      cbn [successes_of]. now rewrite Nat.add_0_r.
    - now apply folder_no_subtitles with (v := v). }
  pose proof (analyzed_output _ _ _ _ _ _ Ha) as Hout.
  set (out := child (parent v) (stem v ++ Merger.OUTPUT_SUFFIX ++ ".mkv")) in *.
  destruct (merge_total v (s :: subs) out w) as (ok & err & w2 & mev & Hm & _ & _).
  exists (verdict_of_merge ok), w2,
    (header total i fp ++ aev
     ++ [LogMessage ("Video: " ++ name v);
         LogMessage ("Subtitles: " ++ Py.str_nat (length (s :: subs))
                     ++ " file(s) found.")]
     ++ mev ++ [merge_report out ok err])%list.
  split.
  - rewrite (process_folder_merged total i fp c w w w2 v s subs out ok err aev mev
               Ha Hout Hm).
    destruct ok; cbn [verdict_of_merge successes_of]; rewrite ?Nat.add_0_r; reflexivity.
  - now apply folder_merged with (v := v) (s := s) (subs := subs).
Qed.

Lemma run_loop_trace (total : nat) (folders : list string) (i c : nat) (w : World) :
  (forall w p e, listdir w p = Raise e -> exists m, e = FileNotFoundError m) ->
  (forall w p, is_file_error w p = None) ->
  exists n w' evs,
    Merger.run_loop total i folders c w = (Ret (c + n), w', evs)
    /\ run_trace (folder_trace total) i folders w evs n w'.
Proof.
  intros Hfnf Hfile.
  revert i c w; induction folders as [|fp rest IH]; intros i c w.
  - exists 0, w, []. cbn. rewrite Nat.add_0_r. split; [reflexivity | constructor].
  - destruct (process_folder_trace total i fp c w (Hfnf w (of_string fp)) (Hfile w))
      as (v & w1 & fev & Hp & Hf).
    destruct (IH (S i) (c + successes_of v) w1) as (n & w' & evs & Hl & Ht).
    exists (successes_of v + n), w', (fev ++ evs)%list.
    split.
    + rewrite (run_loop_step _ _ _ _ _ _ _ _ _ Hp), Hl.
      unfold after, result_of, world_of, events_of. cbn [fst snd].
      now rewrite Nat.add_assoc.
    + econstructor; eassumption.
Qed.

(** X2. On a system where an enumeration raises nothing but
    [FileNotFoundError] and [is_file] answers for every path,
    [ProcessingWorker.run] of merger.py returns for every list of
    folders.  Its events are those of the folders, one after the other
    in the given order, followed by the one summary signal, with the
    count of successes and the number of folders, and the [finished]
    signal.  For each folder the events are its header (the progress
    signal and the line of the analysis), what the analysis logs, and
    then either the one warning of a skipped folder or the two lines on
    what was found, the events of [merge_subtitles] and the one message
    of its result; a folder counts as a success exactly when
    [merge_subtitles] returned [True] for it.  No summary and no end of
    the run occurs before the end, and there are no more successes than
    folders. *)
Theorem run_completes (folders : list string) (w : World) :
  (forall w p e, listdir w p = Raise e -> exists m, e = FileNotFoundError m) ->
  (forall w p, is_file_error w p = None) ->
  exists n w' evs,
    Merger.run folders w
    = (Ret tt, w', (evs ++ [Summary n (length folders); Finished])%list)
    /\ run_trace (folder_trace (length folders)) 0 folders w evs n w'
    /\ filter is_summary evs = []
    /\ n <= length folders.
Proof.
  intros Hfnf Hfile.
  destruct (run_loop_trace (length folders) folders 0 0 w Hfnf Hfile)
    as (n & w' & evs & Hl & Ht).
  exists n, w', evs. split; [|split; [exact Ht|split]].
  - unfold Merger.run.
    eapply bind_returns; [exact Hl|]. reflexivity.
  - exact (run_trace_open _ _ _ _ _ _ _ (folder_trace_open _) Ht).
  - exact (run_trace_count _ _ _ _ _ _ _ Ht).
Qed.

(** An enumeration that raises anything else ends the run of merger.py
    at that folder, whatever follows it in the batch. *)
Theorem run_aborts (total i : nat) (fp : string) (rest : list string) (c : nat)
    (w : World) (e : exn) :
  listdir w (of_string fp) = Raise e ->
  (forall m, e <> FileNotFoundError m) ->
  Merger.run_loop total i (fp :: rest) c w = (Raise e, w, header total i fp).
Proof.
  intros Hl Hne. apply run_loop_abort.
  rewrite (process_folder_escapes total i fp c w w e []).
  - now rewrite app_nil_r.
  - now apply analyze_folder_escapes.
Qed.

End RunShape.

(* ================================================================= *)
(** * The properties of the pipeline *)

(** C1. [merge_subtitles] returns a success flag paired with an optional
    error text whatever the video, the subtitles, the output path and the
    behaviour of the external tool are, in merger.py and in mergerV3.py:
    no exception leaves the call.  The flag is set exactly when there is
    no error text. *)
Theorem merge_always_returns_outcome {World : Type} {os : OS World}
    (video : Path) (subs : list Path) (out : Path) (w : World) :
  (exists ok err,
      result_of (Merger.merge_subtitles video subs out w) = Ret (ok, err)
      /\ (ok = true <-> err = None))
  /\ (exists ok err,
         result_of (MergerV3.merge_subtitles video subs out w) = Ret (ok, err)
         /\ (ok = true <-> err = None)).
Proof.
  split.
  - destruct (merge_total video subs out w) as (ok & err & w' & evs & -> & Hok & _).
    now exists ok, err.
  - destruct (merge_total_v3 video subs out w) as (ok & err & w' & evs & -> & Hok & _).
    now exists ok, err.
Qed.

(** C2. The command [merge_subtitles] hands to the external tool is the
    tool path, [-o] and the output path, the video path, and then for each
    subtitle, in input order, [--language], [0:eng] and the path of that
    subtitle; it is the one command the call spawns.  The path of the
    subtitle number [i] sits at position [6 + 3 * i]. *)
Theorem merge_command_line {World : Type} {os : OS World}
    (video : Path) (subs : list Path) (out : Path) (w : World) :
  let cmd := Merger.build_cmd video subs out in
  cmd = Merger.MKVMERGE_PATH :: "-o" :: str out :: str video
        :: flat_map (fun s => ["--language"; "0:eng"; str s]) subs
  /\ MergerV3.build_cmd video subs out = cmd
  /\ spawned (events_of (Merger.merge_subtitles video subs out w)) = [cmd]
  /\ spawned (events_of (MergerV3.merge_subtitles video subs out w)) = [cmd]
  /\ (forall i, nth_error cmd (4 + 3 * i) = option_map (fun _ => "--language") (nth_error subs i)
             /\ nth_error cmd (5 + 3 * i) = option_map (fun _ => "0:eng") (nth_error subs i)
             /\ nth_error cmd (6 + 3 * i) = option_map str (nth_error subs i)).
Proof.
  cbv zeta. split; [apply build_cmd_spec|].
  split; [reflexivity|].
  split.
  { destruct (merge_total video subs out w) as (ok & err & w' & evs & -> & _ & Hs).
    exact Hs. }
  split.
  { destruct (merge_total_v3 video subs out w) as (ok & err & w' & evs & -> & _ & Hs).
    exact Hs. }
  intros i. rewrite build_cmd_spec. unfold spec_command.
  exact (subtitle_positions subs i).
Qed.


(** C3. At any point of any batch, a folder whose analysis yields no
    video or no subtitle is not handed to [merge_subtitles]: the iteration
    spawns nothing, its one terminal outcome is "skipped" (a warning, not
    an error), it leaves the success count as it was, and the loop goes on
    with the next index, so the folder counts in the total only.  In
    merger.py and in mergerV3.py. *)
Theorem skipped_folder_never_reaches_merge {World : Type} {os : OS World}
    (total i : nat) (fp : string) (c : nat) (w : World)
    (video : option Path) (subs : list Path) :
  video = None \/ subs = [] ->
  (forall w1 aev,
      Merger.analyze_folder fp w = (Ret (video, subs), w1, aev) ->
      exists evs,
        Merger.process_folder total i fp c w = (Ret c, w1, evs)
        /\ spawned evs = [] /\ verdicts evs = [Skipped]
        /\ forall rest, Merger.run_loop total i (fp :: rest) c w
                        = after evs (Merger.run_loop total (S i) rest c w1))
  /\ (forall w1 aev,
         MergerV3.analyze_folder fp w = (Ret (video, subs), w1, aev) ->
         exists evs,
           MergerV3.process_folder total i fp c w = (Ret c, w1, evs)
           /\ spawned evs = [] /\ verdicts evs = [Skipped]
           /\ forall rest, MergerV3.run_loop total i (fp :: rest) c w
                           = after evs (MergerV3.run_loop total (S i) rest c w1)).
Proof.
  intros Hempty. split; intros w1 aev Ha.
  - destruct (analyze_folder_quiet _ _ _ _ _ Ha) as [_ Hq].
    destruct (logged_invisible _ Hq) as (Hv & Hs & _).
    assert (Hp : exists msg,
               Merger.process_folder total i fp c w
               = (Ret c, w1, (header total i fp ++ aev ++ [LogMessage msg])%list)
               /\ verdict_of (LogMessage msg) = Some Skipped).
    { destruct video as [v|].
      - destruct Hempty as [Hv0 | ->]; [discriminate|].
        exists no_subtitles_msg. split; [|reflexivity].
        now apply process_folder_no_subtitles with (v := v).
      - exists no_video_msg. split; [|reflexivity].
        now apply process_folder_no_video with (subs := subs). }
    destruct Hp as (msg & Hp & Hmsg).
    eexists. split; [exact Hp|].
    rewrite !spawned_app, !verdicts_app, Hv, Hs.
    destruct (verdicts_header total i fp) as [-> ->].
    cbn [app verdicts spawned flat_map]. rewrite Hmsg.
    repeat split. intros rest. now apply run_loop_step.
  - destruct (analyze_folder_quiet_v3 _ _ _ _ _ Ha) as [_ Hq].
    destruct (logged_invisible _ Hq) as (Hv & Hs & _).
    pose proof (process_folder_skipped_v3 total i fp c w w1 video subs aev Ha Hempty)
      as Hp.
    eexists. split; [exact Hp|].
    rewrite !spawned_app, !verdicts_app, Hv, Hs.
    destruct (verdicts_header_v3 total i fp) as [-> ->].
    repeat split. intros rest. now apply run_loop_step_v3.
Qed.

Lemma skipped_folder_witness :
  exists evs,
    Merger.process_folder 3 1 "/media/empty" 1 Demo.w0 = (Ret 1, Demo.w0, evs)
    /\ spawned evs = [] /\ verdicts evs = [Skipped].
Proof.
  destruct (skipped_folder_never_reaches_merge 3 1 "/media/empty" 1 Demo.w0 None []
              (or_introl eq_refl)) as [Hm _].
  destruct (Hm Demo.w0 []) as (evs & Hp & Hs & Hv & _).
  - vm_compute. reflexivity.
  - exists evs. repeat split; assumption.
Defined.

Section RoleFacts.

Lemma child_inj (p : Path) (n n' : string) : child p n = child p n' -> n = n'.
Proof.
  unfold child. intros [= Heq]. now apply app_inj_tail in Heq as [_ Heq].
Qed.

Lemma collected_subtitles_In (folder : Path) (es : list DirEntry) (p : Path) :
  In p (collected_subtitles folder es) ->
  exists e, In e es /\ p = child folder (entry_name e) /\ entry_is_file e = true
            /\ Py.lower (name_suffix (entry_name e)) = Merger.SUBTITLE_EXTENSION.
Proof.
  unfold collected_subtitles. intros Hin.
  apply in_map_iff in Hin as (e & <- & He).
  apply filter_In in He as [He Hs]. unfold is_subtitle_entry in Hs.
  apply andb_true_iff in Hs as [Hf Hs]. apply String.eqb_eq in Hs.
  now exists e.
Qed.

End RoleFacts.



(** C9, as the code has it.  A folder whose analysis yields no subtitle is
    skipped, and the reason depends on the video: merger.py reports "No
    subtitle files (.srt) found." when a video was found and "No video
    file found." when none was; mergerV3.py reports "No video or subtitles
    found." in both cases. *)
Theorem skip_reason_without_subtitles {World : Type} {os : OS World}
    (total i : nat) (fp : string) (c : nat) (w : World)
    (video : option Path) (subs : list Path) :
  subs = [] ->
  (forall w1 aev,
      Merger.analyze_folder fp w = (Ret (video, subs), w1, aev) ->
      Merger.process_folder total i fp c w
      = (Ret c, w1,
         (header total i fp ++ aev
          ++ [LogMessage match video with
                         | Some _ => no_subtitles_msg
                         | None => no_video_msg
                         end])%list))
  /\ (forall w1 aev,
         MergerV3.analyze_folder fp w = (Ret (video, subs), w1, aev) ->
         MergerV3.process_folder total i fp c w
         = (Ret c, w1,
            (header_v3 total i fp ++ aev
             ++ [Queued nothing_found_msg_v3 (Some COLOR_WARNING)])%list)).
Proof.
  intros ->. split; intros w1 aev Ha.
  - destruct video as [v|].
    + now apply process_folder_no_subtitles with (v := v).
    + now apply process_folder_no_video with (subs := []).
  - apply process_folder_skipped_v3 with (video := video) (subs := []); auto.
Qed.

Lemma skip_reason_without_subtitles_witness :
  events_of (Merger.process_folder 1 0 "/media/nosubs" 0 Demo.w0)
  = (header 1 0 "/media/nosubs" ++ [LogMessage no_subtitles_msg])%list
  /\ events_of (MergerV3.process_folder 1 0 "/media/nosubs" 0 Demo.w0)
     = (header_v3 1 0 "/media/nosubs"
        ++ [Queued nothing_found_msg_v3 (Some COLOR_WARNING)])%list.
Proof.
  destruct (skip_reason_without_subtitles 1 0 "/media/nosubs" 0 Demo.w0
              (Some (child (of_string "/media/nosubs") "film.mkv")) [] eq_refl)
    as [Hm Hv].
  split.
  - rewrite (Hm Demo.w0 []); [reflexivity | vm_compute; reflexivity].
  - rewrite (Hv Demo.w0 []); [reflexivity | vm_compute; reflexivity].
Defined.

(** C9 as stated fails: the empty folder has no subtitle, and merger.py
    reports it with the reason "No video file found."; no message of the
    iteration mentions subtitles. *)
Lemma empty_folder_reported_without_video :
  result_of (Merger.analyze_folder "/media/empty" Demo.w0) = Ret (None, [])
  /\ events_of (Merger.process_folder 1 0 "/media/empty" 0 Demo.w0)
     = [Progress 1 1 "empty";
        LogMessage (Py.nl ++ "--- [1/1] Analyzing: /media/empty ---");
        LogMessage no_video_msg]
  /\ ~ In (LogMessage no_subtitles_msg)
          (events_of (Merger.process_folder 1 0 "/media/empty" 0 Demo.w0))
  /\ Py.contains "ubtitle" no_video_msg = false.
Proof.
  split; [reflexivity|]. split; [reflexivity|]. split; [|reflexivity].
  vm_compute. intros [H|[H|[H|[]]]]; discriminate H.
Qed.




(** C5, as the code has it.  When the enumeration of a folder completes
    and [is_file] answers for each of its entries, [analyze_folder]
    selects the first video match in enumeration order and keeps it; for
    each later video match it logs one warning, which names the folder
    and, in merger.py, the selected first video; the warning does not
    name the later file, and it is not part of the result. *)
Theorem first_video_wins {World : Type} {os : OS World}
    (fp : string) (w : World) (es : list DirEntry) (first : DirEntry)
    (more : list DirEntry) :
  listdir w (of_string fp) = Ret es ->
  (forall e, In e es -> is_file_error w (child (of_string fp) (entry_name e)) = None) ->
  filter is_video_entry es = first :: more ->
  let folder := of_string fp in
  exists subs,
    Merger.analyze_folder fp w
    = (Ret (Some (child folder (entry_name first)), subs), w,
       repeat (Logged WARNING ("Multiple videos in " ++ name folder ++ ". Using '"
                               ++ entry_name first ++ "'."))
              (length more))
    /\ MergerV3.analyze_folder fp w
       = (Ret (Some (child folder (entry_name first)), subs), w,
          repeat (Logged WARNING ("Multiple videos found in " ++ name folder
                                  ++ ", using first found."))
                 (length more)).
Proof.
  intros Hl Hfile Hf folder. exists (collected_subtitles folder es).
  pose proof (examination_error_all _ _ _ Hfile) as Hx.
  rewrite (analyze_folder_listed _ _ _ Hl Hx), (analyze_folder_listed_v3 _ _ _ Hl Hx).
  unfold selected_video, ambiguity_warnings, ambiguity_warnings_v3.
  rewrite Hf. cbn [hd_error option_map tl].
  rewrite !map_const_repeat.
  unfold multiple_videos_msg, multiple_videos_msg_v3, entry_path.
  rewrite name_child. split; reflexivity.
Qed.

Lemma first_video_wins_witness :
  exists subs,
    Merger.analyze_folder "/media/two" Demo.w0
    = (Ret (Some (child (of_string "/media/two") "a.mp4"), subs), Demo.w0,
       [Logged WARNING "Multiple videos in two. Using 'a.mp4'."]).
Proof.
  destruct (first_video_wins "/media/two" Demo.w0
              [Demo.file "a.mp4"; Demo.file "b.mkv"]
              (Demo.file "a.mp4") [Demo.file "b.mkv"])
    as (subs & Hm & _).
  - vm_compute. reflexivity.
  - intros e _. reflexivity.
  - vm_compute. reflexivity.
  - exists subs. exact Hm.
Defined.

(** C5 as stated fails: for the folder enumerating [a.mp4] then [b.mkv]
    the one note logged names [a.mp4] in merger.py and no file in
    mergerV3.py; none references [b.mkv]. *)
Lemma ambiguity_note_omits_later_video :
  listdir Demo.w0 (of_string "/media/two") = Ret [Demo.file "a.mp4"; Demo.file "b.mkv"]
  /\ result_of (Merger.analyze_folder "/media/two" Demo.w0)
     = Ret (Some (child (of_string "/media/two") "a.mp4"), [])
  /\ events_of (Merger.analyze_folder "/media/two" Demo.w0)
     = [Logged WARNING "Multiple videos in two. Using 'a.mp4'."]
  /\ events_of (MergerV3.analyze_folder "/media/two" Demo.w0)
     = [Logged WARNING "Multiple videos found in two, using first found."]
  /\ Py.contains "b.mkv" "Multiple videos in two. Using 'a.mp4'." = false
  /\ Py.contains "b.mkv" "Multiple videos found in two, using first found." = false.
Proof. repeat split; vm_compute; reflexivity. Qed.

(** C4 at a folder that cannot be read.  [analyze_folder] of merger.py
    handles [FileNotFoundError] only: the [PermissionError] of the
    enumeration leaves it, where mergerV3.py returns the empty result and
    logs the condition. *)
Theorem analyze_folder_unreadable :
  listdir Demo.w0 (of_string "/media/locked")
  = Raise (PermissionError "[Errno 13] Permission denied: '/media/locked'")
  /\ result_of (Merger.analyze_folder "/media/locked" Demo.w0)
     = Raise (PermissionError "[Errno 13] Permission denied: '/media/locked'")
  /\ events_of (Merger.analyze_folder "/media/locked" Demo.w0) = []
  /\ result_of (MergerV3.analyze_folder "/media/locked" Demo.w0) = Ret (None, [])
  /\ events_of (MergerV3.analyze_folder "/media/locked" Demo.w0)
     = [Logged ERROR ("Could not analyze folder /media/locked: "
                      ++ "[Errno 13] Permission denied: '/media/locked'")]
  /\ result_of (Merger.analyze_folder "/media/gone" Demo.w0) = Ret (None, [])
  /\ events_of (Merger.analyze_folder "/media/gone" Demo.w0)
     = [Logged ERROR ("Could not access folder: /media/gone. "
                      ++ "It may have been moved or deleted.")].
Proof. repeat split; vm_compute; reflexivity. Qed.

(** C6 at a tool that exits with status 1 and the standard error "bad
    track".  merger.py returns the text with the exit code and the
    standard error; mergerV3.py returns the standard error alone, and
    for a tool that is not installed it returns the text of the
    exception where merger.py returns its fixed guidance. *)
Theorem merge_error_text_v3 :
  let video := child (of_string "/media/broken") "bad.mkv" in
  let subs := [child (of_string "/media/broken") "bad.srt"] in
  let out := child (of_string "/media/broken") "bad_subbed.mkv" in
  spawn Demo.w0 (MergerV3.build_cmd video subs out) = (Exited 1 "" "bad track", Demo.w0)
  /\ result_of (Merger.merge_subtitles video subs out Demo.w0)
     = Ret (false, Some "mkvmerge error (Code 1): bad track")
  /\ result_of (MergerV3.merge_subtitles video subs out Demo.w0)
     = Ret (false, Some "bad track")
  /\ Py.contains "1" "bad track" = false
  /\ result_of (Merger.merge_subtitles video subs out Demo.w_missing)
     = Ret (false, Some ("mkvmerge not found. Ensure MKVToolNix is installed "
                         ++ "and in your system's PATH."))
  /\ result_of (MergerV3.merge_subtitles video subs out Demo.w_missing)
     = Ret (false, Some "[Errno 2] No such file or directory: 'mkvmerge'").
Proof. cbv zeta. repeat split; vm_compute; reflexivity. Qed.

(** C7 at a batch of three folders whose second cannot be read.  The run
    of merger.py ends with the [PermissionError] while folder 2 is being
    analyzed: folder 2 gets no terminal outcome, folder 3 is never
    started, and neither the summary nor the end of the run is emitted.
    mergerV3.py completes the same batch with the summary 1/3. *)
Theorem run_aborted_by_unreadable_folder :
  let folders := ["/media/show"; "/media/locked"; "/media/nosubs"] in
  result_of (Merger.run folders Demo.w0)
  = Raise (PermissionError "[Errno 13] Permission denied: '/media/locked'")
  /\ filter is_progress (events_of (Merger.run folders Demo.w0))
     = [Progress 1 3 "show"; Progress 2 3 "locked"]
  /\ verdicts (events_of (Merger.run folders Demo.w0)) = [Succeeded]
  /\ filter is_summary (events_of (Merger.run folders Demo.w0)) = []
  /\ result_of (MergerV3.processing_thread folders Demo.w0) = Ret tt
  /\ verdicts (events_of (MergerV3.processing_thread folders Demo.w0))
     = [Succeeded; Skipped; Skipped]
  /\ filter is_summary (events_of (MergerV3.processing_thread folders Demo.w0))
     = [ProgressLabel "Complete! ‚úÖ Processed 1/3 folders successfully.";
        SetUiState false].
Proof. cbv zeta. repeat split; vm_compute; reflexivity. Qed.

(* ================================================================= *)
(** * Further properties of the core *)

Section CoreSupport.
Context {World : Type} `{OS World}.

Lemma append_cancel_l (a b c : string) : a ++ b = a ++ c -> b = c.
Proof. induction a as [|x a IH]; simpl; [auto | intros [= E]; auto]. Qed.

Lemma rfind_zero_head (c : ascii) (s : string) :
  Py.rfind c s = Some 0 -> exists t, s = String c t.
Proof.
  destruct s as [|a s]; simpl; [discriminate|].
  destruct (Py.rfind c s); [discriminate|].
  destruct (Ascii.eqb a c) eqn:E; [|discriminate].
  apply Ascii.eqb_eq in E. subst a. intros _. now exists s.
Qed.

(** The name of the output of a video of a folder. *)
Lemma output_name_suffix (n : string) :
  name_suffix n <> "" ->
  name_suffix (name_stem n ++ Merger.OUTPUT_SUFFIX ++ ".mkv") = ".mkv".
Proof.
  intros Hsfx. destruct (name_suffix_shape n Hsfx) as (Hst & _ & _).
  apply name_suffix_insert; [exact Hst | simpl; lia | reflexivity].
Qed.

Lemma output_name_differs (n : string) :
  name_suffix n <> "" ->
  name_stem n ++ Merger.OUTPUT_SUFFIX ++ ".mkv" <> n.
Proof.
  intros Hsfx Heq. destruct (name_suffix_shape n Hsfx) as (_ & _ & Hdot).
  assert (E : name_stem n ++ Merger.OUTPUT_SUFFIX ++ ".mkv"
              = name_stem n ++ name_suffix n)
    by (rewrite name_stem_suffix; exact Heq).
  apply append_cancel_l in E.
  apply rfind_zero_head in Hdot as [t Ht]. rewrite Ht in E. discriminate E.
Qed.

(** What the analysis of merger.py tells about a video it returns. *)
Lemma analyzed_video (fp : string) (w w1 : World) (video : Path) (subs : list Path)
    (aev : list event) :
  Merger.analyze_folder fp w = (Ret (Some video, subs), w1, aev) ->
  exists es n,
    listdir w (of_string fp) = Ret es
    /\ subs = collected_subtitles (of_string fp) es
    /\ video = child (of_string fp) n
    /\ valid_name n = true /\ name_suffix n <> ""
    /\ Merger.output_path_of video
       = Ret (child (of_string fp) (name_stem n ++ Merger.OUTPUT_SUFFIX ++ ".mkv")).
Proof.
  intros Ha.
  destruct (analyze_folder_returned _ _ _ _ _ _ Ha)
    as [(es & Hl & _ & Hv & Hs) | (m & _ & Hv & _)]; [|discriminate].
  destruct (selected_video_entry _ es video (listdir_valid _ _ _ Hl) (eq_sym Hv))
    as (n & -> & Hn & Hsfx & _).
  exists es, n. repeat split; try assumption.
  now apply output_path_of_child.
Qed.

Lemma analyzed_video_v3 (fp : string) (w w1 : World) (video : Path) (subs : list Path)
    (aev : list event) :
  MergerV3.analyze_folder fp w = (Ret (Some video, subs), w1, aev) ->
  exists es n,
    (exists l, listdir w (of_string fp) = Ret l /\ es = examined w (of_string fp) l)
    /\ subs = collected_subtitles (of_string fp) es
    /\ video = child (of_string fp) n
    /\ valid_name n = true /\ name_suffix n <> ""
    /\ MergerV3.output_path_of video
       = Ret (child (of_string fp) (name_stem n ++ Merger.OUTPUT_SUFFIX ++ ".mkv")).
Proof.
  intros Ha.
  destruct (analyze_folder_returned_v3 _ _ _ _ _ _ Ha)
    as [(es & Hl & Hv & Hs) | (m & _ & Hv & _)]; [|discriminate].
  destruct (selected_video_entry _ _ video
              (examined_valid _ _ _ (listdir_valid _ _ _ Hl)) (eq_sym Hv))
    as (n & -> & Hn & Hsfx & _).
  exists (examined w (of_string fp) es), n.
  split; [now exists es|]. repeat split; try assumption.
  rewrite output_path_of_v3. now apply output_path_of_child.
Qed.

End CoreSupport.

(** X4. The output path computed for a video that reaches the merge step
    is a new path of the same folder: it is neither the video itself nor
    one of the subtitles handed to the tool, so the tool is never told to
    write over one of its inputs.  In merger.py and in mergerV3.py. *)
Theorem output_is_not_an_input {World : Type} {os : OS World}
    (fp : string) (w w1 : World) (video : Path) (subs : list Path)
    (aev : list event) :
  Merger.analyze_folder fp w = (Ret (Some video, subs), w1, aev)
  \/ MergerV3.analyze_folder fp w = (Ret (Some video, subs), w1, aev) ->
  exists out,
    Merger.output_path_of video = Ret out
    /\ MergerV3.output_path_of video = Ret out
    /\ out <> video
    /\ ~ In out subs.
Proof.
  intros Ha.
  assert (Hv : exists es n,
             subs = collected_subtitles (of_string fp) es
             /\ video = child (of_string fp) n
             /\ valid_name n = true /\ name_suffix n <> ""
             /\ Merger.output_path_of video
                = Ret (child (of_string fp)
                             (name_stem n ++ Merger.OUTPUT_SUFFIX ++ ".mkv"))).
  { destruct Ha as [Ha|Ha].
    - destruct (analyzed_video _ _ _ _ _ _ Ha) as (es & n & _ & H2 & H3 & H4 & H5 & H6).
      now exists es, n.
    - destruct (analyzed_video_v3 _ _ _ _ _ _ Ha)
        as (es & n & _ & H2 & H3 & H4 & H5 & H6).
      exists es, n. now rewrite <- output_path_of_v3. }
  destruct Hv as (es & n & -> & -> & Hn & Hsfx & Hout).
  eexists. split; [exact Hout|]. split; [exact Hout|]. split.
  - intros Heq. apply child_inj in Heq. now apply (output_name_differs n Hsfx).
  - intros Hin. apply collected_subtitles_In in Hin as (e & _ & Heq & _ & Hs).
    apply child_inj in Heq. rewrite <- Heq, (output_name_suffix n Hsfx) in Hs.
    discriminate Hs.
Qed.

Lemma output_is_not_an_input_witness :
  exists out,
    Merger.output_path_of (child (of_string "/media/show") "ep1.MP4") = Ret out
    /\ out <> child (of_string "/media/show") "ep1.MP4".
Proof.
  destruct (output_is_not_an_input "/media/show" Demo.w0 Demo.w0
              (child (of_string "/media/show") "ep1.MP4")
              [child (of_string "/media/show") "ep1.en.srt";
               child (of_string "/media/show") "ep1.fr.SRT"] [])
    as (out & Ho & _ & Hne & _).
  - left. vm_compute. reflexivity.
  - exists out. split; [exact Ho | exact Hne].
Defined.

(** X5. The output of a merge is itself a video candidate: its name has
    the suffix [.mkv], so an analysis of the same folder that finds it
    counts it as a video (and never as a subtitle).  In merger.py and in
    mergerV3.py. *)
Theorem output_is_a_video_candidate {World : Type} {os : OS World}
    (fp : string) (w w1 : World) (video : Path) (subs : list Path)
    (aev : list event) :
  Merger.analyze_folder fp w = (Ret (Some video, subs), w1, aev)
  \/ MergerV3.analyze_folder fp w = (Ret (Some video, subs), w1, aev) ->
  exists out,
    Merger.output_path_of video = Ret out
    /\ MergerV3.output_path_of video = Ret out
    /\ is_video_entry (mkEntry (name out) true) = true
    /\ is_subtitle_entry (mkEntry (name out) true) = false.
Proof.
  intros Ha.
  assert (Hv : exists n,
             name_suffix n <> ""
             /\ Merger.output_path_of video
                = Ret (child (of_string fp)
                             (name_stem n ++ Merger.OUTPUT_SUFFIX ++ ".mkv"))).
  { destruct Ha as [Ha|Ha].
    - destruct (analyzed_video _ _ _ _ _ _ Ha) as (es & n & _ & _ & _ & _ & H5 & H6).
      now exists n.
    - destruct (analyzed_video_v3 _ _ _ _ _ _ Ha) as (es & n & _ & _ & _ & _ & H5 & H6).
      exists n. now rewrite <- output_path_of_v3. }
  destruct Hv as (n & Hsfx & Hout).
  eexists. split; [exact Hout|]. split; [exact Hout|].
  unfold is_video_entry, is_subtitle_entry. cbn [entry_name entry_is_file andb].
  rewrite name_child, (output_name_suffix n Hsfx). split; reflexivity.
Qed.

Lemma output_is_a_video_candidate_witness :
  exists out,
    MergerV3.output_path_of (child (of_string "/media/nosubs") "film.mkv") = Ret out
    /\ is_video_entry (mkEntry (name out) true) = true.
Proof.
  destruct (output_is_a_video_candidate "/media/nosubs" Demo.w0 Demo.w0
              (child (of_string "/media/nosubs") "film.mkv") [] [])
    as (out & _ & Ho & Hv & _).
  - right. vm_compute. reflexivity.
  - exists out. split; [exact Ho | exact Hv].
Defined.


(** X6. Whenever [merge_subtitles] of merger.py reports a failure it
    gives a nonempty error text, so the line the worker shows for the
    failure carries that text and never the fallback "Unknown reason.". *)
Theorem merge_failure_has_reason {World : Type} {os : OS World}
    (video : Path) (subs : list Path) (out : Path) (w w' : World)
    (err : option string) (evs : list event) :
  Merger.merge_subtitles video subs out w = (Ret (false, err), w', evs) ->
  exists msg, err = Some msg /\ msg <> "" /\ Merger.error_or_unknown err = msg.
Proof.
  destruct (spawn w (Merger.build_cmd video subs out)) as [r w1] eqn:Hs.
  destruct (completed r) as [process|e] eqn:Hc.
  - destruct (merge_returned _ _ _ _ _ _ _ Hs Hc) as (logs & -> & _). discriminate.
  - rewrite (merge_raised _ _ _ _ _ _ _ Hs Hc). intros [= <- <- <-].
    eexists. split; [reflexivity|].
    destruct e; (split; [discriminate | reflexivity]).
Qed.

Lemma merge_failure_has_reason_witness :
  exists msg,
    result_of (Merger.merge_subtitles (child (of_string "/media/show") "ep1.MP4")
                 [child (of_string "/media/show") "ep1.en.srt"]
                 (child (of_string "/media/show") "ep1_subbed.mkv") Demo.w_missing)
    = Ret (false, Some msg)
    /\ msg <> "".
Proof.
  destruct (merge_failure_has_reason (child (of_string "/media/show") "ep1.MP4")
              [child (of_string "/media/show") "ep1.en.srt"]
              (child (of_string "/media/show") "ep1_subbed.mkv")
              Demo.w_missing Demo.w_missing
              (Some ("mkvmerge not found. Ensure MKVToolNix is installed "
                     ++ "and in your system's PATH."))
              [Logged INFO
                 ("Executing command: C:\Program Files\MKVToolNix\mkvmerge.exe "
                  ++ "-o /media/show/ep1_subbed.mkv /media/show/ep1.MP4 "
                  ++ "--language 0:eng /media/show/ep1.en.srt");
               Spawned ["C:\Program Files\MKVToolNix\mkvmerge.exe"; "-o";
                        "/media/show/ep1_subbed.mkv"; "/media/show/ep1.MP4";
                        "--language"; "0:eng"; "/media/show/ep1.en.srt"];
               Logged ERROR
                 ("mkvmerge not found. Ensure MKVToolNix is installed "
                  ++ "and in your system's PATH.")])
    as (msg & Herr & Hne & _).
  - vm_compute. reflexivity.
  - exists msg. split; [|exact Hne].
    injection Herr as <-. vm_compute. reflexivity.
Defined.

(** X8. A folder that was moved or deleted does not stop the batch of
    merger.py: the [FileNotFoundError] of its enumeration is logged, the
    folder is reported with "No video file found.", nothing is spawned,
    the success count is kept and the loop goes on with the next
    folder. *)
Theorem missing_folder_is_skipped {World : Type} {os : OS World}
    (total i : nat) (fp : string) (rest : list string) (c : nat) (w : World)
    (m : string) :
  listdir w (of_string fp) = Raise (FileNotFoundError m) ->
  let evs :=
    (header total i fp
     ++ [Logged ERROR ("Could not access folder: " ++ fp
                       ++ ". It may have been moved or deleted.");
         LogMessage no_video_msg])%list in
  Merger.process_folder total i fp c w = (Ret c, w, evs)
  /\ spawned evs = []
  /\ verdicts evs = [Skipped]
  /\ Merger.run_loop total i (fp :: rest) c w
     = after evs (Merger.run_loop total (S i) rest c w).
Proof.
  intros Hl evs.
  assert (Hp : Merger.process_folder total i fp c w = (Ret c, w, evs)).
  { rewrite (process_folder_no_video total i fp c w w [] _
               (analyze_folder_not_found _ _ _ Hl)).
    reflexivity. }
  split; [exact Hp|]. split; [reflexivity|]. split; [reflexivity|].
  now apply run_loop_step.
Qed.

Lemma missing_folder_is_skipped_witness :
  Merger.process_folder 2 0 "/media/gone" 0 Demo.w0
  = (Ret 0, Demo.w0,
     (header 2 0 "/media/gone"
      ++ [Logged ERROR ("Could not access folder: /media/gone"
                        ++ ". It may have been moved or deleted.");
          LogMessage no_video_msg])%list).
Proof.
  destruct (missing_folder_is_skipped 2 0 "/media/gone" ["/media/show"] 0 Demo.w0
              "[Errno 2] No such file or directory: '/media/gone'")
    as (Hp & _).
  - vm_compute. reflexivity.
  - exact Hp.
Defined.

(** X9. No failure of an enumeration stops the batch of mergerV3.py:
    whatever the exception, it is logged with its text, the folder is
    reported with "No video or subtitles found.", nothing is spawned, the
    success count is kept and the loop goes on with the next folder. *)
Theorem unreadable_folder_is_skipped_v3 {World : Type} {os : OS World}
    (total i : nat) (fp : string) (rest : list string) (c : nat) (w : World)
    (e : exn) :
  listdir w (of_string fp) = Raise e ->
  let evs :=
    (header_v3 total i fp
     ++ [Logged ERROR ("Could not analyze folder " ++ fp ++ ": " ++ exn_str e);
         Queued nothing_found_msg_v3 (Some COLOR_WARNING)])%list in
  MergerV3.process_folder total i fp c w = (Ret c, w, evs)
  /\ spawned evs = []
  /\ verdicts evs = [Skipped]
  /\ MergerV3.run_loop total i (fp :: rest) c w
     = after evs (MergerV3.run_loop total (S i) rest c w).
Proof.
  intros Hl evs.
  assert (Hp : MergerV3.process_folder total i fp c w = (Ret c, w, evs)).
  { rewrite (process_folder_skipped_v3 total i fp c w w None [] _
               (analyze_folder_failed_v3 _ _ _ Hl) (or_introl eq_refl)).
    reflexivity. }
  split; [exact Hp|]. split; [reflexivity|]. split; [reflexivity|].
  now apply run_loop_step_v3.
Qed.

Lemma unreadable_folder_is_skipped_v3_witness :
  verdicts (events_of (MergerV3.process_folder 3 1 "/media/locked" 1 Demo.w0))
  = [Skipped].
Proof.
  destruct (unreadable_folder_is_skipped_v3 3 1 "/media/locked" [] 1 Demo.w0
              (PermissionError "[Errno 13] Permission denied: '/media/locked'"))
    as (Hp & _ & Hv & _).
  - vm_compute. reflexivity.
  - rewrite Hp. exact Hv.
Defined.

Section InvarianceSupport.

Lemma filter_narrow {A} (f g : A -> bool) (l : list A) :
  (forall x, f x = true -> g x = true) ->
  filter f (filter g l) = filter f l.
Proof.
  intros Hfg. induction l as [|x l IH]; [reflexivity|].
  simpl. destruct (g x) eqn:Hg; simpl.
  - now rewrite IH.
  - destruct (f x) eqn:Hf; [|exact IH].
    rewrite (Hfg x Hf) in Hg. discriminate Hg.
Qed.

Lemma videos_of_relevant (es : list DirEntry) :
  filter is_video_entry (filter relevant_entry es) = filter is_video_entry es.
Proof.
  apply filter_narrow. intros x Hx. unfold relevant_entry. now rewrite Hx.
Qed.

Lemma subtitles_of_relevant (es : list DirEntry) :
  filter is_subtitle_entry (filter relevant_entry es) = filter is_subtitle_entry es.
Proof.
  apply filter_narrow. intros x Hx. unfold relevant_entry. rewrite Hx.
  apply orb_true_r.
Qed.

End InvarianceSupport.

(** X10. When [is_file] answers for every entry, the analysis of a
    folder depends only on the regular files with a video or the
    subtitle extension, in their order: directories (whatever their
    names) and files with any other suffix change neither the result nor
    the warnings.  Two such enumerations of a folder with the same such
    entries in the same order are analyzed alike, in merger.py and in
    mergerV3.py. *)
Theorem analysis_ignores_other_entries {World : Type} {os : OS World}
    (fp : string) (w w' : World) (es es' : list DirEntry) :
  listdir w (of_string fp) = Ret es ->
  listdir w' (of_string fp) = Ret es' ->
  (forall e, In e es -> is_file_error w (child (of_string fp) (entry_name e)) = None) ->
  (forall e, In e es' ->
             is_file_error w' (child (of_string fp) (entry_name e)) = None) ->
  filter relevant_entry es = filter relevant_entry es' ->
  result_of (Merger.analyze_folder fp w) = result_of (Merger.analyze_folder fp w')
  /\ events_of (Merger.analyze_folder fp w) = events_of (Merger.analyze_folder fp w')
  /\ result_of (MergerV3.analyze_folder fp w)
     = result_of (MergerV3.analyze_folder fp w')
  /\ events_of (MergerV3.analyze_folder fp w)
     = events_of (MergerV3.analyze_folder fp w').
Proof.
  intros Hl Hl' Hfile Hfile' Hrel.
  pose proof (examination_error_all _ _ _ Hfile) as Hx.
  pose proof (examination_error_all _ _ _ Hfile') as Hx'.
  rewrite (analyze_folder_listed _ _ _ Hl Hx), (analyze_folder_listed _ _ _ Hl' Hx'),
    (analyze_folder_listed_v3 _ _ _ Hl Hx), (analyze_folder_listed_v3 _ _ _ Hl' Hx').
  unfold result_of, events_of, fst, snd.
  unfold selected_video, collected_subtitles, ambiguity_warnings, ambiguity_warnings_v3.
  rewrite <- (videos_of_relevant es), <- (subtitles_of_relevant es), Hrel,
    (videos_of_relevant es'), (subtitles_of_relevant es').
  now repeat split.
Qed.

Lemma analysis_ignores_other_entries_witness :
  result_of (Merger.analyze_folder "/media/show" Demo.w0)
  = result_of (Merger.analyze_folder "/media/show"
                 (Demo.mkWorld
                    [("/media/show",
                      Ret [Demo.file "ep1.MP4"; Demo.file "ep1.en.srt";
                           Demo.file "ep1.fr.SRT"])]
                    Demo.mkvmerge [])).
Proof.
  destruct (analysis_ignores_other_entries "/media/show" Demo.w0
              (Demo.mkWorld
                 [("/media/show",
                   Ret [Demo.file "ep1.MP4"; Demo.file "ep1.en.srt";
                        Demo.file "ep1.fr.SRT"])]
                 Demo.mkvmerge [])
              [Demo.file "notes.txt"; Demo.file "ep1.MP4"; Demo.file "ep1.en.srt";
               Demo.directory "extras.srt"; Demo.file "ep1.fr.SRT"]
              [Demo.file "ep1.MP4"; Demo.file "ep1.en.srt"; Demo.file "ep1.fr.SRT"])
    as (Hr & _).
  - vm_compute. reflexivity.
  - vm_compute. reflexivity.
  - intros e _. reflexivity.
  - intros e _. reflexivity.
  - vm_compute. reflexivity.
  - exact Hr.
Defined.

Section SegmentSupport.
Context {World : Type} `{OS World}.

Lemma count_succeeded_cons (v : verdict) (vs : list verdict) :
  count_succeeded (v :: vs) = successes_of v + count_succeeded vs.
Proof. unfold count_succeeded. now destruct v. Qed.

(** What the observer sees of an iteration of mergerV3.py. *)
Lemma folder_trace_segment_v3 (total i : nat) (fp : string) (w w1 : World)
    (fev : list event) (v : verdict) :
  folder_trace_v3 total i fp w w1 fev v ->
  exists body report,
    fev = (header_v3 total i fp ++ body ++ [report])%list
    /\ forallb is_quiet body = true
    /\ verdict_of report = Some v
    /\ length (spawned body) = merges_of v.
Proof.
  intros [video subs aev Ha _ | v0 s subs aev out ok err w' mev Ha _ Hm];
    destruct (analyze_folder_quiet_v3 _ _ _ _ _ Ha) as [_ Hq];
    destruct (logged_invisible _ Hq) as (_ & Hsp & _).
  - exists aev, (Queued nothing_found_msg_v3 (Some COLOR_WARNING)).
    split; [reflexivity|]. split; [now apply logged_quiet|].
    split; [reflexivity|]. now rewrite Hsp.
  - exists (aev ++ mev)%list, (merge_report_v3 out ok err).
    split; [now rewrite <- app_assoc|].
    split.
    { rewrite forallb_app, (logged_quiet _ Hq).
      exact (merge_events_quiet_v3 _ _ _ _ _ _ _ Hm). }
    split; [now destruct ok|].
    destruct (merge_total_v3 v0 (s :: subs) out w)
      as (ok' & err' & w2 & mev' & Hm' & _ & Hc).
    rewrite Hm in Hm'. injection Hm' as _ _ _ <-.
    rewrite spawned_app, Hsp, Hc. now destruct ok.
Qed.

Lemma segment_verdicts_v3 (total i : nat) (fp : string) (seg : list event) :
  folder_segment_v3 total i fp seg ->
  exists v, verdicts seg = [v].
Proof.
  intros (body & report & v & -> & Hq & Hv & _). exists v.
  destruct (quiet_invisible _ Hq) as (Hb & _ & _).
  rewrite !verdicts_app, Hb. cbn [verdicts flat_map app]. now rewrite Hv.
Qed.

Lemma run_trace_segments_v3 (total i : nat) (folders : list string) (w w' : World)
    (evs : list event) (n : nat) :
  run_trace (folder_trace_v3 total) i folders w evs n w' ->
  exists segments,
    evs = concat segments
    /\ length segments = length folders
    /\ (forall j fp seg,
           nth_error folders j = Some fp -> nth_error segments j = Some seg ->
           folder_segment_v3 total (i + j) fp seg)
    /\ n = count_succeeded (verdicts evs).
Proof.
  induction 1 as [i w | i fp rest w w1 w' fev v evs n Hf _ (segs & -> & Hlen & Hseg & Hn)].
  - exists []. repeat split. intros [|j] fp seg; discriminate.
  - exists (fev :: segs). split; [reflexivity|]. split; [cbn; now rewrite Hlen|].
    destruct (folder_trace_segment_v3 _ _ _ _ _ _ _ Hf)
      as (body & report & -> & Hq & Hv & Hsp).
    split.
    + intros [|j] fp' seg; cbn [nth_error].
      * intros [= <-] [= <-]. rewrite Nat.add_0_r. now exists body, report, v.
      * intros Hfp Hsg. replace (i + S j) with (S i + j) by lia. now apply Hseg.
    + destruct (quiet_invisible _ Hq) as (Hb & _ & _).
      rewrite !verdicts_app, Hb. cbn [verdicts flat_map app]. rewrite Hv.
      change (verdicts (header_v3 total i fp)) with (@nil verdict).
      cbn [app]. now rewrite count_succeeded_cons, Hn.
Qed.

End SegmentSupport.

(** X3. The events of [processing_thread] of mergerV3.py, over any list
    of folders, fall into one segment per folder, in the order of the
    folders, followed by what closes the run.  The segment of a folder
    starts with the header of that folder and ends with its one terminal
    outcome; between the two there are only logs and at most one
    spawning of the external tool: none when the folder is skipped, one
    when it succeeded or failed, so a failed merge is not tried again.
    The count the closing label and message show is the number of
    "succeeded" outcomes. *)
Theorem one_attempt_per_folder_v3 {World : Type} {os : OS World}
    (folders : list string) (w : World) :
  exists segments n,
    events_of (MergerV3.processing_thread folders w)
    = (concat segments ++ closing_v3 n (length folders))%list
    /\ length segments = length folders
    /\ (forall i fp seg,
           nth_error folders i = Some fp -> nth_error segments i = Some seg ->
           exists body report v,
             seg = (header_v3 (length folders) i fp ++ body ++ [report])%list
             /\ forallb is_quiet body = true
             /\ verdict_of report = Some v
             /\ length (spawned body) = merges_of v)
    /\ n = count_succeeded (verdicts (concat segments)).
Proof.
  destruct (run_loop_trace_v3 (length folders) folders 0 0 w)
    as (n & w' & evs & Hl & Ht).
  destruct (run_trace_segments_v3 _ _ _ _ _ _ _ Ht)
    as (segments & -> & Hlen & Hseg & Hn).
  exists segments, n. split; [|split; [exact Hlen|split; [|exact Hn]]].
  - unfold MergerV3.processing_thread.
    erewrite bind_returns; [| exact Hl | reflexivity]. reflexivity.
  - intros i fp seg Hfp Hsg. exact (Hseg i fp seg Hfp Hsg).
Qed.

Lemma run_completes_witness :
  exists n w' evs,
    Merger.run ["/media/show"; "/media/gone"; "/media/nosubs"] Plain.w0
    = (Ret tt, w', (evs ++ [Summary n 3; Finished])%list)
    /\ filter is_summary evs = [].
Proof.
  destruct (run_completes ["/media/show"; "/media/gone"; "/media/nosubs"] Plain.w0)
    as (n & w' & evs & Hr & _ & Hs & _).
  - intros w p e. cbn [listdir Plain.plain_os]. unfold Plain.plain_listdir.
    destruct (Plain.lookup (str p) (Plain.dirs w)); [discriminate|].
    intros [= <-]. eexists. reflexivity.
  - reflexivity.
  - exists n, w', evs. split; [exact Hr | exact Hs].
Defined.

(* ================================================================= *)
(** * Facts about the window of merger.py *)

Section GuiFacts.
Context `{SetOrder}.
Variable percentage : nat -> nat -> Z.

Import MergerGui.

Lemma in_list_In (x : string) (l : list string) :
  Py.in_list x l = true <-> In x l.
Proof.
  unfold Py.in_list. rewrite existsb_exists. split.
  - intros (y & Hy & Heq). apply String.eqb_eq in Heq. now subst.
  - intros Hx. exists x. split; [exact Hx | apply String.eqb_refl].
Qed.

Lemma add_In (x y : string) (s : PySet.t) :
  In y (PySet.add x s) <-> y = x \/ In y s.
Proof.
  unfold PySet.add. destruct (Py.in_list x s) eqn:E.
  - apply in_list_In in E. split; [now right | intros [->|Hy]; assumption].
  - rewrite in_app_iff. cbn. split; [intros [Hy|[->|[]]]; auto | intros [->|Hy]; auto].
Qed.

Lemma add_present (x : string) (s : PySet.t) : In x s -> PySet.add x s = s.
Proof. intros Hx. unfold PySet.add. apply in_list_In in Hx. now rewrite Hx. Qed.


Lemma add_all_In (l : list string) (s : PySet.t) (y : string) :
  In y (add_all l s) <-> In y s \/ In y l.
Proof.
  revert s; induction l as [|x l IH]; intros s; cbn.
  - tauto.
  - rewrite IH, add_In. intuition (subst; auto).
Qed.


Lemma add_all_present (l : list string) (s : PySet.t) :
  (forall x, In x l -> In x s) -> add_all l s = s.
Proof.
  induction l as [|x l IH]; intros Hl; cbn; [reflexivity|].
  rewrite add_present by (apply Hl; now left).
  apply IH. intros y Hy. apply Hl. now right.
Qed.

Lemma items_loop (l : list string) (g : Gui) :
  for_each l
    (fun folder =>
       modify (fun g => set_folder_list (folder_list g ++ [new_item folder]) g)) g
  = (Ret tt, set_folder_list (folder_list g ++ map new_item l) g, []).
Proof.
  revert g; induction l as [|x l IH]; intros g.
  - destruct g. cbn. unfold ret, set_folder_list. cbn. now rewrite app_nil_r.
  - cbn [for_each]. unfold bind, modify at 1. rewrite IH.
    destruct g. unfold set_folder_list. cbn. now rewrite <- app_assoc.
Qed.

Lemma update_list_view_spec (g : Gui) :
  update_list_view g
  = (Ret tt, set_folder_list (list_view (folders_to_process g)) g, []).
Proof.
  unfold update_list_view, bind, get. unfold list_view.
  destruct (folders_to_process g) as [|x s] eqn:E.
  - cbn. destruct g. reflexivity.
  - cbn [PySet.truthy negb]. unfold modify at 1. rewrite items_loop.
    destruct g. unfold set_folder_list. cbn in *. now rewrite E.
Qed.

Lemma remove_placeholder_spec (g : Gui) :
  exists fl, remove_placeholder_if_exists g = (Ret tt, set_folder_list fl g, []).
Proof.
  unfold remove_placeholder_if_exists, bind, get.
  destruct g as [s p wk fl la pl pb ae c]. cbn.
  destruct fl as [|item [|item' l]].
  - exists []. reflexivity.
  - destruct (String.eqb (item_text item) PLACEHOLDER_TEXT).
    + exists []. reflexivity.
    + exists [item]. reflexivity.
  - exists (item :: item' :: l). reflexivity.
Qed.

Lemma drop_loop (is_dir : Path -> bool) (urls : list string) (g : Gui) :
  for_each urls
    (fun url =>
       let path := of_string url in
       if is_dir path then add_folder (str path)
       else log_message ("Skipped (Not a folder): " ++ name path)) g
  = (Ret tt,
     set_log_area (log_area g ++ skipped_lines is_dir urls)
       (set_folders (add_all (dropped_folders is_dir urls) (folders_to_process g)) g),
     map (fun f => Logged INFO ("Added folder to queue: " ++ f))
         (dropped_folders is_dir urls)).
Proof.
  revert g; induction urls as [|url urls IH]; intros g.
  - destruct g. cbn. unfold ret, set_log_area, set_folders. cbn.
    now rewrite app_nil_r.
  - cbn [for_each]. unfold bind at 1. cbv zeta.
    unfold dropped_folders, skipped_lines in *. cbn [filter].
    destruct (is_dir (of_string url)); cbn [negb map].
    + unfold add_folder, bind, modify, logging, emit. rewrite IH.
      destruct g. reflexivity.
    + unfold log_message, modify. rewrite IH.
      destruct g. unfold set_log_area, set_folders. cbn.
      now rewrite <- app_assoc.
Qed.

(** [dropEvent] when no batch runs. *)
Lemma dropEvent_spec (is_dir : Path -> bool) (urls : list string) (g : Gui) :
  is_processing g = false ->
  let s' := add_all (dropped_folders is_dir urls) (folders_to_process g) in
  dropEvent is_dir urls g
  = (Ret tt,
     mkGui s' false (worker g) (list_view s')
           (log_area g ++ skipped_lines is_dir urls)
           (progress_label g) (progress_bar g) (animation_end g) (controls g),
     map (fun f => Logged INFO ("Added folder to queue: " ++ f))
         (dropped_folders is_dir urls)).
Proof.
  intros Hp s'. unfold dropEvent, bind at 1, get. rewrite Hp.
  destruct (remove_placeholder_spec g) as [fl Hr].
  unfold bind at 1. rewrite Hr.
  unfold bind at 1. rewrite drop_loop, update_list_view_spec.
  destruct g. cbn in *. subst. now rewrite app_nil_r.
Qed.



End GuiFacts.

Section GuiInvariants.
Context `{SetOrder}.
Variable percentage : nat -> nat -> Z.

Import MergerGui.

Lemma start_processing_spec (g : Gui) :
  folders_to_process g <> [] ->
  start_processing g
  = (Ret tt,
     mkGui (folders_to_process g) true (Some (set_iter (folders_to_process g)))
           (folder_list g) [] "Status: Initializing..." 0 (animation_end g)
           busy_controls,
     []).
Proof.
  intros Hne. unfold start_processing, bind at 1, get.
  destruct g as [s p wk fl la pl pb ae c]. cbn in *.
  destruct s as [|x s]; [congruence|]. reflexivity.
Qed.






End GuiInvariants.


(** Edits handled while a batch runs. *)
Lemma refused_edits {so : SetOrder}
    (percentage : nat -> nat -> Z) (actions : list MergerGui.action)
    (g : MergerGui.Gui) :
  MergerGui.is_processing g = true ->
  forallb MergerGui.is_edit actions = true ->
  for_each actions (MergerGui.handle percentage) g
  = (Ret tt,
     MergerGui.set_log_area
       (MergerGui.log_area g ++ map MergerGui.refusal actions) g,
     []).
Proof.
  intros Hp. revert g Hp. induction actions as [|a actions IH]; intros g Hp Hed.
  - destruct g. cbn. unfold ret, MergerGui.set_log_area. cbn. now rewrite app_nil_r.
  - cbn in Hed. apply andb_true_iff in Hed as [Ha Hed].
    cbn [for_each map].
    assert (Hone : MergerGui.handle percentage a g
                   = (Ret tt,
                      MergerGui.set_log_area
                        (MergerGui.log_area g ++ [MergerGui.refusal a]) g, [])).
    { destruct a; try discriminate Ha; cbn [MergerGui.handle MergerGui.refusal].
      - unfold MergerGui.dropEvent, bind at 1, get. now rewrite Hp.
      - unfold MergerGui.browse_folders, bind at 1, get. now rewrite Hp.
      - unfold MergerGui.clear_list, bind at 1, get. now rewrite Hp. }
    erewrite bind_returns; [| exact Hone | apply IH; [|exact Hed]].
    + destruct g. unfold MergerGui.set_log_area. cbn. now rewrite <- app_assoc.
    + destruct g. exact Hp.
Qed.

(** X12. While a batch runs, the window of merger.py refuses every edit
    of the set of folders: a drop, a folder dialog or a clearing leaves the
    set, the list, the worker and the controls as they are, and each adds
    one line of refusal to the log. *)
Theorem edits_refused_during_batch {so : SetOrder}
    (percentage : nat -> nat -> Z) (actions : list MergerGui.action)
    (g : MergerGui.Gui) :
  MergerGui.is_processing g = true ->
  forallb MergerGui.is_edit actions = true ->
  for_each actions (MergerGui.handle percentage) g
  = (Ret tt,
     MergerGui.set_log_area
       (MergerGui.log_area g ++ map MergerGui.refusal actions) g,
     []).
Proof. apply refused_edits. Qed.

Lemma edits_refused_during_batch_witness :
  let busy := MergerGui.set_is_processing true MergerGui.init in
  MergerGui.folders_to_process
    (MergerGui.after_actions (H:=insertion_order) (fun _ _ => 0%Z)
       [MergerGui.Drop (fun _ => true) ["/media/show"]; MergerGui.ClickClear] busy)
  = [].
Proof.
  cbv zeta. unfold MergerGui.after_actions.
  rewrite (edits_refused_during_batch (so:=insertion_order) (fun _ _ => 0%Z)
             [MergerGui.Drop (fun _ => true) ["/media/show"]; MergerGui.ClickClear]
             (MergerGui.set_is_processing true MergerGui.init)).
  - reflexivity.
  - reflexivity.
  - reflexivity.
Defined.




(** X14. The set of folders of merger.py holds a folder once: dropping
    again what was just dropped changes neither the set nor the list. *)
Theorem drop_again_changes_nothing {so : SetOrder}
    (is_dir : Path -> bool) (urls : list string) (g : MergerGui.Gui) :
  MergerGui.is_processing g = false ->
  let g1 := world_of (MergerGui.dropEvent is_dir urls g) in
  let g2 := world_of (MergerGui.dropEvent is_dir urls g1) in
  MergerGui.folders_to_process g2 = MergerGui.folders_to_process g1
  /\ MergerGui.folder_list g2 = MergerGui.folder_list g1.
Proof.
  intros Hp. cbv zeta. rewrite (dropEvent_spec is_dir urls g Hp).
  unfold world_of at 2 4 5 6, fst, snd.
  rewrite dropEvent_spec by reflexivity.
  unfold world_of, fst, snd.
  cbn [MergerGui.folders_to_process MergerGui.folder_list].
  rewrite add_all_present.
  - split; reflexivity.
  - intros x Hx. apply add_all_In. now right.
Qed.

Lemma drop_again_changes_nothing_witness :
  let g1 := world_of (MergerGui.dropEvent (H:=insertion_order) (fun _ => true)
                        ["/media/show"; "/media/two"] MergerGui.init) in
  MergerGui.folders_to_process
    (world_of (MergerGui.dropEvent (H:=insertion_order) (fun _ => true)
                 ["/media/show"; "/media/two"] g1))
  = MergerGui.folders_to_process g1.
Proof.
  destruct (drop_again_changes_nothing (so:=insertion_order) (fun _ => true)
              ["/media/show"; "/media/two"] MergerGui.init eq_refl) as [Hs _].
  exact Hs.
Defined.

Section WorkerEvents.
Context {World : Type} `{OS World}.

Import MergerGui.

Lemma logged_loop_events (evs : list event) :
  forallb is_logged evs = true -> forallb is_loop_event evs = true.
Proof.
  induction evs as [|e evs IH]; [reflexivity|]. cbn.
  intros Hl. apply andb_true_iff in Hl as [He Hl].
  destruct e; try discriminate He. now apply IH.
Qed.

Lemma merge_loop_events (video : Path) (subs : list Path) (out : Path) (w : World)
    r w' mev :
  Merger.merge_subtitles video subs out w = (r, w', mev) ->
  forallb is_loop_event mev = true.
Proof.
  intros Hm. pose proof (merge_events_quiet _ _ _ _ _ _ _ Hm) as Hq.
  clear Hm. induction mev as [|e mev IH]; [reflexivity|].
  cbn [forallb] in *. apply andb_true_iff in Hq as [He Hq].
  rewrite (IH Hq). now destruct e.
Qed.

Ltac loop_events_tac :=
  repeat first
    [ progress cbn [forallb MergerGui.is_loop_event andb app]
    | rewrite forallb_app
    | match goal with H : forallb MergerGui.is_loop_event _ = true |- _ => rewrite H end ];
  reflexivity.

Lemma process_folder_loop_events (total i : nat) (fp : string) (c : nat) (w : World)
    r w' evs :
  Merger.process_folder total i fp c w = (r, w', evs) ->
  forallb is_loop_event evs = true.
Proof.
  destruct (Merger.analyze_folder fp w) as [[ra wa] aev] eqn:Ha.
  destruct (analyze_folder_quiet _ _ _ _ _ Ha) as [-> Hq].
  apply logged_loop_events in Hq.
  destruct ra as [[[v|] subs]|e].
  - destruct subs as [|s subs].
    + rewrite (process_folder_no_subtitles total i fp c w w v aev Ha).
      intros [= <- <- <-]. loop_events_tac.
    + destruct (analyzed_video _ _ _ _ _ _ Ha) as (es & n & _ & _ & _ & _ & _ & Hout).
      destruct (merge_total v (s :: subs)
                  (child (of_string fp) (name_stem n ++ Merger.OUTPUT_SUFFIX ++ ".mkv")) w)
        as (ok & err & w2 & mev & Hm & _ & _).
      pose proof (merge_loop_events _ _ _ _ _ _ _ Hm) as Hmev.
      rewrite (process_folder_merged total i fp c w w w2 v s subs _ ok err aev mev
                 Ha Hout Hm).
      intros [= <- <- <-]. loop_events_tac.
  - rewrite (process_folder_no_video total i fp c w w subs aev Ha).
    intros [= <- <- <-]. loop_events_tac.
  - rewrite (process_folder_escapes total i fp c w w e aev Ha).
    intros [= <- <- <-]. loop_events_tac.
Qed.

Lemma run_loop_loop_events (total : nat) (folders : list string) (i c : nat)
    (w : World) r w' evs :
  Merger.run_loop total i folders c w = (r, w', evs) ->
  forallb is_loop_event evs = true.
Proof.
  revert i c w r w' evs; induction folders as [|fp rest IH]; intros i c w r w' evs.
  - cbn. now intros [= <- <- <-].
  - destruct (Merger.process_folder total i fp c w) as [[r1 w1] ev1] eqn:Hp.
    pose proof (process_folder_loop_events _ _ _ _ _ _ _ _ Hp) as Hev1.
    destruct r1 as [c'|e].
    + rewrite (run_loop_step _ _ _ _ _ _ _ _ _ Hp).
      destruct (Merger.run_loop total (S i) rest c' w1) as [[r2 w2] ev2] eqn:Hr.
      unfold after, result_of, world_of, events_of. cbn [fst snd].
      intros [= <- <- <-]. rewrite forallb_app, Hev1. exact (IH _ _ _ _ _ _ Hr).
    + rewrite (run_loop_abort _ _ _ _ _ _ _ _ _ Hp). now intros [= <- <- <-].
Qed.

(** A run of merger.py either returns, and its events end with the one
    summary and the end of the run, or it raises, and has neither. *)
Lemma run_structure (folders : list string) (w : World) :
  (exists n w' evs,
      Merger.run folders w
      = (Ret tt, w', (evs ++ [Summary n (length folders); Finished])%list)
      /\ forallb is_loop_event evs = true)
  \/ (exists e w' evs,
         Merger.run folders w = (Raise e, w', evs)
         /\ forallb is_loop_event evs = true).
Proof.
  destruct (Merger.run_loop (length folders) 0 folders 0 w) as [[r w'] evs] eqn:Hl.
  pose proof (run_loop_loop_events _ _ _ _ _ _ _ _ Hl) as Hev.
  destruct r as [n|e].
  - left. exists n, w', evs. split; [|exact Hev].
    unfold Merger.run. eapply bind_returns; [exact Hl | reflexivity].
  - right. exists e, w', evs. split; [|exact Hev].
    unfold Merger.run. now apply bind_raises.
Qed.

End WorkerEvents.

Section Delivery.
Context `{SetOrder}.
Variable percentage : nat -> nat -> Z.

Import MergerGui.

Lemma for_each_app {World A} (a b : list A) (body : A -> M (World:=World) unit)
    (w w1 w2 : World) (ev1 ev2 : list event) :
  for_each a body w = (Ret tt, w1, ev1) ->
  for_each b body w1 = (Ret tt, w2, ev2) ->
  for_each (a ++ b) body w = (Ret tt, w2, (ev1 ++ ev2)%list).
Proof.
  revert w w1 ev1; induction a as [|x a IH]; intros w w1 ev1.
  - cbn. intros [= <- <-]. now intros ->.
  - cbn [for_each app]. unfold bind.
    destruct (body x w) as [[[[]|e] wx] evx]; [|discriminate].
    destruct (for_each a body wx) as [[ra wa] eva] eqn:Ha.
    intros [= -> <- <-] Hb.
    rewrite (IH _ _ _ Ha Hb). now rewrite app_assoc.
Qed.

(** The signals of a loop reach the log and the progress widgets only. *)
Lemma deliver_loop_events (evs : list event) (g : Gui) :
  forallb is_loop_event evs = true ->
  exists lbl anim,
    for_each (map Signal evs) (handle percentage) g
    = (Ret tt,
       mkGui (folders_to_process g) (is_processing g) (worker g) (folder_list g)
             (log_area g ++ log_lines evs) lbl (progress_bar g) anim (controls g),
       []).
Proof.
  revert g; induction evs as [|e evs IH]; intros g Hev.
  - exists (progress_label g), (animation_end g). destruct g. cbn.
    unfold ret. now rewrite app_nil_r.
  - cbn in Hev. apply andb_true_iff in Hev as [He Hev].
    cbn [map for_each].
    destruct e; try discriminate He; cbn [handle slot].
    + destruct (IH g Hev) as (lbl & anim & IHg). exists lbl, anim.
      apply bind_ret. exact IHg.
    + destruct (IH g Hev) as (lbl & anim & IHg). exists lbl, anim.
      apply bind_ret. exact IHg.
    + destruct (IH (set_animation_end (Some (percentage index total))
                      (set_progress_label
                         ("Processing " ++ Py.str_nat index ++ "/"
                          ++ Py.str_nat total ++ ": " ++ folder_name) g)) Hev)
        as (lbl & anim & IHg).
      exists lbl, anim. unfold bind at 1.
      unfold update_progress, bind, modify. rewrite IHg.
      destruct g. reflexivity.
    + destruct (IH (set_log_area (log_area g ++ [msg]) g) Hev) as (lbl & anim & IHg).
      exists lbl, anim. unfold bind at 1, log_message, modify. rewrite IHg.
      destruct g. cbn. now rewrite <- app_assoc.
Qed.

End Delivery.

(** X15. From a nonempty set of folders, a start of the window of
    merger.py hands every submitted folder to the worker exactly once;
    when the run of the worker returns and its signals are delivered in
    order, the window is idle again with its controls enabled, the bar at
    100, the label showing the counts of the summary, and the log holding
    the messages of the worker in order followed by the closing banner.
    The set of folders and the list are as before the run. *)
Theorem window_after_completed_run {World : Type} {os : OS World} {so : SetOrder}
    (percentage : nat -> nat -> Z) (w : World) (g : MergerGui.Gui) :
  MergerGui.folders_to_process g <> [] ->
  result_of (Merger.run (set_iter (MergerGui.folders_to_process g)) w) = Ret tt ->
  let folders := set_iter (MergerGui.folders_to_process g) in
  let evs := events_of (Merger.run folders w) in
  let g' := MergerGui.after_actions percentage
              (MergerGui.ClickStart :: map MergerGui.Signal evs) g in
  MergerGui.worker g' = Some folders
  /\ Permutation folders (MergerGui.folders_to_process g)
  /\ MergerGui.is_processing g' = false
  /\ MergerGui.controls g' = MergerGui.idle_controls
  /\ MergerGui.progress_bar g' = 100%Z
  /\ (exists n,
         In (Summary n (length (MergerGui.folders_to_process g))) evs
         /\ MergerGui.progress_label g'
            = "Status: Complete! ✅ Processed " ++ Py.str_nat n ++ "/"
              ++ Py.str_nat (length (MergerGui.folders_to_process g))
              ++ " successfully.")
  /\ MergerGui.log_area g'
     = app (MergerGui.log_lines evs) [MergerGui.COMPLETE_BANNER]
  /\ MergerGui.folders_to_process g' = MergerGui.folders_to_process g
  /\ MergerGui.folder_list g' = MergerGui.folder_list g.
Proof.
  intros Hne Hret. cbv zeta.
  pose proof (set_iter_perm (MergerGui.folders_to_process g)) as Hperm.
  pose proof (Permutation_length Hperm) as Hlen.
  destruct (run_structure (set_iter (MergerGui.folders_to_process g)) w)
    as [(n & w' & evs & Hrun & Hev) | (e & w' & evs & Hrun & _)];
    [| rewrite Hrun in Hret; discriminate Hret].
  rewrite Hrun. unfold events_of, snd. rewrite Hlen.
  unfold MergerGui.after_actions. cbn [for_each].
  destruct (deliver_loop_events percentage evs
              (MergerGui.mkGui (MergerGui.folders_to_process g) true
                 (Some (set_iter (MergerGui.folders_to_process g)))
                 (MergerGui.folder_list g) [] "Status: Initializing..." 0%Z
                 (MergerGui.animation_end g) MergerGui.busy_controls) Hev)
    as (lbl & anim & Hdel).
  erewrite bind_returns;
    [| apply (start_processing_spec g Hne)
     | rewrite map_app; eapply for_each_app; [exact Hdel | reflexivity]].
  unfold world_of, fst, snd.
  cbn [MergerGui.worker MergerGui.is_processing MergerGui.controls
       MergerGui.progress_bar MergerGui.log_area MergerGui.folders_to_process
       MergerGui.folder_list MergerGui.progress_label app].
  split; [reflexivity|]. split; [exact Hperm|]. split; [reflexivity|].
  split; [reflexivity|]. split; [reflexivity|]. split.
  { exists n. split; [|reflexivity]. apply in_or_app. right. now left. }
  split; [|split; reflexivity].
  unfold MergerGui.log_lines. rewrite flat_map_app. cbn. now rewrite app_nil_r.
Qed.

Lemma window_after_completed_run_witness :
  let g := MergerGui.after_actions (H:=insertion_order) (fun _ _ => 0%Z)
             [MergerGui.Drop (fun _ => true) ["/media/show"; "/media/gone"]]
             MergerGui.init in
  let evs := events_of (Merger.run ["/media/show"; "/media/gone"] Plain.w0) in
  MergerGui.is_processing
    (MergerGui.after_actions (H:=insertion_order) (fun _ _ => 0%Z)
       (MergerGui.ClickStart :: map MergerGui.Signal evs) g) = false.
Proof.
  cbv zeta.
  destruct (window_after_completed_run (so:=insertion_order) (fun _ _ => 0%Z)
              Plain.w0
              (MergerGui.after_actions (H:=insertion_order) (fun _ _ => 0%Z)
                 [MergerGui.Drop (fun _ => true) ["/media/show"; "/media/gone"]]
                 MergerGui.init))
    as (_ & _ & Hidle & _).
  - vm_compute. discriminate.
  - vm_compute. reflexivity.
  - exact Hidle.
Defined.

(** X16. When the run of the worker of merger.py raises, no summary
    reaches the window: after all its signals are delivered the window
    still counts as processing, with its controls disabled, and from then
    on it refuses every drop, folder dialog and clearing: the set of
    folders can no longer be changed. *)
Theorem window_after_aborted_run {World : Type} {os : OS World} {so : SetOrder}
    (percentage : nat -> nat -> Z) (w : World) (g : MergerGui.Gui) (e : exn)
    (edits : list MergerGui.action) :
  MergerGui.folders_to_process g <> [] ->
  result_of (Merger.run (set_iter (MergerGui.folders_to_process g)) w) = Raise e ->
  forallb MergerGui.is_edit edits = true ->
  let evs := events_of (Merger.run (set_iter (MergerGui.folders_to_process g)) w) in
  let g' := MergerGui.after_actions percentage
              (MergerGui.ClickStart :: map MergerGui.Signal evs) g in
  let g'' := MergerGui.after_actions percentage edits g' in
  MergerGui.is_processing g' = true
  /\ MergerGui.controls g' = MergerGui.busy_controls
  /\ MergerGui.is_processing g'' = true
  /\ MergerGui.controls g'' = MergerGui.busy_controls
  /\ MergerGui.folders_to_process g'' = MergerGui.folders_to_process g
  /\ MergerGui.folder_list g'' = MergerGui.folder_list g.
Proof.
  intros Hne Hraise Hedits. cbv zeta.
  destruct (run_structure (set_iter (MergerGui.folders_to_process g)) w)
    as [(n & w' & evs & Hrun & _) | (e' & w' & evs & Hrun & Hev)];
    [rewrite Hrun in Hraise; discriminate Hraise|].
  rewrite Hrun. unfold events_of, snd.
  destruct (deliver_loop_events percentage evs
              (MergerGui.mkGui (MergerGui.folders_to_process g) true
                 (Some (set_iter (MergerGui.folders_to_process g)))
                 (MergerGui.folder_list g) [] "Status: Initializing..." 0%Z
                 (MergerGui.animation_end g) MergerGui.busy_controls) Hev)
    as (lbl & anim & Hdel).
  assert (Hg : MergerGui.after_actions percentage
                 (MergerGui.ClickStart :: map MergerGui.Signal evs) g
               = MergerGui.mkGui (MergerGui.folders_to_process g) true
                   (Some (set_iter (MergerGui.folders_to_process g)))
                   (MergerGui.folder_list g) (MergerGui.log_lines evs) lbl 0%Z anim
                   MergerGui.busy_controls).
  { unfold MergerGui.after_actions. cbn [for_each].
    erewrite bind_returns; [| apply (start_processing_spec g Hne) | exact Hdel].
    reflexivity. }
  rewrite Hg. unfold MergerGui.after_actions.
  rewrite refused_edits by (try reflexivity; exact Hedits).
  unfold world_of, fst, snd. now repeat split.
Qed.

Lemma window_after_aborted_run_witness :
  let g := MergerGui.after_actions (H:=insertion_order) (fun _ _ => 0%Z)
             [MergerGui.Drop (fun _ => true) ["/media/show"; "/media/locked"]]
             MergerGui.init in
  let evs := events_of (Merger.run ["/media/show"; "/media/locked"] Demo.w0) in
  MergerGui.folders_to_process
    (MergerGui.after_actions (H:=insertion_order) (fun _ _ => 0%Z)
       [MergerGui.ClickClear]
       (MergerGui.after_actions (H:=insertion_order) (fun _ _ => 0%Z)
          (MergerGui.ClickStart :: map MergerGui.Signal evs) g))
  = ["/media/show"; "/media/locked"].
Proof.
  cbv zeta.
  destruct (window_after_aborted_run (so:=insertion_order) (fun _ _ => 0%Z)
              Demo.w0
              (MergerGui.after_actions (H:=insertion_order) (fun _ _ => 0%Z)
                 [MergerGui.Drop (fun _ => true) ["/media/show"; "/media/locked"]]
                 MergerGui.init)
              (PermissionError "[Errno 13] Permission denied: '/media/locked'")
              [MergerGui.ClickClear])
    as (_ & _ & _ & _ & Hset & _).
  - vm_compute. discriminate.
  - vm_compute. reflexivity.
  - reflexivity.
  - etransitivity; [exact Hset|]. vm_compute. reflexivity.
Defined.

(* ================================================================= *)
(** * Facts about the window of mergerV3.py *)

Section GuiFactsV3.
Context `{SetOrder}.

Import MergerV3Gui.







Lemma drain_spec (fuel : nat) (g : Gui) :
  length (log_queue g) <= fuel ->
  drain fuel g
  = (Ret tt, set_log_queue [] (set_log_area (log_area g ++ log_queue g) g), []).
Proof.
  revert g; induction fuel as [|fuel IH]; intros g Hlen.
  - destruct g as [s p q la fl pl pb b t]. cbn in *.
    destruct q; [|cbn in Hlen; lia]. unfold ret, set_log_queue, set_log_area. cbn.
    now rewrite app_nil_r.
  - cbn [drain]. unfold bind at 1, get.
    destruct g as [s p q la fl pl pb b t]. cbn [log_queue] in *.
    destruct q as [|[m c] q].
    + unfold ret, set_log_queue, set_log_area. cbn. now rewrite app_nil_r.
    + unfold bind at 1, modify at 1. unfold bind at 1, log_message, modify at 1.
      rewrite IH by (cbn in *; lia).
      unfold set_log_queue, set_log_area. cbn. now rewrite <- app_assoc.
Qed.

Lemma process_log_queue_spec (g : Gui) :
  process_log_queue g
  = (Ret tt, set_log_queue [] (set_log_area (log_area g ++ log_queue g) g), []).
Proof.
  unfold process_log_queue, bind, get. rewrite drain_spec by lia. reflexivity.
Qed.

Lemma set_ui_state_spec (processing : bool) (g : Gui) :
  set_ui_state processing g
  = (Ret tt,
     set_buttons
       (if processing
        then mkButtons "disabled" "disabled" "disabled" "üîÑ Processing..."
        else idle_buttons)
       (set_is_processing processing g),
     []).
Proof. destruct g, processing; reflexivity. Qed.

Lemma effect_spec (e : event) (g : Gui) :
  exists g',
    effect e g = (Ret tt, g', [])
    /\ folders_to_process g' = folders_to_process g
    /\ folder_labels g' = folder_labels g
    /\ threads_started g' = threads_started g
    /\ log_area g' = log_area g
    /\ log_queue g' = (log_queue g ++ queued_of [e])%list.
Proof.
  destruct g as [s p q la fl pl pb b t].
  destruct e; cbn [effect]; try rewrite set_ui_state_spec; eexists;
    (split; [reflexivity|]); cbn; rewrite ?app_nil_r; now repeat split.
Qed.

(** The widgets after an effect do not depend on the queue and the box. *)
Lemma effect_widgets (e : event) (g1 g2 : Gui) :
  widgets g1 = widgets g2 ->
  widgets (world_of (effect e g1)) = widgets (world_of (effect e g2)).
Proof.
  destruct g1 as [s1 p1 q1 la1 fl1 pl1 pb1 b1 t1].
  destruct g2 as [s2 p2 q2 la2 fl2 pl2 pb2 b2 t2].
  unfold widgets. cbn. intros [= -> -> -> -> -> -> ->].
  destruct e; cbn [effect]; try rewrite !set_ui_state_spec; reflexivity.
Qed.

End GuiFactsV3.

Section GuiInvariantsV3.
Context `{SetOrder}.

Import MergerV3Gui.

Lemma bind_quiet {World A B} (m : M (World:=World) A) (k : A -> M B) (w : World)
    (a : A) (w1 : World) (r : outcome B) (w2 : World) (ev : list event) :
  m w = (Ret a, w1, []) -> k a w1 = (r, w2, ev) -> bind m k w = (r, w2, ev).
Proof. unfold bind. now intros -> ->. Qed.

Lemma effects_run (evs : list event) (g : Gui) :
  exists g',
    for_each (map Effect evs) handle g = (Ret tt, g', [])
    /\ folders_to_process g' = folders_to_process g
    /\ folder_labels g' = folder_labels g
    /\ threads_started g' = threads_started g
    /\ log_area g' = log_area g
    /\ log_queue g' = (log_queue g ++ queued_of evs)%list.
Proof.
  revert g; induction evs as [|e evs IH]; intros g.
  - exists g. cbn. rewrite app_nil_r. now repeat split.
  - destruct (effect_spec e g) as (g1 & He & H1 & H2 & H3 & H4 & H5).
    destruct (IH g1) as (g2 & Hrest & I1 & I2 & I3 & I4 & I5).
    exists g2. split.
    + cbn [map for_each handle]. eapply bind_quiet; eassumption.
    + rewrite I1, I2, I3, I4, I5, H1, H2, H3, H4, H5.
      repeat split. unfold queued_of. cbn [flat_map].
      now rewrite app_nil_r, <- app_assoc.
Qed.

Lemma effects_widgets (evs : list event) (g1 g2 : Gui) :
  widgets g1 = widgets g2 ->
  widgets (world_of (for_each (map Effect evs) handle g1))
  = widgets (world_of (for_each (map Effect evs) handle g2)).
Proof.
  revert g1 g2; induction evs as [|e evs IH]; intros g1 g2 Hw.
  - exact Hw.
  - pose proof (effect_widgets e g1 g2 Hw) as Hw'.
    destruct (effect_spec e g1) as (g1' & He1 & _).
    destruct (effect_spec e g2) as (g2' & He2 & _).
    rewrite He1, He2 in Hw'. unfold world_of, fst, snd in Hw'.
    cbn [map for_each handle]. unfold bind. rewrite He1, He2.
    specialize (IH g1' g2' Hw').
    destruct (for_each (map Effect evs) handle g1') as [[r1 w1] ev1].
    destruct (for_each (map Effect evs) handle g2') as [[r2 w2] ev2].
    exact IH.
Qed.

(** The timer and the worker thread, in any interleaving: no queued
    message is lost, repeated or reordered, and the widgets are those the
    effects alone lead to. *)
Lemma background_run (actions : list action) (g : Gui) :
  forallb is_background actions = true ->
  exists g',
    for_each actions handle g = (Ret tt, g', [])
    /\ (log_area g' ++ log_queue g'
        = log_area g ++ log_queue g ++ queued_of (effects_of actions))%list
    /\ widgets g'
       = widgets (world_of (for_each (map Effect (effects_of actions)) handle g)).
Proof.
  revert g; induction actions as [|a actions IH]; intros g Hbg.
  - exists g. cbn. rewrite !app_nil_r. now repeat split.
  - cbn in Hbg. apply andb_true_iff in Hbg as [Ha Hbg].
    destruct a; try discriminate Ha.
    + destruct (IH (set_log_queue [] (set_log_area (log_area g ++ log_queue g) g)) Hbg)
        as (g' & Hrest & Hlog & Hw).
      exists g'. split; [|split].
      * cbn [for_each handle]. eapply bind_quiet;
          [apply process_log_queue_spec | exact Hrest].
      * rewrite Hlog. destruct g. cbn. now rewrite <- !app_assoc.
      * rewrite Hw. cbn [effects_of flat_map app].
        apply effects_widgets. now destruct g.
    + destruct (effect_spec e g) as (g1 & He & _ & _ & _ & H4 & H5).
      destruct (IH g1 Hbg) as (g' & Hrest & Hlog & Hw).
      exists g'. split; [|split].
      * cbn [for_each handle]. eapply bind_quiet; eassumption.
      * rewrite Hlog, H4, H5. unfold effects_of, queued_of.
        cbn [flat_map app]. now rewrite app_nil_r, <- !app_assoc.
      * rewrite Hw. unfold effects_of. cbn [flat_map app map for_each handle].
        unfold bind. rewrite He.
        match goal with
        | |- context [for_each ?l handle g1] =>
            destruct (for_each l handle g1) as [[r1 w1] ev1]
        end.
        reflexivity.
Qed.

Lemma start_processing_spec_v3 (g : Gui) :
  folders_to_process g <> [] ->
  start_processing g
  = (Ret tt,
     mkGui (folders_to_process g) true (log_queue g) [] (folder_labels g)
           (progress_label g) (progress_bar g)
           (mkButtons "disabled" "disabled" "disabled" "üîÑ Processing...")
           (S (threads_started g)),
     []).
Proof.
  intros Hne. unfold start_processing, bind at 1, get.
  destruct g as [s p q la fl pl pb b t]. cbn in *.
  destruct s as [|x s]; [congruence|]. cbn [PySet.truthy negb].
  unfold bind at 1. rewrite set_ui_state_spec. reflexivity.
Qed.





End GuiInvariantsV3.

(** X17. In mergerV3.py, however the runs of [process_log_queue] fall
    between the writes of the worker thread, every message the worker
    queues reaches the text box exactly once and in the order it was
    queued: after one more run of [process_log_queue] the queue is empty
    and the box holds what it held, then what was waiting in the queue,
    then the messages of the worker in order. *)
Theorem log_shows_the_queue_in_order {so : SetOrder}
    (actions : list MergerV3Gui.action) (g : MergerV3Gui.Gui) :
  forallb MergerV3Gui.is_background actions = true ->
  let g' := MergerV3Gui.after_actions (actions ++ [MergerV3Gui.Tick]) g in
  MergerV3Gui.log_queue g' = []
  /\ MergerV3Gui.log_area g'
     = (MergerV3Gui.log_area g ++ MergerV3Gui.log_queue g
        ++ MergerV3Gui.queued_of (MergerV3Gui.effects_of actions))%list.
Proof.
  intros Hbg. cbv zeta.
  destruct (background_run actions g Hbg) as (g1 & Hrun & Hlog & _).
  unfold MergerV3Gui.after_actions.
  erewrite for_each_app; [| exact Hrun |].
  2:{ cbn [for_each MergerV3Gui.handle]. eapply bind_quiet;
      [apply process_log_queue_spec | reflexivity]. }
  unfold world_of, fst, snd. destruct g1. cbn in *. now split.
Qed.

Lemma log_shows_the_queue_in_order_witness :
  MergerV3Gui.log_area
    (MergerV3Gui.after_actions (H:=insertion_order)
       ([MergerV3Gui.Effect (Queued "one" None); MergerV3Gui.Tick;
         MergerV3Gui.Effect (Queued "two" (Some COLOR_ERROR))]
        ++ [MergerV3Gui.Tick]) MergerV3Gui.init)
  = [("one", None); ("two", Some COLOR_ERROR)].
Proof.
  destruct (log_shows_the_queue_in_order (so:=insertion_order)
              [MergerV3Gui.Effect (Queued "one" None); MergerV3Gui.Tick;
               MergerV3Gui.Effect (Queued "two" (Some COLOR_ERROR))]
              MergerV3Gui.init eq_refl) as [_ Hlog].
  exact Hlog.
Defined.

(** X18. From a nonempty set of folders, a batch of mergerV3.py always
    ends with the window idle: whatever the system does and however the
    timer interleaves with the worker thread, after the last run of
    [process_log_queue] the buttons are enabled, the bar is full, the
    queue is empty, and the text box holds what was waiting in the queue
    at the start and then every message the worker queued, in the order
    it queued them.  The events of the worker end with what closes the
    run, so the last message of the box is the summary, and the label
    shows the same summary, with no more successes than folders.  The
    set of folders and its labels are as before the batch. *)
Theorem window_after_batch_v3 {World : Type} {os : OS World} {so : SetOrder}
    (w : World) (g : MergerV3Gui.Gui) (actions : list MergerV3Gui.action) :
  MergerV3Gui.folders_to_process g <> [] ->
  forallb MergerV3Gui.is_background actions = true ->
  MergerV3Gui.effects_of actions
  = events_of (MergerV3.processing_thread
                 (set_iter (MergerV3Gui.folders_to_process g)) w) ->
  let total := length (MergerV3Gui.folders_to_process g) in
  let evs := events_of (MergerV3.processing_thread
                          (set_iter (MergerV3Gui.folders_to_process g)) w) in
  let g' := MergerV3Gui.after_actions
              (MergerV3Gui.ClickStart :: actions ++ [MergerV3Gui.Tick]) g in
  MergerV3Gui.is_processing g' = false
  /\ MergerV3Gui.buttons g' = MergerV3Gui.idle_buttons
  /\ MergerV3Gui.progress_bar g' = (1, 1)
  /\ MergerV3Gui.log_queue g' = []
  /\ MergerV3Gui.folders_to_process g' = MergerV3Gui.folders_to_process g
  /\ MergerV3Gui.folder_labels g' = MergerV3Gui.folder_labels g
  /\ MergerV3Gui.log_area g'
     = app (MergerV3Gui.log_queue g) (MergerV3Gui.queued_of evs)
  /\ exists n loop,
       evs = (loop ++ closing_v3 n total)%list
       /\ n <= total
       /\ MergerV3Gui.progress_label g'
          = "Complete! ‚úÖ Processed " ++ Py.str_nat n ++ "/" ++ Py.str_nat total
            ++ " folders successfully."
       /\ MergerV3Gui.log_area g'
          = app (MergerV3Gui.log_queue g)
                (app (MergerV3Gui.queued_of loop)
                     [(Py.nl ++ MergerV3Gui.progress_label g', Some COLOR_SUCCESS)]).
Proof.
  intros Hne Hbg Heff. cbv zeta.
  pose proof (Permutation_length (set_iter_perm (MergerV3Gui.folders_to_process g)))
    as Hlen.
  set (folders := set_iter (MergerV3Gui.folders_to_process g)) in *.
  destruct (run_loop_trace_v3 (length folders) folders 0 0 w)
    as (n & w' & loop & Hloop & Htrace).
  pose proof (run_trace_count _ _ _ _ _ _ _ Htrace) as Hn.
  set (summary := "Complete! ‚úÖ Processed " ++ Py.str_nat n ++ "/"
                  ++ Py.str_nat (length folders) ++ " folders successfully.") in *.
  assert (Hevs : events_of (MergerV3.processing_thread folders w)
                 = (loop ++ [ProgressBarSet 1 1; ProgressLabel summary;
                             Queued (Py.nl ++ summary) (Some COLOR_SUCCESS);
                             SetUiState false])%list).
  { unfold MergerV3.processing_thread.
    erewrite bind_returns; [| exact Hloop | reflexivity]. reflexivity. }
  rewrite Hevs in Heff. rewrite Hevs.
  set (g1 := MergerV3Gui.mkGui (MergerV3Gui.folders_to_process g) true
               (MergerV3Gui.log_queue g) [] (MergerV3Gui.folder_labels g)
               (MergerV3Gui.progress_label g) (MergerV3Gui.progress_bar g)
               (MergerV3Gui.mkButtons "disabled" "disabled" "disabled"
                  "üîÑ Processing...")
               (S (MergerV3Gui.threads_started g))).
  destruct (background_run actions g1 Hbg) as (g2 & Hrun & Hlog & Hw).
  rewrite Heff in Hlog, Hw.
  destruct (effects_run loop g1) as (g3 & Hl3 & F1 & F2 & F3 & F4 & F5).
  assert (Hw3 : MergerV3Gui.widgets
                  (world_of (for_each
                               (map MergerV3Gui.Effect
                                  (loop ++ [ProgressBarSet 1 1; ProgressLabel summary;
                                            Queued (Py.nl ++ summary) (Some COLOR_SUCCESS);
                                            SetUiState false]))
                               MergerV3Gui.handle g1))
                = (false, summary, (1, 1), MergerV3Gui.idle_buttons,
                   MergerV3Gui.folders_to_process g, MergerV3Gui.folder_labels g,
                   S (MergerV3Gui.threads_started g))).
  { rewrite map_app. erewrite for_each_app; [| exact Hl3 | reflexivity].
    destruct g3. cbn in *. subst. reflexivity. }
  rewrite Hw3 in Hw.
  unfold MergerV3Gui.after_actions. cbn [for_each MergerV3Gui.handle].
  erewrite bind_quiet; [| apply (start_processing_spec_v3 g Hne) |].
  2:{ fold g1. erewrite for_each_app; [reflexivity | exact Hrun |].
      cbn [for_each MergerV3Gui.handle]. eapply bind_quiet;
        [apply process_log_queue_spec | reflexivity]. }
  unfold world_of, fst, snd.
  destruct g2 as [s2 p2 q2 la2 fl2 pl2 pb2 b2 t2].
  unfold MergerV3Gui.widgets in Hw. cbn in Hw, Hlog |- *.
  injection Hw as -> -> -> -> -> -> ->.
  repeat (split; [reflexivity|]).
  split; [exact Hlog|].
  exists n, loop. rewrite <- Hlen. fold folders. fold summary.
  split; [reflexivity|]. split; [exact Hn|]. split; [reflexivity|].
  rewrite Hlog. unfold MergerV3Gui.queued_of. rewrite flat_map_app.
  reflexivity.
Qed.

Lemma window_after_batch_v3_witness :
  let acts :=
    flat_map (fun e => [MergerV3Gui.Effect e; MergerV3Gui.Tick])
             (events_of (MergerV3.processing_thread ["/media/locked"] Demo.w0)) in
  MergerV3Gui.is_processing
    (MergerV3Gui.after_actions (H:=insertion_order)
       (MergerV3Gui.ClickStart :: acts ++ [MergerV3Gui.Tick])
       (MergerV3Gui.after_actions (H:=insertion_order)
          [MergerV3Gui.Browse "/media/locked"] MergerV3Gui.init))
  = false.
Proof.
  cbv zeta.
  destruct (window_after_batch_v3 (so:=insertion_order) Demo.w0
              (MergerV3Gui.after_actions (H:=insertion_order)
                 [MergerV3Gui.Browse "/media/locked"] MergerV3Gui.init)
              (flat_map (fun e => [MergerV3Gui.Effect e; MergerV3Gui.Tick])
                 (events_of (MergerV3.processing_thread ["/media/locked"] Demo.w0))))
    as (Hidle & _).
  - vm_compute. discriminate.
  - vm_compute. reflexivity.
  - vm_compute. reflexivity.
  - exact Hidle.
Defined.





Section DeniedSupport.
Context {World : Type} `{OS World}.

Lemma examined_until (w : World) (folder : Path) (seen : list DirEntry)
    (denied : DirEntry) (later : list DirEntry) (e : exn) :
  (forall x, In x seen -> is_file_error w (child folder (entry_name x)) = None) ->
  is_file_error w (child folder (entry_name denied)) = Some e ->
  examined w folder (seen ++ denied :: later) = seen
  /\ examination_error w folder (seen ++ denied :: later) = Some e.
Proof.
  intros Hseen Hd. induction seen as [|x seen IH]; cbn [app examined examination_error].
  - now rewrite Hd.
  - rewrite (Hseen x (or_introl eq_refl)).
    destruct IH as [-> ->]; [|now split].
    intros y Hy. apply Hseen. now right.
Qed.

End DeniedSupport.

(** X21. When [is_file] raises for an entry of a folder, the entries
    after it are not examined.  mergerV3.py logs the exception and goes
    on with what it gathered from the entries before it: the first video
    among them, their subtitles, and one warning for each further video
    among them.  merger.py lets the exception leave [analyze_folder],
    and the loop of the worker ends at that folder, after its header and
    the warnings logged so far, whatever folders follow. *)
Theorem denied_entry_ends_the_examination {World : Type} {os : OS World}
    (total i : nat) (fp : string) (rest : list string) (c : nat) (w : World)
    (seen : list DirEntry) (denied : DirEntry) (later : list DirEntry) (e : exn) :
  listdir w (of_string fp) = Ret (seen ++ denied :: later)%list ->
  (forall x, In x seen ->
             is_file_error w (child (of_string fp) (entry_name x)) = None) ->
  is_file_error w (child (of_string fp) (entry_name denied)) = Some e ->
  let folder := of_string fp in
  MergerV3.analyze_folder fp w
  = (Ret (selected_video folder seen, collected_subtitles folder seen), w,
     (ambiguity_warnings_v3 folder seen
      ++ [Logged ERROR ("Could not analyze folder " ++ fp ++ ": " ++ exn_str e)])%list)
  /\ Merger.analyze_folder fp w = (Raise e, w, ambiguity_warnings folder seen)
  /\ Merger.run_loop total i (fp :: rest) c w
     = (Raise e, w, (header total i fp ++ ambiguity_warnings folder seen)%list).
Proof.
  intros Hl Hseen Hd folder.
  destruct (examined_until w folder seen denied later e Hseen Hd) as [Hex Herr].
  assert (Hm : Merger.analyze_folder fp w
               = (Raise e, w, ambiguity_warnings folder seen)).
  { rewrite (analyze_folder_examined _ _ _ Hl). fold folder. now rewrite Hex, Herr. }
  split; [|split; [exact Hm|]].
  - rewrite (analyze_folder_examined_v3 _ _ _ Hl). fold folder.
    now rewrite Hex, Herr.
  - apply run_loop_abort. now apply process_folder_escapes.
Qed.

Lemma denied_entry_ends_the_examination_witness :
  result_of (MergerV3.analyze_folder "/media/guarded" Demo.w_guarded)
  = Ret (Some (child (of_string "/media/guarded") "film.mkv"),
         [child (of_string "/media/guarded") "film.en.srt"])
  /\ result_of (Merger.run_loop 2 0 ["/media/guarded"; "/media/show"] 0 Demo.w_guarded)
     = Raise (PermissionError "[Errno 13] Permission denied: '/media/guarded/private'").
Proof.
  destruct (denied_entry_ends_the_examination 2 0 "/media/guarded" ["/media/show"] 0
              Demo.w_guarded
              [Demo.file "film.mkv"; Demo.file "film.en.srt"] (Demo.file "private")
              [Demo.file "film.fr.srt"]
              (PermissionError "[Errno 13] Permission denied: '/media/guarded/private'"))
    as (Hv3 & _ & Hrun).
  - vm_compute. reflexivity.
  - intros x [<-|[<-|[]]]; reflexivity.
  - reflexivity.
  - rewrite Hv3, Hrun. split; reflexivity.
Defined.
